(** * Experiment orchestration: trials, escalation sequences, resources

    A shallow embedding of the [experiment] package:
    - [experiment_exceptions.py]: the exception classes and the
      [handle_exceptions] decorator;
    - [experiment.py]: [_create_error_sequence], [Stage], [BlockingStage],
      [TrialResults], [Trial] and [Experiment];
    - [resource_control.py]: [ResourceWarden] and [ResourceContainer].

    Python objects are mutated in place and keep their mutations when a
    call raises.  Every method is therefore a function from the object
    (and the outside world the stages act on) to an outcome together with
    the object and the world after the call. *)

From stdpp Require Import gmap strings list fin_maps.
From Stdlib Require Import ZArith Lia.

(* ===================================================================== *)
(** * Exceptions and call outcomes *)
(* ===================================================================== *)

(** The classes of [experiment_exceptions.py], the built-in classes the
    modelled code can raise by itself, and the two remaining families:
    any other subclass of [Exception], and the classes that derive from
    [BaseException] only ([KeyboardInterrupt], [SystemExit]), which an
    [except Exception] clause does not catch. *)
Inductive exc_class :=
  | ExperimentAbort
  | ExperimentReset
  | TrialAbort
  | TrialReset
  | StageAbort
  | StageReset
  | Ignore
  | IndexError
  | KeyError
  | TypeError
  | NameError
  | AttributeError
  | UnboundLocalError
  | OtherException (name : string)
  | OtherBaseException (name : string).

#[global] Instance exc_class_eq_dec : EqDecision exc_class.
Proof. solve_decision. Defined.

(** An exception instance: its class and what it was built from.  The
    payload tells the instance a stage raised from the fresh instance a
    [raise cls] statement builds. *)
Record exn := Exn { exn_class : exc_class; exn_args : string }.

#[global] Instance exn_eq_dec : EqDecision exn.
Proof. solve_decision. Defined.

(** [raise cls]: Python instantiates the class with no argument. *)
Definition instance (c : exc_class) : exn := Exn c "".

Inductive result (A : Type) :=
  | Ret (a : A)
  | Raise (e : exn).
Arguments Ret {A} a.
Arguments Raise {A} e.

(** [except (TrialAbort, TrialReset, StageAbort, StageReset)] *)
Definition is_manual_outcome (c : exc_class) : bool :=
  match c with
  | TrialAbort | TrialReset | StageAbort | StageReset => true
  | _ => false
  end.

(** [except Exception] *)
Definition is_Exception (c : exc_class) : bool :=
  match c with
  | OtherBaseException _ => false
  | _ => true
  end.

(* ===================================================================== *)
(** * Error sequences *)
(* ===================================================================== *)

(** A Python error sequence is a heterogeneous list: exception classes,
    [(cls, count)] tuples, and, once flattened, the integer [0] that
    marks the class before it as repeated forever. *)
Inductive seq_elem :=
  | SClass (c : exc_class)
  | SPair (c : exc_class) (n : Z)
  | SInt (n : Z).

#[global] Instance seq_elem_eq_dec : EqDecision seq_elem.
Proof. solve_decision. Defined.

(** The body of the [for e in error_sequence] loop, on the accumulator
    [flat_sequence].  An element that is not a class is indexed as a
    tuple; indexing an integer raises [TypeError]. *)
Fixpoint create_error_sequence_loop (flat_sequence error_sequence : list seq_elem)
  : result (list seq_elem) :=
  match error_sequence with
  | [] => Ret flat_sequence
  | e :: rest =>
      match e with
      | SPair c n =>
          if (n =? 0)%Z
          then create_error_sequence_loop (flat_sequence ++ [SClass c; SInt 0]) rest
          else create_error_sequence_loop
                 (flat_sequence ++ replicate (Z.to_nat n) (SClass c)) rest
      | SInt _ => Raise (Exn TypeError "'int' object is not subscriptable")
      | SClass c => create_error_sequence_loop (flat_sequence ++ [SClass c]) rest
      end
  end.

Definition _create_error_sequence (error_sequence : list seq_elem)
  : result (list seq_elem) :=
  create_error_sequence_loop [] error_sequence.

(** [raise x] for an element of the sequence: a class is instantiated,
    anything else is not an exception. *)
Definition raise_elem (e : seq_elem) : exn :=
  match e with
  | SClass c => instance c
  | _ => Exn TypeError "exceptions must derive from BaseException"
  end.

(** [x == 0] for an element of the sequence. *)
Definition is_zero (e : seq_elem) : bool :=
  match e with
  | SInt 0 => true
  | _ => false
  end.

(** The objects [handle_exceptions] decorates have an [error_sequence]
    attribute. *)
Class HasErrorSequence (S : Type) := {
  self_error_sequence : S → list seq_elem;
  set_error_sequence : list seq_elem → S → S;
  self_error_sequence_set :
    ∀ es s, self_error_sequence (set_error_sequence es s) = es
}.

Section handle_exceptions.
Context {S W A : Type} `{HasErrorSequence S}.

(** A decorated method: it receives [self] and the world, and gives an
    outcome, the mutated [self] and the world. *)
Definition method := S → W → result A * S * W.

(** [handle_exceptions(func)], the function [try_function].
    [logging.exception(err)] writes to a log sink and is left out. *)
Definition handle_exceptions (func : method) : method :=
  fun self w =>
    let '(r, self, w) := func self w in
    match r with
    | Ret a => (Ret a, self, w)
    | Raise err =>
        if is_manual_outcome (exn_class err) then (Raise err, self, w)
        else if negb (is_Exception (exn_class err)) then (Raise err, self, w)
        else
          let es := self_error_sequence self in
          match es with
          | [] => (Raise err, self, w)
          | front :: popped =>
              if bool_decide (1 < length es)
                 && from_option is_zero false (es !! 1)
              then (Raise (raise_elem front), self, w)
              else (Raise (raise_elem front), set_error_sequence popped self, w)
          end
    end.

(** A step operation that fails with [err] and does nothing else. *)
Definition failing_step (err : exn) : method :=
  fun self w => (Raise err, self, w).

(** The decorated step operations [funcs] called one after the other on
    the same object. *)
Fixpoint consecutive_calls (funcs : list method) (self : S) (w : W)
  : list (result A) * S * W :=
  match funcs with
  | [] => ([], self, w)
  | func :: funcs =>
      let '(r, self, w) := handle_exceptions func self w in
      let '(rs, self, w) := consecutive_calls funcs self w in
      (r :: rs, self, w)
  end.

(** The decorated step operations [funcs], called one after the other
    on the object [self] in the world [w], fail with [errs]: the body of
    each call, run on the object and the world as the calls before it
    left them, raises its error, and it may have changed anything in the
    object but its error sequence.  What a body does on another object
    or in another world is left open. *)
Fixpoint fail_in_turn (funcs : list method) (errs : list exn) (self : S) (w : W)
  : Prop :=
  match funcs, errs with
  | [], [] => True
  | func :: funcs, err :: errs =>
      (func self w).1.1 = Raise err
      ∧ self_error_sequence (func self w).1.2 = self_error_sequence self
      ∧ fail_in_turn funcs errs (handle_exceptions func self w).1.2
                     (handle_exceptions func self w).2
  | _, _ => False
  end.
End handle_exceptions.

(** A failure that the decorator routes through the error sequence. *)
Definition unexpected (err : exn) : Prop :=
  is_manual_outcome (exn_class err) = false ∧ is_Exception (exn_class err) = true.

(** The smallest decorated object: nothing but its error sequence. *)
Record Entity := { entity_error_sequence : list seq_elem }.

#[global] Instance Entity_HasErrorSequence : HasErrorSequence Entity := {|
  self_error_sequence := entity_error_sequence;
  set_error_sequence es _ := {| entity_error_sequence := es |};
  self_error_sequence_set _ _ := eq_refl
|}.

(* ===================================================================== *)
(** * Resources ([resource_control.py]) *)
(* ===================================================================== *)

(** The counting primitive behind a resource name ([multiprocessing]'s
    [Semaphore] and [BoundedSemaphore]): a counter, and for the bounded
    kind the value it may not exceed. *)
Record semaphore := { sem_value : nat; sem_bound : option nat }.

(** The keyword arguments of the primitive's [acquire]. *)
Record acquire_options := { opt_block : bool; opt_timeout : option Z }.

(** [sem.acquire(block, timeout)].  With a positive counter the call takes
    one unit and returns [True].  With the counter at zero a non-blocking
    call, or a blocking call whose timeout runs out, returns [False]; a
    blocking call without timeout waits for another process and has no
    outcome in a single process, so it is given the same answer. *)
Definition sem_acquire (o : acquire_options) (s : semaphore) : bool * semaphore :=
  match sem_value s with
  | 0 => (false, s)
  | Datatypes.S n => (true, {| sem_value := n; sem_bound := sem_bound s |})
  end.

(** [sem.release()]: a bounded semaphore refuses to go over its bound. *)
Definition sem_release (s : semaphore) : result unit * semaphore :=
  match sem_bound s with
  | Some b =>
      if bool_decide (b ≤ sem_value s)
      then (Raise (Exn (OtherException "ValueError")
                       "semaphore released too many times"), s)
      else (Ret (), {| sem_value := Datatypes.S (sem_value s); sem_bound := sem_bound s |})
  | None => (Ret (), {| sem_value := Datatypes.S (sem_value s); sem_bound := sem_bound s |})
  end.

(** One argument of [ResourceWarden.acquire]: a name, a dict from names
    to the options of their acquisition (iterated in insertion order), or
    a value of another type. *)
Inductive resource_spec :=
  | RName (r : string)
  | RDict (d : list (string * acquire_options))
  | ROther.

Module ResourceWarden.

Record t := {
  resource_dict : gmap string semaphore;
  block : bool;
  timeout : option Z
}.

Definition set_resource_dict (d : gmap string semaphore) (self : t) : t :=
  {| resource_dict := d; block := block self; timeout := timeout self |}.

(** [self.resource_dict[r].acquire(...)] *)
Definition acquire_one (self : t) (r : string) (o : acquire_options)
  : result bool * t :=
  match resource_dict self !! r with
  | None => (Raise (Exn KeyError r), self)
  | Some sem =>
      let '(success, sem) := sem_acquire o sem in
      (Ret success, set_resource_dict (<[r := sem]> (resource_dict self)) self)
  end.

(** [for r in resource:] of the dict branch.  The loop runs to the end
    of the dict whatever [success] was; [success] is what the last
    iteration assigned, or what it was before when the dict is empty. *)
Fixpoint acquire_dict (self : t) (acquired : list string) (success : option bool)
    (resource : list (string * acquire_options))
  : result (list string * option bool) * t :=
  match resource with
  | [] => (Ret (acquired, success), self)
  | (r, o) :: resource =>
      match acquire_one self r o with
      | (Raise e, self) => (Raise e, self)
      | (Ret ok, self) =>
          acquire_dict self (if ok then acquired ++ [r] else acquired)
                       (Some ok) resource
      end
  end.

(** [release], called with the names as arguments *)
Fixpoint release_loop (self : t) (released resources : list string)
  : result (list string) * t :=
  match resources with
  | [] => (Ret released, self)
  | r :: resources =>
      match resource_dict self !! r with
      | None => (Raise (Exn KeyError r), self)
      | Some sem =>
          match sem_release sem with
          | (Raise e, _) => (Raise e, self)
          | (Ret _, sem) =>
              release_loop
                (set_resource_dict (<[r := sem]> (resource_dict self)) self)
                (released ++ [r]) resources
          end
      end
  end.

Definition release (self : t) (resources : list string)
  : result (list string) * t :=
  release_loop self [] resources.

(** [for resource in resources:] of [acquire].  [success] is a local
    variable that is unbound until the first acquisition. *)
Fixpoint acquire_loop (self : t) (acquired : list string) (success : option bool)
    (resources : list resource_spec) : result (list string) * t :=
  match resources with
  | [] => (Ret acquired, self)
  | resource :: resources =>
      let step :=
        match resource with
        | RName r =>
            match acquire_one self r
                    {| opt_block := block self; opt_timeout := timeout self |} with
            | (Raise e, self) => (Raise e, self)
            | (Ret ok, self) =>
                (Ret (if ok then acquired ++ [r] else acquired, Some ok), self)
            end
        | RDict d => acquire_dict self acquired success d
        | ROther =>
            (Raise (Exn TypeError "Resources must be either str or dict"), self)
        end in
      match step with
      | (Raise e, self) => (Raise e, self)
      | (Ret (acquired, success), self) =>
          match success with
          | None =>
              (Raise (Exn UnboundLocalError
                          "local variable 'success' referenced before assignment"),
               self)
          | Some false =>
              match release self acquired with
              | (Raise e, self) => (Raise e, self)
              | (Ret _, self) => (Ret [], self)
              end
          | Some true => acquire_loop self acquired success resources
          end
      end
  end.

Definition acquire (self : t) (resources : list resource_spec)
  : result (list string) * t :=
  acquire_loop self [] None resources.

End ResourceWarden.

(** Python's [len(l)], and the position a possibly negative index denotes
    in [l[i]] and [l.pop(i)], when there is one. *)
Definition len {A} (l : list A) : Z := Z.of_nat (length l).

Definition py_index {A} (l : list A) (i : Z) : option nat :=
  if bool_decide (0 ≤ i < len l)%Z then Some (Z.to_nat i)
  else if bool_decide (- len l ≤ i < 0)%Z then Some (Z.to_nat (len l + i))
  else None.

Module ResourceContainer.

(** A container holds a reference to a warden that other containers may
    hold too: the warden is passed to, and returned by, every method
    next to the container itself. *)
Record t := {
  resources : list string;
  chunk_marker : Z
}.

(** What [acquire] returns: [True] when called without argument,
    otherwise the list the warden returned. *)
Inductive acquired := AcquiredTrue | AcquiredList (l : list string).

Definition acquire (self : t) (resource_warden : ResourceWarden.t)
    (specs : list resource_spec) : result acquired * t * ResourceWarden.t :=
  match specs with
  | [] => (Ret AcquiredTrue, self, resource_warden)
  | _ =>
      match ResourceWarden.acquire resource_warden specs with
      | (Raise e, resource_warden) => (Raise e, self, resource_warden)
      | (Ret l, resource_warden) =>
          (Ret (AcquiredList l),
           {| resources := resources self ++ l;
              chunk_marker := chunk_marker self |},
           resource_warden)
      end
  end.

(** [release(index = -1)] *)
Definition release (self : t) (resource_warden : ResourceWarden.t) (index : Z)
  : result (list string) * t * ResourceWarden.t :=
  match py_index (resources self) index with
  | None => (Raise (Exn IndexError "list index out of range"), self, resource_warden)
  | Some pos =>
      match resources self !! pos with
      | None =>
          (Raise (Exn IndexError "list index out of range"), self, resource_warden)
      | Some name =>
          match ResourceWarden.release resource_warden [name] with
          | (Raise e, resource_warden) => (Raise e, self, resource_warden)
          | (Ret resource, resource_warden) =>
              match resource with
              | [] => (Ret resource, self, resource_warden)
              | _ :: _ =>
                  let popped := delete pos (resources self) in
                  if bool_decide (len popped > 0)%Z
                     && bool_decide (((len popped + index) `mod` len popped
                                      < chunk_marker self)%Z)
                  then
                    let self := {| resources := popped;
                                   chunk_marker := chunk_marker self - 1 |} in
                    if bool_decide (chunk_marker self < 0)%Z
                    then (Raise (Exn (OtherException "Exception")
                            "ResourceContainer chunk_marker somehow dropped below 0."),
                          self, resource_warden)
                    else (Ret resource, self, resource_warden)
                  else
                    (Ret resource,
                     {| resources := popped; chunk_marker := chunk_marker self |},
                     resource_warden)
              end
          end
      end
  end.

(** [for i in range(num): released.append(self.release())] *)
Fixpoint release_chunk_loop (num : nat) (self : t) (resource_warden : ResourceWarden.t)
    (released : list (list string))
  : result (list (list string)) * t * ResourceWarden.t :=
  match num with
  | 0 => (Ret released, self, resource_warden)
  | Datatypes.S num =>
      match release self resource_warden (-1) with
      | (Raise e, self, resource_warden) => (Raise e, self, resource_warden)
      | (Ret r, self, resource_warden) =>
          release_chunk_loop num self resource_warden (released ++ [r])
      end
  end.

Definition release_chunk (self : t) (resource_warden : ResourceWarden.t)
    (num : option Z) : result (list (list string)) * t * ResourceWarden.t :=
  let num := match num with
             | None => (len (resources self) - chunk_marker self)%Z
             | Some num => num
             end in
  release_chunk_loop (Z.to_nat num) self resource_warden [].

Definition reset_chunk_marker (self : t) : t :=
  {| resources := resources self; chunk_marker := len (resources self) |}.

Definition release_all (self : t) (resource_warden : ResourceWarden.t) :=
  release_chunk self resource_warden (Some (len (resources self))).

End ResourceContainer.

(* ===================================================================== *)
(** * Stages, trial results and trials ([experiment.py]) *)
(* ===================================================================== *)

(** A Python dict with string keys, as the trial state and the keyword
    arguments are.  [d.update(u)] is [u ∪ d]: the union prefers its left
    operand. *)
Abbreviation dict Val := (gmap string Val).

Module Stage.
Section stage.
Context {Val W : Type}.

(** The attributes [Stage.__init__] and [BlockingStage.__init__] set. *)
Record attrs := {
  error_sequence : list seq_elem;
  original_error_sequence : list seq_elem
}.

#[export] Instance attrs_HasErrorSequence : HasErrorSequence attrs := {|
  self_error_sequence := error_sequence;
  set_error_sequence es a :=
    {| error_sequence := es;
       original_error_sequence := original_error_sequence a |};
  self_error_sequence_set _ _ := eq_refl
|}.

(** What [start] and [is_done] return: a status and an update of the
    trial state. *)
Definition answer : Type := Z * dict Val.

(** A stage object.  [blocking] is [isinstance(stage, BlockingStage)].
    [start] and [is_done] are what the subclass defines: they receive
    the trial state as keyword arguments, act on the stage's own
    attributes and on the world, and return or raise.  A subclass that
    decorates them has [handle_exceptions] applied in these fields. *)
Record t := {
  blocking : bool;
  self_attrs : attrs;
  start : dict Val → method (S:=attrs) (W:=W) (A:=answer);
  is_done : dict Val → method (S:=attrs) (W:=W) (A:=answer)
}.

Definition set_attrs (a : attrs) (stage : t) : t :=
  {| blocking := blocking stage; self_attrs := a;
     start := start stage; is_done := is_done stage |}.

(** [__init__(error_sequence)] of both classes, on the attributes. *)
Definition init_attrs (error_sequence : list seq_elem) : result attrs :=
  match _create_error_sequence error_sequence with
  | Raise e => Raise e
  | Ret es => Ret {| error_sequence := es; original_error_sequence := es |}
  end.

Definition reset_error_sequence (stage : t) : t :=
  set_attrs {| error_sequence := original_error_sequence (self_attrs stage);
               original_error_sequence := original_error_sequence (self_attrs stage) |}
            stage.

(** The methods of the base classes. *)
Definition not_implemented : dict Val → method (S:=attrs) (W:=W) (A:=answer) :=
  fun _ self w => (Raise (instance (OtherException "NotImplementedError")), self, w).
End stage.
Arguments t : clear implicits.
Arguments answer : clear implicits.
End Stage.

Module TrialResults.
Section trial_results.
Context {Val : Type}.

Record t := { data : list Val; metadata : dict Val }.

Definition add_data (x : Val) (self : t) : t :=
  {| data := data self ++ [x]; metadata := metadata self |}.

Definition edit_metadata (key : string) (x : Val) (self : t) : t :=
  {| data := data self; metadata := <[key := x]> (metadata self) |}.

(** [__bool__] returns [True] whatever the content. *)
Definition bool (self : t) : Datatypes.bool := true.

Definition copy (self : t) : t :=
  {| data := data self; metadata := metadata self |}.
End trial_results.
Arguments t : clear implicits.
End TrialResults.

Module Trial.
Section trial.
Context {Val W : Type}.

(** [stage_args] is not set by [__init__]: it is [None] here until
    [setup] or [new_trial] assigns it. *)
Record t := {
  error_sequence : list seq_elem;
  original_error_sequence : list seq_elem;
  state : dict Val;
  initial_state : dict Val;
  state_checkpoint : dict Val;
  stage_index : nat;
  stages : list (Stage.t Val W);
  running : bool;
  initial_results : TrialResults.t Val;
  results : TrialResults.t Val;
  done : bool;
  multiple_results : bool;
  errors : Z;
  fails : Z;
  stage_args : option (list (dict Val))
}.

Definition with_error_sequence (x : list seq_elem) (self : t) : t :=
  {| error_sequence := x;
     original_error_sequence := original_error_sequence self;
     state := state self; initial_state := initial_state self;
     state_checkpoint := state_checkpoint self;
     stage_index := stage_index self; stages := stages self;
     running := running self; initial_results := initial_results self;
     results := results self; done := done self;
     multiple_results := multiple_results self; errors := errors self;
     fails := fails self; stage_args := stage_args self |}.

Definition with_state (x : dict Val) (self : t) : t :=
  {| error_sequence := error_sequence self;
     original_error_sequence := original_error_sequence self;
     state := x; initial_state := initial_state self;
     state_checkpoint := state_checkpoint self;
     stage_index := stage_index self; stages := stages self;
     running := running self; initial_results := initial_results self;
     results := results self; done := done self;
     multiple_results := multiple_results self; errors := errors self;
     fails := fails self; stage_args := stage_args self |}.

Definition with_initial_state (x : dict Val) (self : t) : t :=
  {| error_sequence := error_sequence self;
     original_error_sequence := original_error_sequence self;
     state := state self; initial_state := x;
     state_checkpoint := state_checkpoint self;
     stage_index := stage_index self; stages := stages self;
     running := running self; initial_results := initial_results self;
     results := results self; done := done self;
     multiple_results := multiple_results self; errors := errors self;
     fails := fails self; stage_args := stage_args self |}.

Definition with_state_checkpoint (x : dict Val) (self : t) : t :=
  {| error_sequence := error_sequence self;
     original_error_sequence := original_error_sequence self;
     state := state self; initial_state := initial_state self;
     state_checkpoint := x;
     stage_index := stage_index self; stages := stages self;
     running := running self; initial_results := initial_results self;
     results := results self; done := done self;
     multiple_results := multiple_results self; errors := errors self;
     fails := fails self; stage_args := stage_args self |}.

Definition with_stage_index (x : nat) (self : t) : t :=
  {| error_sequence := error_sequence self;
     original_error_sequence := original_error_sequence self;
     state := state self; initial_state := initial_state self;
     state_checkpoint := state_checkpoint self;
     stage_index := x; stages := stages self;
     running := running self; initial_results := initial_results self;
     results := results self; done := done self;
     multiple_results := multiple_results self; errors := errors self;
     fails := fails self; stage_args := stage_args self |}.

Definition with_stages (x : list (Stage.t Val W)) (self : t) : t :=
  {| error_sequence := error_sequence self;
     original_error_sequence := original_error_sequence self;
     state := state self; initial_state := initial_state self;
     state_checkpoint := state_checkpoint self;
     stage_index := stage_index self; stages := x;
     running := running self; initial_results := initial_results self;
     results := results self; done := done self;
     multiple_results := multiple_results self; errors := errors self;
     fails := fails self; stage_args := stage_args self |}.

Definition with_running (x : bool) (self : t) : t :=
  {| error_sequence := error_sequence self;
     original_error_sequence := original_error_sequence self;
     state := state self; initial_state := initial_state self;
     state_checkpoint := state_checkpoint self;
     stage_index := stage_index self; stages := stages self;
     running := x; initial_results := initial_results self;
     results := results self; done := done self;
     multiple_results := multiple_results self; errors := errors self;
     fails := fails self; stage_args := stage_args self |}.

Definition with_results (x : TrialResults.t Val) (self : t) : t :=
  {| error_sequence := error_sequence self;
     original_error_sequence := original_error_sequence self;
     state := state self; initial_state := initial_state self;
     state_checkpoint := state_checkpoint self;
     stage_index := stage_index self; stages := stages self;
     running := running self; initial_results := initial_results self;
     results := x; done := done self;
     multiple_results := multiple_results self; errors := errors self;
     fails := fails self; stage_args := stage_args self |}.

Definition with_done (x : bool) (self : t) : t :=
  {| error_sequence := error_sequence self;
     original_error_sequence := original_error_sequence self;
     state := state self; initial_state := initial_state self;
     state_checkpoint := state_checkpoint self;
     stage_index := stage_index self; stages := stages self;
     running := running self; initial_results := initial_results self;
     results := results self; done := x;
     multiple_results := multiple_results self; errors := errors self;
     fails := fails self; stage_args := stage_args self |}.

Definition with_multiple_results (x : bool) (self : t) : t :=
  {| error_sequence := error_sequence self;
     original_error_sequence := original_error_sequence self;
     state := state self; initial_state := initial_state self;
     state_checkpoint := state_checkpoint self;
     stage_index := stage_index self; stages := stages self;
     running := running self; initial_results := initial_results self;
     results := results self; done := done self;
     multiple_results := x; errors := errors self;
     fails := fails self; stage_args := stage_args self |}.

Definition with_errors (x : Z) (self : t) : t :=
  {| error_sequence := error_sequence self;
     original_error_sequence := original_error_sequence self;
     state := state self; initial_state := initial_state self;
     state_checkpoint := state_checkpoint self;
     stage_index := stage_index self; stages := stages self;
     running := running self; initial_results := initial_results self;
     results := results self; done := done self;
     multiple_results := multiple_results self; errors := x;
     fails := fails self; stage_args := stage_args self |}.

Definition with_stage_args (x : option (list (dict Val))) (self : t) : t :=
  {| error_sequence := error_sequence self;
     original_error_sequence := original_error_sequence self;
     state := state self; initial_state := initial_state self;
     state_checkpoint := state_checkpoint self;
     stage_index := stage_index self; stages := stages self;
     running := running self; initial_results := initial_results self;
     results := results self; done := done self;
     multiple_results := multiple_results self; errors := errors self;
     fails := fails self; stage_args := x |}.

#[export] Instance t_HasErrorSequence : HasErrorSequence t := {|
  self_error_sequence := error_sequence;
  set_error_sequence := with_error_sequence;
  self_error_sequence_set _ _ := eq_refl
|}.

(** [Trial.__init__].  A new trial is done: the experiment takes that
    as the sign to give it its first arguments. *)
Definition init (stages : list (Stage.t Val W)) (initial_state : dict Val)
    (error_sequence : list seq_elem) (results : TrialResults.t Val)
  : result t :=
  match _create_error_sequence error_sequence with
  | Raise e => Raise e
  | Ret es =>
      Ret {| error_sequence := es;
             original_error_sequence := es;
             state := initial_state;
             initial_state := initial_state;
             state_checkpoint := initial_state;
             stage_index := 0;
             stages := stages;
             running := false;
             initial_results := TrialResults.copy results;
             results := TrialResults.copy (TrialResults.copy results);
             done := true;
             multiple_results := false;
             errors := 0;
             fails := 0;
             stage_args := None |}
  end.

Definition set_running (self : t) : t := with_running true self.
Definition unset_running (self : t) : t := with_running false self.
Definition is_running (self : t) : bool := running self.
Definition is_done (self : t) : bool := done self.
Definition set_done (self : t) : t := with_done true self.
Definition setup (stage_args : list (dict Val)) (self : t) : t :=
  with_stage_args (Some stage_args) self.

Definition reset_stage (self : t) : t :=
  let self := unset_running self in
  with_state (state_checkpoint self) self.

(** [self.state.update(self.stage_args[i])], with the two ways the
    subscript can fail. *)
Definition update_from_stage_args (i : nat) (self : t) : result unit * t :=
  match stage_args self with
  | None =>
      (Raise (Exn AttributeError "'Trial' object has no attribute 'stage_args'"),
       self)
  | Some stage_args =>
      match stage_args !! i with
      | None => (Raise (Exn IndexError "list index out of range"), self)
      | Some overlay => (Ret (), with_state (overlay ∪ state self) self)
      end
  end.

Definition reset (self : t) : result unit * t :=
  let self := with_state (initial_state self) self in
  let self := with_state_checkpoint (state self) self in
  match update_from_stage_args 0 self with
  | (Raise e, self) => (Raise e, self)
  | (Ret _, self) =>
      let self := with_done false self in
      let self := with_multiple_results false self in
      let self := with_stage_index 0 self in
      let self := with_errors 0 self in
      let self := unset_running self in
      let self := with_results (TrialResults.copy (initial_results self)) self in
      (Ret (), self)
  end.

Definition new_trial (self : t) (stage_args : option (list (dict Val)))
    (kwargs : dict Val) : result unit * t :=
  let stage_args :=
    match stage_args with
    | None => replicate (length (stages self)) ∅
    | Some stage_args => stage_args
    end in
  let self := with_error_sequence (original_error_sequence self) self in
  let self := with_initial_state (kwargs ∪ initial_state self) self in
  let self := with_state (initial_state self) self in
  let self := with_state_checkpoint (state self) self in
  let self := with_stage_args (Some stage_args) self in
  match update_from_stage_args 0 self with
  | (Raise e, self) => (Raise e, self)
  | (Ret _, self) =>
      let self := with_done false self in
      let self := with_multiple_results false self in
      let self := with_stage_index 0 self in
      let self := with_errors 0 self in
      let self := with_results (TrialResults.copy (initial_results self)) self in
      let self := unset_running self in
      let self := with_stages (Stage.reset_error_sequence <$> stages self) self in
      (Ret (), self)
  end.

(** [next_stage]: a stage without entry in [stage_args] is no error. *)
Definition next_stage (self : t) : result unit * t :=
  let self := with_stage_index (Datatypes.S (stage_index self)) self in
  match update_from_stage_args (stage_index self) self with
  | (Raise e, self') =>
      if decide (exn_class e = IndexError)
      then (Ret (), with_running false self')
      else (Raise e, self')
  | (Ret _, self') => (Ret (), with_running false self')
  end.

(** The three statements that follow every stage call that returned:
    [trial_results] is appended to the results, and the whole update,
    that key included, goes into the state. *)
Definition absorb (next_state : dict Val) (self : t) : t :=
  let self :=
    match next_state !! "trial_results" with
    | Some x => with_results (TrialResults.add_data x (results self)) self
    | None => self
    end in
  with_state (next_state ∪ state self) self.

(** What [run] returns. *)
Definition report : Type := Z * option (TrialResults.t Val).

(** The end of [run]: the trial is done when the stage that just
    finished was the last one. *)
Definition finish (just_finished : bool) (self : t) (w : W) : result report * t * W :=
  if bool_decide (stage_index self = length (stages self)) && just_finished
  then
    let self := with_done true self in
    (Ret (1%Z, Some (results self)), self, w)
  else (Ret (0%Z, None), self, w).

(** A call of a method of the current stage: the stage object keeps
    what the call did to its attributes. *)
Definition call_stage (current_stage : Stage.t Val W)
    (f : dict Val → method (S:=Stage.attrs) (W:=W) (A:=Stage.answer Val))
    (self : t) (w : W) : result (Stage.answer Val) * t * W :=
  let '(r, a, w) := f (state self) (Stage.self_attrs current_stage) w in
  (r, with_stages (<[stage_index self := Stage.set_attrs a current_stage]>
                     (stages self)) self, w).

(** The body of [run], before decoration. *)
Definition run_body : method (S:=t) (W:=W) (A:=report) :=
  fun self w =>
  if is_done self then (Ret (1%Z, None), self, w)
  else
    match stages self !! stage_index self with
    | None => (Raise (Exn IndexError "list index out of range"), self, w)
    | Some current_stage =>
        if negb (running self) then
          let self := with_state_checkpoint (state self) self in
          if Stage.blocking current_stage then
            let '(r, self, w) :=
              call_stage current_stage (Stage.start current_stage) self w in
            let caught :=
              match r with
              | Ret (status, next_state) => Ret (status, next_state)
              | Raise e =>
                  if decide (exn_class e = StageAbort) then Ret (1%Z, ∅)
                  else if decide (exn_class e = StageReset ∨ exn_class e = Ignore)
                       then Ret (0%Z, ∅)
                       else Raise e
              end in
            match caught with
            | Raise e => (Raise e, self, w)
            | Ret (status, next_state) =>
                let self := absorb next_state self in
                if negb (status =? 0)%Z then
                  match next_stage self with
                  | (Raise e, self) => (Raise e, self, w)
                  | (Ret _, self) => finish true self w
                  end
                else finish false self w
            end
          else
            let '(r, self, w) :=
              call_stage current_stage (Stage.start current_stage) self w in
            match r with
            | Raise e =>
                if decide (exn_class e = StageAbort) then
                  match next_stage self with
                  | (Raise e, self) => (Raise e, self, w)
                  | (Ret _, self) => (Ret (0%Z, None), self, w)
                  end
                else if decide (exn_class e = StageReset ∨ exn_class e = Ignore)
                     then (Ret (0%Z, None), self, w)
                     else (Raise e, self, w)
            | Ret (status, next_state) =>
                let self := absorb next_state self in
                let self := if negb (status =? 0)%Z then set_running self
                            else self in
                finish false self w
            end
        else
          let '(r, self, w) :=
            call_stage current_stage (Stage.is_done current_stage) self w in
          match r with
          | Raise e =>
              if decide (exn_class e = StageAbort) then
                match next_stage self with
                | (Raise e, self) => (Raise e, self, w)
                | (Ret _, self) => (Ret (0%Z, None), self, w)
                end
              else if decide (exn_class e = StageReset) then
                (Ret (0%Z, None), reset_stage self, w)
              else if decide (exn_class e = Ignore) then
                (Ret (0%Z, None), self, w)
              else (Raise e, self, w)
          | Ret (status, next_state) =>
              let self := absorb next_state self in
              if negb (status =? 0)%Z then
                match next_stage self with
                | (Raise e, self) => (Raise e, self, w)
                | (Ret _, self) => finish true (unset_running self) w
                end
              else finish false self w
          end
    end.

(** [@handle_exceptions def run(self)] *)
Definition run : method (S:=t) (W:=W) (A:=report) :=
  handle_exceptions run_body.

(** [start] reads the global name [stages], which nothing defines. *)
Definition start (self : t) : result unit * t :=
  (Raise (Exn NameError "name 'stages' is not defined"), self).
End trial.
Arguments t : clear implicits.
Arguments report : clear implicits.
End Trial.

(* ===================================================================== *)
(** * The experiment loop ([experiment.py]) *)
(* ===================================================================== *)

Module Experiment.
Section experiment.
Context {Val W : Type}.

(** An entry of [trial_arg_configs]: the keyword arguments of one
    [new_trial] call.  The entry under the key ["stage_args"], a list
    of dicts, is kept apart from the other keys, whose values are
    opaque. *)
Record kwargs := {
  kw_stage_args : option (list (dict Val));
  kw_others : dict Val
}.

(** A configuration dict read as keyword arguments.  The configuration
    dicts are the initial state of the trials and hold opaque values
    only. *)
Definition config_kwargs (d : dict Val) : kwargs :=
  {| kw_stage_args := None; kw_others := d |}.

(** One more unpacked dict in a call: a key given twice is a
    [TypeError]. *)
Definition merge_kwargs (a b : kwargs) : result kwargs :=
  if bool_decide (dom (kw_others a) ∩ dom (kw_others b) = ∅)
     && negb (bool_decide (is_Some (kw_stage_args a))
              && bool_decide (is_Some (kw_stage_args b)))
  then Ret {| kw_stage_args := match kw_stage_args a with
                               | Some sa => Some sa
                               | None => kw_stage_args b
                               end;
              kw_others := kw_others a ∪ kw_others b |}
  else Raise (Exn TypeError "got multiple values for keyword argument").

(** The attributes [run] uses.  [self.stages] (the stage classes) and
    [self.sleep_time] are left out: [run] reads the first nowhere and
    the second only to sleep. *)
Record t := {
  trial_instances : list (Trial.t Val W);
  base_trial_config : dict Val;
  per_instance_config : list (dict Val);
  trial_arg_configs : list kwargs;
  error_sequence : list seq_elem;
  errors : list Z
}.

Definition with_trial_instances (x : list (Trial.t Val W)) (self : t) : t :=
  {| trial_instances := x; base_trial_config := base_trial_config self;
     per_instance_config := per_instance_config self;
     trial_arg_configs := trial_arg_configs self;
     error_sequence := error_sequence self; errors := errors self |}.

Definition with_trial_arg_configs (x : list kwargs) (self : t) : t :=
  {| trial_instances := trial_instances self;
     base_trial_config := base_trial_config self;
     per_instance_config := per_instance_config self;
     trial_arg_configs := x;
     error_sequence := error_sequence self; errors := errors self |}.

Definition with_error_sequence (x : list seq_elem) (self : t) : t :=
  {| trial_instances := trial_instances self;
     base_trial_config := base_trial_config self;
     per_instance_config := per_instance_config self;
     trial_arg_configs := trial_arg_configs self;
     error_sequence := x; errors := errors self |}.

#[export] Instance t_HasErrorSequence : HasErrorSequence t := {|
  self_error_sequence := error_sequence;
  set_error_sequence := with_error_sequence;
  self_error_sequence_set _ _ := eq_refl
|}.

(** The trial at a slot is an object of the list: what a call does to
    it stays in the list. *)
Definition store_trial (trial_index : nat) (trial : Trial.t Val W) (self : t) : t :=
  with_trial_instances (<[trial_index := trial]> (trial_instances self)) self.

(** What the loop does to its collaborators, in call order:
    the results passed to [ship_results] (a method subclasses
    override), and the calls [trial.new_trial(...)] with the slot and
    the entry popped for it. *)
Record journal := {
  shipped : list (TrialResults.t Val);
  assigned : list (nat * kwargs)
}.

Definition ship_results (results : TrialResults.t Val) (j : journal) : journal :=
  {| shipped := shipped j ++ [results]; assigned := assigned j |}.

Definition note_new_trial (trial_index : nat) (entry : kwargs) (j : journal)
  : journal :=
  {| shipped := shipped j; assigned := assigned j ++ [(trial_index, entry)] |}.

(** The world of the loop: the world of the stages and the journal. *)
Definition world : Type := W * journal.

(** [try: status, results = trial.run()] with the [except] clauses of
    the fill phase.  [results] is a [TrialResults], or [None] or [0],
    which are both false. *)
Definition fill_run_trial (trial : Trial.t Val W) (w : W)
  : result (Trial.report Val) * Trial.t Val W * W :=
  let '(r, trial, w) := Trial.run trial w in
  match r with
  | Ret (status, results) => (Ret (status, results), trial, w)
  | Raise e =>
      if decide (exn_class e = TrialReset) then
        let results := Trial.results trial in
        match Trial.reset trial with
        | (Raise e, trial) => (Raise e, trial, w)
        | (Ret _, trial) => (Ret (0%Z, Some results), trial, w)
        end
      else if decide (exn_class e = TrialAbort) then
        (Ret (1%Z, Some (Trial.results trial)), trial, w)
      else if decide (exn_class e = Ignore) then
        (Ret (0%Z, None), trial, w)
      else (Raise e, trial, w)
  end.

(** The same for the drain phase, where [TrialAbort] marks the trial
    done. *)
Definition drain_run_trial (trial : Trial.t Val W) (w : W)
  : result (Trial.report Val) * Trial.t Val W * W :=
  let '(r, trial, w) := Trial.run trial w in
  match r with
  | Ret (status, results) => (Ret (status, results), trial, w)
  | Raise e =>
      if decide (exn_class e = TrialReset) then
        let results := Trial.results trial in
        match Trial.reset trial with
        | (Raise e, trial) => (Raise e, trial, w)
        | (Ret _, trial) => (Ret (0%Z, Some results), trial, w)
        end
      else if decide (exn_class e = TrialAbort) then
        (Ret (1%Z, Some (Trial.results trial)), Trial.set_done trial, w)
      else if decide (exn_class e = Ignore) then
        (Ret (0%Z, None), trial, w)
      else (Raise e, trial, w)
  end.

(** [if results: self.ship_results(results)] *)
Definition ship_if_any (results : option (TrialResults.t Val)) (j : journal)
  : journal :=
  match results with
  | Some results => if TrialResults.bool results then ship_results results j else j
  | None => j
  end.

(** The call of [trial.new_trial] with three dicts unpacked as keyword
    arguments: [copy], [instance_config] and
    [self.trial_arg_configs.pop()].  The dicts are merged from left
    to right as they are evaluated (CPython 3.9 and later): when the
    two configurations share a key the call fails before the pop; when
    the popped entry shares a key with them it fails after the pop,
    and the entry is gone.  [pop()] takes the last entry of the
    list. *)
Definition start_next_trial (trial_index : nat) (trial : Trial.t Val W)
    (copy instance_config : dict Val) (self : t) (j : journal)
  : result unit * t * journal :=
  match merge_kwargs (config_kwargs copy) (config_kwargs instance_config) with
  | Raise e => (Raise e, self, j)
  | Ret merged =>
      match last (trial_arg_configs self) with
      | None => (Raise (Exn IndexError "pop from empty list"), self, j)
      | Some entry =>
          let self := with_trial_arg_configs
                        (removelast (trial_arg_configs self)) self in
          match merge_kwargs merged entry with
          | Raise e => (Raise e, self, j)
          | Ret merged =>
              let j := note_new_trial trial_index entry j in
              let '(r, trial) :=
                Trial.new_trial trial (kw_stage_args merged) (kw_others merged) in
              (r, store_trial trial_index trial self, j)
          end
      end
  end.

(** The body of the [while len(self.trial_arg_configs) > 0] loop; it
    returns the next value of [trial_index].  [time.sleep] is left
    out. *)
Definition fill_pass (trial_index : nat) (self : t) (w : world)
  : result nat * t * world :=
  let '(w, j) := w in
  match trial_instances self !! trial_index with
  | None => (Raise (Exn IndexError "list index out of range"), self, (w, j))
  | Some trial =>
      let '(r, trial, w) := fill_run_trial trial w in
      let self := store_trial trial_index trial self in
      match r with
      | Raise e => (Raise e, self, (w, j))
      | Ret (status, results) =>
          let j := ship_if_any results j in
          let next_index :=
            (Datatypes.S trial_index) `mod` length (trial_instances self) in
          if negb (status =? 0)%Z then
            let copy := base_trial_config self in
            match per_instance_config self !! trial_index with
            | None =>
                (Raise (Exn IndexError "list index out of range"), self, (w, j))
            | Some instance_config =>
                if bool_decide (len (trial_arg_configs self) > 0)%Z then
                  match start_next_trial trial_index trial copy instance_config
                                         self j with
                  | (Raise e, self, j) => (Raise e, self, (w, j))
                  | (Ret _, self, j) => (Ret next_index, self, (w, j))
                  end
                else (Ret next_index, self, (w, j))
            end
          else (Ret next_index, self, (w, j))
      end
  end.

(** How far a loop got with the passes it was allowed. *)
Inductive progress :=
  | Returned
  | Unfinished.

(** The fill phase, for at most [fuel] passes. *)
Fixpoint fill (fuel : nat) (trial_index : nat) (self : t) (w : world)
  : result progress * t * world :=
  if bool_decide (len (trial_arg_configs self) > 0)%Z then
    match fuel with
    | 0 => (Ret Unfinished, self, w)
    | Datatypes.S fuel =>
        match fill_pass trial_index self w with
        | (Raise e, self, w) => (Raise e, self, w)
        | (Ret trial_index, self, w) => fill fuel trial_index self w
        end
    end
  else (Ret Returned, self, w).

(** One sweep of the drain phase over the slots from [trial_index]
    on; [done] is the flag of the sweep. *)
Fixpoint drain_sweep (slots : nat) (trial_index : nat) (done : bool)
    (self : t) (w : world) : result bool * t * world :=
  match slots with
  | 0 => (Ret done, self, w)
  | Datatypes.S slots =>
      let '(w0, j) := w in
      match trial_instances self !! trial_index with
      | None => (Ret done, self, w)
      | Some trial =>
          let '(r, trial, w0) := drain_run_trial trial w0 in
          let self := store_trial trial_index trial self in
          match r with
          | Raise e => (Raise e, self, (w0, j))
          | Ret (status, results) =>
              let j := ship_if_any results j in
              let done := if negb (status =? 0)%Z then done else false in
              drain_sweep slots (Datatypes.S trial_index) done self (w0, j)
          end
      end
  end.

(** The drain phase, for at most [fuel] sweeps. *)
Fixpoint drain (fuel : nat) (self : t) (w : world) : result progress * t * world :=
  match fuel with
  | 0 => (Ret Unfinished, self, w)
  | Datatypes.S fuel =>
      match drain_sweep (length (trial_instances self)) 0 true self w with
      | (Raise e, self, w) => (Raise e, self, w)
      | (Ret true, self, w) => (Ret Returned, self, w)
      | (Ret false, self, w) => drain fuel self w
      end
  end.

Definition run_body (fuel : nat) : method (S:=t) (W:=world) (A:=progress) :=
  fun self w =>
    match fill fuel 0 self w with
    | (Raise e, self, w) => (Raise e, self, w)
    | (Ret Unfinished, self, w) => (Ret Unfinished, self, w)
    | (Ret Returned, self, w) => drain fuel self w
    end.

(** [@handle_exceptions def run(self)] *)
Definition run (fuel : nat) : method (S:=t) (W:=world) (A:=progress) :=
  handle_exceptions (run_body fuel).
End experiment.
Arguments t : clear implicits.
Arguments kwargs : clear implicits.
Arguments journal : clear implicits.
Arguments world : clear implicits.
End Experiment.

(* ===================================================================== *)
(** * Building an experiment ([Experiment.__init__]) *)
(* ===================================================================== *)

(** A [for] loop that builds a list and stops at the first exception. *)
Fixpoint for_each {A B : Type} (f : A → result B) (l : list A) : result (list B) :=
  match l with
  | [] => Ret []
  | x :: l =>
      match f x with
      | Raise e => Raise e
      | Ret y =>
          match for_each f l with
          | Raise e => Raise e
          | Ret ys => Ret (y :: ys)
          end
      end
  end.

Module ExperimentInit.
Section experiment_init.
Context {Val W : Type}.

(** An entry of the [stage_error_sequence] argument: an element of an
    error sequence (a class, a [(cls, count)] tuple, an integer), or a
    list or tuple of such elements, which is the error sequence of one
    stage when the argument is given per stage.  A [(cls, count)] tuple
    is a tuple too: read as a sequence it has the elements [cls] and
    [count]. *)
Inductive entry :=
  | Elem (e : seq_elem)
  | Sequence (l : list seq_elem).

(** [isinstance(x, (list, tuple))] *)
Definition is_list_or_tuple (x : entry) : bool :=
  match x with
  | Elem (SPair _ _) => true
  | Sequence _ => true
  | Elem _ => false
  end.

(** The elements of an entry that is a list or a tuple. *)
Definition elements (x : entry) : list seq_elem :=
  match x with
  | Sequence l => l
  | Elem (SPair c n) => [SClass c; SInt n]
  | Elem _ => []
  end.

(** [issubclass(e, Exception)], which itself raises [TypeError] when [e]
    is not a class: both ways the check ends in [TypeError]. *)
Definition check_class (e : seq_elem) : result unit :=
  match e with
  | SClass c =>
      if is_Exception c then Ret ()
      else Raise (Exn TypeError "Invalid error sequence: not a subclass of Exception")
  | _ => Raise (Exn TypeError "issubclass() arg 1 must be a class")
  end.

(** The body of the loop of [check_error_sequence]: a list or tuple must
    have two elements, the second an integer, and is then judged by its
    first element; anything else is judged as it is. *)
Definition check_entry (x : entry) : result unit :=
  match x with
  | Elem (SPair c n) => check_class (SClass c)
  | Sequence [e0; SInt _] => check_class e0
  | Sequence _ =>
      Raise (Exn TypeError "Invalid error sequence: not a valid error tuple")
  | Elem e => check_class e
  end.

Definition check_error_sequence (error_sequence : list entry) : result unit :=
  match for_each check_entry error_sequence with
  | Raise e => Raise e
  | Ret _ => Ret ()
  end.

Definition check_list_of_error_sequence (error_sequence : list entry) : result unit :=
  match for_each
          (fun l =>
             if is_list_or_tuple l then check_error_sequence (Elem <$> elements l)
             else Raise (Exn TypeError
                           "Invalid error sequence: not a list/tuple of lists/tuples"))
          error_sequence with
  | Raise e => Raise e
  | Ret _ => Ret ()
  end.

(** [_create_error_sequence] on a list whose entries may be lists: the
    same loop, where a list [e] is subscripted like a tuple. *)
Fixpoint create_error_sequence_entries (flat_sequence : list seq_elem)
    (error_sequence : list entry) : result (list seq_elem) :=
  match error_sequence with
  | [] => Ret flat_sequence
  | Elem e :: rest =>
      match create_error_sequence_loop flat_sequence [e] with
      | Raise err => Raise err
      | Ret flat_sequence => create_error_sequence_entries flat_sequence rest
      end
  | Sequence l :: rest =>
      match l !! 1, l !! 0 with
      | Some (SInt n), Some e0 =>
          if (n =? 0)%Z
          then create_error_sequence_entries (flat_sequence ++ [e0; SInt 0]) rest
          else create_error_sequence_entries
                 (flat_sequence ++ replicate (Z.to_nat n) e0) rest
      | Some _, Some _ =>
          Raise (Exn TypeError "can't multiply sequence by non-int")
      | _, _ => Raise (Exn IndexError "list index out of range")
      end
  end.

(** A stage class: a subclass of [Stage] or of [BlockingStage] that
    defines [start] (and [is_done]) and inherits [__init__]. *)
Record stage_class := {
  cls_blocking : bool;
  cls_start : dict Val → method (S:=Stage.attrs) (W:=W) (A:=Stage.answer Val);
  cls_is_done : dict Val → method (S:=Stage.attrs) (W:=W) (A:=Stage.answer Val)
}.

(** [stage_class(error_sequence)]: the inherited [__init__] flattens what
    it is given. *)
Definition instantiate (cls : stage_class) (error_sequence : list seq_elem)
  : result (Stage.t Val W) :=
  match Stage.init_attrs error_sequence with
  | Raise e => Raise e
  | Ret a =>
      Ret {| Stage.blocking := cls_blocking cls;
             Stage.self_attrs := a;
             Stage.start := cls_start cls;
             Stage.is_done := cls_is_done cls |}
  end.

Definition build_stage_objects (stages : list stage_class)
    (stage_error_sequence : list entry) : result (list (Stage.t Val W)) :=
  if negb (bool_decide (stage_error_sequence = []))
     && from_option is_list_or_tuple false (stage_error_sequence !! 0)
     && bool_decide (length stage_error_sequence = length stages)
  then
    match check_list_of_error_sequence stage_error_sequence with
    | Raise e => Raise e
    | Ret _ =>
        for_each
          (fun '(cls, error_sequence) =>
             match _create_error_sequence (elements error_sequence) with
             | Raise e => Raise e
             | Ret error_sequence => instantiate cls error_sequence
             end)
          (zip stages stage_error_sequence)
    end
  else if negb (bool_decide (stage_error_sequence = [])) then
    match check_error_sequence stage_error_sequence with
    | Raise e => Raise e
    | Ret _ =>
        match create_error_sequence_entries [] stage_error_sequence with
        | Raise e => Raise e
        | Ret stage_error_sequence =>
            for_each (fun cls => instantiate cls stage_error_sequence) stages
        end
    end
  else for_each (fun cls => instantiate cls []) stages.

(** The [trial_class] argument: a class, which is a subclass of [Trial]
    or not, or a list of classes. *)
Inductive trial_class_arg :=
  | ClassOf (subclass_of_Trial : bool)
  | ClassList (classes : list bool).

(** [Experiment.__init__].  A trial class is taken to inherit
    [Trial.__init__].  In the branch for a list of classes the test
    [issubclass(trial_class, Trial)] is applied to the list itself, which
    is a [TypeError]; a bare [raise] outside a handler is a
    [RuntimeError].

    The trials are built without [results] argument, so each one copies
    the default of [Trial.__init__]: one [TrialResults()] object, made
    when the class is defined, over the list and the dict that are the
    defaults of [TrialResults.__init__].  Every [TrialResults()] built
    without arguments holds that same list and dict, and what was added
    to one of them shows in all.  [default_results] is what that shared
    object holds when the constructor is called; the constructor reads
    it and does not change it. *)
Definition init (default_results : TrialResults.t Val)
    (base_trial_config : dict Val) (per_instance_config : list (dict Val))
    (trial_arg_configs : list (Experiment.kwargs Val))
    (stages : list stage_class) (trial_class : trial_class_arg)
    (error_sequence trial_error_sequence : list seq_elem)
    (stage_error_sequence : list entry) : result (Experiment.t Val W) :=
  match _create_error_sequence error_sequence with
  | Raise e => Raise e
  | Ret error_sequence =>
      let trial_instances :=
        match trial_class with
        | ClassList classes =>
            if bool_decide (length per_instance_config = length classes) then
              match zip per_instance_config classes with
              | [] => Ret []
              | _ :: _ => Raise (Exn TypeError "issubclass() arg 1 must be a class")
              end
            else Raise (Exn (OtherException "RuntimeError")
                            "No active exception to reraise")
        | ClassOf subclass_of_Trial =>
            if negb subclass_of_Trial
            then Raise (Exn TypeError "Class is not a subclass of Trial")
            else
              for_each
                (fun instance =>
                   let trial_config := instance ∪ base_trial_config in
                   match build_stage_objects stages stage_error_sequence with
                   | Raise e => Raise e
                   | Ret stage_objects =>
                       Trial.init stage_objects trial_config trial_error_sequence
                                  default_results
                   end)
                per_instance_config
        end in
      match trial_instances with
      | Raise e => Raise e
      | Ret trial_instances =>
          Ret {| Experiment.trial_instances := trial_instances;
                 Experiment.base_trial_config := base_trial_config;
                 Experiment.per_instance_config := per_instance_config;
                 Experiment.trial_arg_configs := trial_arg_configs;
                 Experiment.error_sequence := error_sequence;
                 Experiment.errors := replicate (length trial_instances) 0%Z |}
      end
  end.
End experiment_init.
Arguments stage_class : clear implicits.
End ExperimentInit.

(* ===================================================================== *)
(** * Notions used in the statements *)
(* ===================================================================== *)

(** An element of a flattened sequence that is an exception class. *)
Definition is_class (e : seq_elem) : Prop := ∃ c, e = SClass c.

(** A compact sequence without a repeat-forever tuple (and without a bare
    integer, which [_create_error_sequence] rejects). *)
Definition no_repeat_forever (compact : list seq_elem) : Prop :=
  Forall (λ e, match e with
               | SClass _ => True
               | SPair _ n => n ≠ 0%Z
               | SInt _ => False
               end) compact.

(** A free and a taken resource, one unit each. *)
Definition free_unit : semaphore := {| sem_value := 1; sem_bound := Some 1 |}.
Definition taken_unit : semaphore := {| sem_value := 0; sem_bound := Some 1 |}.
Definition no_wait : acquire_options := {| opt_block := false; opt_timeout := None |}.

Definition example_warden (d : gmap string semaphore) : ResourceWarden.t :=
  {| ResourceWarden.resource_dict := d;
     ResourceWarden.block := false;
     ResourceWarden.timeout := None |}.

(** How many times [k] occurs in [l]. *)
Definition occurrences (k : string) (l : list string) : nat :=
  length (filter (λ r, r = k) l).

(** [d] with the units of [held] given back is [d0]. *)
Definition owes (d d0 : gmap string semaphore) (held : list string) : Prop :=
  ∀ k, match d !! k, d0 !! k with
       | Some s, Some s0 =>
           sem_bound s = sem_bound s0
           ∧ sem_value s + occurrences k held = sem_value s0
       | None, None => occurrences k held = 0
       | _, _ => False
       end.

(** A bounded semaphore holds no more than its bound. *)
Definition within_bounds (d : gmap string semaphore) : Prop :=
  ∀ k s b, d !! k = Some s → sem_bound s = Some b → sem_value s ≤ b.

(** The rule the claim gives for the marker after a release at ledger
    position [pos]: one less when the position was before the marker,
    unchanged otherwise. *)
Definition marker_after_release (pos : nat) (chunk_marker : Z) : Z :=
  if bool_decide (Z.of_nat pos < chunk_marker)%Z then (chunk_marker - 1)%Z
  else chunk_marker.

(** ** Runs of a trial *)

Section trial_runs.
Context {Val W : Type}.

Inductive stage_method := MStart | MIsDone.

(** A call of a stage method by [Trial.run]: the position of the stage,
    its kind, the method, and what the call gave. *)
Record event := {
  ev_stage : nat;
  ev_blocking : bool;
  ev_method : stage_method;
  ev_result : result (Stage.answer Val)
}.

(** The stage call that [Trial.run] is about to make, if any. *)
Definition stage_call (self : Trial.t Val W) (w : W) : option event :=
  if Trial.is_done self then None
  else
    match Trial.stages self !! Trial.stage_index self with
    | None => None
    | Some current_stage =>
        let f := if Trial.running self then Stage.is_done current_stage
                 else Stage.start current_stage in
        Some {| ev_stage := Trial.stage_index self;
                ev_blocking := Stage.blocking current_stage;
                ev_method := if Trial.running self then MIsDone else MStart;
                ev_result :=
                  (f (Trial.state self) (Stage.self_attrs current_stage) w).1.1 |}
    end.

(** One call of [Trial.run]: the stage call it made and what it gave
    back. *)
Record step := {
  st_event : option event;
  st_report : result (Trial.report Val)
}.

(** [n] calls of [Trial.run] in a row. *)
Fixpoint run_trace (n : nat) (self : Trial.t Val W) (w : W)
  : list step * Trial.t Val W * W :=
  match n with
  | 0 => ([], self, w)
  | Datatypes.S n =>
      let ev := stage_call self w in
      let '(r, self, w) := Trial.run self w in
      let '(tr, self, w) := run_trace n self w in
      ({| st_event := ev; st_report := r |} :: tr, self, w)
  end.

Definition events (tr : list step) : list event := omap st_event tr.

(** The stage call returned: it raised nothing. *)
Definition returned (ev : event) : Prop :=
  ∃ status update, ev_result ev = Ret (status, update).

(** A completion signal: a nonzero status from the [start] of a blocking
    stage or from the [is_done] of a non-blocking one. *)
Definition completion_signal (ev : event) : bool :=
  match ev_result ev with
  | Ret (status, _) =>
      negb (status =? 0)%Z
      && match ev_method ev, ev_blocking ev with
         | MStart, true => true
         | MIsDone, false => true
         | _, _ => false
         end
  | Raise _ => false
  end.

Fixpoint completions (evs : list event) : nat :=
  match evs with
  | [] => 0
  | ev :: evs => (if completion_signal ev then 1 else 0) + completions evs
  end.

(** The values the stage calls gave under the key ["trial_results"]. *)
Definition emitted_by (ev : event) : list Val :=
  match ev_result ev with
  | Ret (_, update) => option_list (update !! "trial_results")
  | Raise _ => []
  end.

Definition emitted (evs : list event) : list Val := evs ≫= emitted_by.




(** The public methods of a trial, as calls. *)
Inductive trial_call :=
  | CallResetStage
  | CallReset
  | CallIsDone
  | CallSetup (stage_args : list (dict Val))
  | CallNewTrial (stage_args : option (list (dict Val))) (kwargs : dict Val)
  | CallSetDone
  | CallNextStage
  | CallSetRunning
  | CallUnsetRunning
  | CallIsRunning
  | CallRun
  | CallStart.

(** The trial and the world after a call, whatever the call gave. *)
Definition perform (c : trial_call) (self : Trial.t Val W) (w : W)
  : Trial.t Val W * W :=
  match c with
  | CallResetStage => (Trial.reset_stage self, w)
  | CallReset => ((Trial.reset self).2, w)
  | CallIsDone => (self, w)
  | CallSetup stage_args => (Trial.setup stage_args self, w)
  | CallNewTrial stage_args kwargs => ((Trial.new_trial self stage_args kwargs).2, w)
  | CallSetDone => (Trial.set_done self, w)
  | CallNextStage => ((Trial.next_stage self).2, w)
  | CallSetRunning => (Trial.set_running self, w)
  | CallUnsetRunning => (Trial.unset_running self, w)
  | CallIsRunning => (self, w)
  | CallRun => let '(_, self, w) := Trial.run self w in (self, w)
  | CallStart => ((Trial.start self).2, w)
  end.

Fixpoint perform_all (cs : list trial_call) (self : Trial.t Val W) (w : W)
  : Trial.t Val W * W :=
  match cs with
  | [] => (self, w)
  | c :: cs => let '(self, w) := perform c self w in perform_all cs self w
  end.

(** The call is a [new_trial] that passes the keyword [k]. *)
Definition passes_keyword (k : string) (c : trial_call) : Prop :=
  match c with
  | CallNewTrial _ kwargs => is_Some (kwargs !! k)
  | _ => False
  end.

(** The first entry of the stage arguments does not bind [k]. *)
Definition first_overlay_free (k : string) (stage_args : option (list (dict Val)))
  : Prop :=
  ∀ sa overlay, stage_args = Some sa → sa !! 0 = Some overlay → overlay !! k = None.
End trial_runs.
Arguments event : clear implicits.
Arguments step : clear implicits.
Arguments trial_call : clear implicits.

(** ** Small trials and experiments to evaluate the code on *)

Definition no_attrs : Stage.attrs :=
  {| Stage.error_sequence := []; Stage.original_error_sequence := [] |}.

(** A stage whose [start] raises [exc]. *)
Definition raising_stage (blocking : bool) (exc : exc_class) : Stage.t Z unit :=
  {| Stage.blocking := blocking;
     Stage.self_attrs := no_attrs;
     Stage.start := fun _ a w => (Raise (instance exc), a, w);
     Stage.is_done := Stage.not_implemented |}.

(** A non-blocking stage that starts at once and is done at the first
    poll, where it gives [x] as its trial result. *)
Definition polled_stage (x : Z) : Stage.t Z unit :=
  {| Stage.blocking := false;
     Stage.self_attrs := no_attrs;
     Stage.start := fun _ a w => (Ret (1%Z, ∅), a, w);
     Stage.is_done := fun _ a w => (Ret (1%Z, {[ "trial_results" := x ]}), a, w) |}.

(** A blocking stage that gives [x] as its trial result. *)
Definition blocking_stage (x : Z) : Stage.t Z unit :=
  {| Stage.blocking := true;
     Stage.self_attrs := no_attrs;
     Stage.start := fun _ a w => (Ret (1%Z, {[ "trial_results" := x ]}), a, w);
     Stage.is_done := Stage.not_implemented |}.

Definition no_results : TrialResults.t Z :=
  {| TrialResults.data := []; TrialResults.metadata := ∅ |}.

(** [Trial(stages, initial_state, error_sequence)], as [Trial.init] builds
    it ([built_trial_init] below). *)
Definition built_trial (stages : list (Stage.t Z unit)) (initial_state : dict Z)
    (error_sequence : list seq_elem) : Trial.t Z unit :=
  {| Trial.error_sequence := error_sequence;
     Trial.original_error_sequence := error_sequence;
     Trial.state := initial_state;
     Trial.initial_state := initial_state;
     Trial.state_checkpoint := initial_state;
     Trial.stage_index := 0;
     Trial.stages := stages;
     Trial.running := false;
     Trial.initial_results := no_results;
     Trial.results := no_results;
     Trial.done := true;
     Trial.multiple_results := false;
     Trial.errors := 0;
     Trial.fails := 0;
     Trial.stage_args := None |}.

(** The same trial after [new_trial()] without argument. *)
Definition started_trial (stages : list (Stage.t Z unit)) : Trial.t Z unit :=
  (Trial.new_trial (built_trial stages ∅ []) None ∅).2.

(** A trial of one non-blocking stage whose [start] raises a
    [ValueError], built with the flattened error sequence [es] and taken
    after [new_trial()]. *)
Definition failing_trial (es : list seq_elem) : Trial.t Z unit :=
  (Trial.new_trial
     (built_trial [raising_stage false (OtherException "ValueError")] ∅ es)
     None ∅).2.

(** An entry of the queue that passes the keyword [run := n]. *)
Definition entry (n : Z) : Experiment.kwargs Z :=
  {| Experiment.kw_stage_args := None; Experiment.kw_others := {[ "run" := n ]} |}.

(** An experiment over the given slots and queue, with empty
    configurations. *)
Definition example_experiment (trials : list (Trial.t Z unit))
    (queue : list (Experiment.kwargs Z)) : Experiment.t Z unit :=
  {| Experiment.trial_instances := trials;
     Experiment.base_trial_config := ∅;
     Experiment.per_instance_config := replicate (length trials) ∅;
     Experiment.trial_arg_configs := queue;
     Experiment.error_sequence := [];
     Experiment.errors := replicate (length trials) 0%Z |}.

Definition empty_journal : Experiment.journal Z :=
  {| Experiment.shipped := []; Experiment.assigned := [] |}.

(** The entries passed to [new_trial], in call order. *)
Definition assigned_entries {Val : Type} (j : Experiment.journal Val)
  : list (Experiment.kwargs Val) :=
  snd <$> Experiment.assigned j.

(** The stage arguments [new_trial] works with: the default is one empty
    dict per stage. *)
Definition effective_stage_args {Val W : Type} (trial : Trial.t Val W)
    (stage_args : option (list (dict Val))) : list (dict Val) :=
  match stage_args with
  | None => replicate (length (Trial.stages trial)) ∅
  | Some stage_args => stage_args
  end.

(* ===================================================================== *)
(** * Further notions used in the statements *)
(* ===================================================================== *)

(** The flattened list holds classes and the marker 0 only. *)
Definition is_flat (e : seq_elem) : Prop := is_class e ∨ e = SInt 0.

(** The warden has the same options and the same resource names. *)
Definition same_keys (self self' : ResourceWarden.t) : Prop :=
  ResourceWarden.block self' = ResourceWarden.block self
  ∧ ResourceWarden.timeout self' = ResourceWarden.timeout self
  ∧ ∀ k, ResourceWarden.resource_dict self' !! k = None
         ↔ ResourceWarden.resource_dict self !! k = None.

(** The units the warden has of [k]. *)
Definition units (d : gmap string semaphore) (k : string) : nat :=
  from_option sem_value 0 (d !! k).

Section trial_notions.
Context {Val W : Type}.

(** The attributes that [run] (and [reset]) only read. *)
Definition same_setup (self self' : Trial.t Val W) : Prop :=
  Trial.initial_state self' = Trial.initial_state self
  ∧ Trial.initial_results self' = Trial.initial_results self
  ∧ Trial.original_error_sequence self' = Trial.original_error_sequence self
  ∧ Trial.stage_args self' = Trial.stage_args self
  ∧ Trial.multiple_results self' = Trial.multiple_results self
  ∧ Trial.errors self' = Trial.errors self
  ∧ Trial.fails self' = Trial.fails self.

(** The trial is polling the non-blocking stage at position [i], and the
    snapshot taken when the stage was started is [snapshot]. *)
Definition polling (i : nat) (snapshot : dict Val) (self : Trial.t Val W) : Prop :=
  Trial.done self = false
  ∧ Trial.running self = true
  ∧ Trial.stage_index self = i
  ∧ Trial.state_checkpoint self = snapshot
  ∧ ∃ stage, Trial.stages self !! i = Some stage ∧ Stage.blocking stage = false.
End trial_notions.

Section init_notions.
Context {Val W : Type}.

(** The stage object [cls(error_sequence)] when [error_sequence] is
    flat. *)
Definition built_stage (flat : list seq_elem) (cls : ExperimentInit.stage_class Val W)
  : Stage.t Val W :=
  {| Stage.blocking := ExperimentInit.cls_blocking cls;
     Stage.self_attrs := {| Stage.error_sequence := flat;
                            Stage.original_error_sequence := flat |};
     Stage.start := ExperimentInit.cls_start cls;
     Stage.is_done := ExperimentInit.cls_is_done cls |}.

(** A trial as [Trial.__init__] leaves it, where [results] is what the
    [results] argument holds. *)
Definition fresh_trial (stages : list (Stage.t Val W)) (config : dict Val)
    (flat : list seq_elem) (results : TrialResults.t Val) : Trial.t Val W :=
  {| Trial.error_sequence := flat;
     Trial.original_error_sequence := flat;
     Trial.state := config;
     Trial.initial_state := config;
     Trial.state_checkpoint := config;
     Trial.stage_index := 0;
     Trial.stages := stages;
     Trial.running := false;
     Trial.initial_results := results;
     Trial.results := results;
     Trial.done := true;
     Trial.multiple_results := false;
     Trial.errors := 0;
     Trial.fails := 0;
     Trial.stage_args := None |}.

(** An element that [check_error_sequence] accepts and that is not a
    repeat-forever tuple. *)
Definition budgeted (e : seq_elem) : Prop :=
  match e with
  | SClass c => is_Exception c = true
  | SPair c n => is_Exception c = true ∧ n ≠ 0%Z
  | SInt _ => False
  end.

(** The sequence is not taken for a list of one sequence per stage. *)
Definition read_as_shared (stages : list (ExperimentInit.stage_class Val W))
    (ses : list seq_elem) : Prop :=
  length ses ≠ length stages ∨ ses = [] ∨ ∃ c rest, ses = SClass c :: rest.
End init_notions.

(** ** More small objects to evaluate the code on *)

(** A non-blocking stage that starts at once; its first poll reports
    progress, and a poll that finds the progress in the state asks for a
    reset of the stage. *)
Definition restless_stage : Stage.t Z unit :=
  {| Stage.blocking := false;
     Stage.self_attrs := no_attrs;
     Stage.start := fun _ a w => (Ret (1%Z, {[ "started" := 1%Z ]}), a, w);
     Stage.is_done := fun kwargs a w =>
       match kwargs !! "progress" with
       | Some _ => (Raise (instance StageReset), a, w)
       | None => (Ret (0%Z, {[ "progress" := 1%Z ]}), a, w)
       end |}.

(** A stage class whose stage starts at once and is done at the first
    poll. *)
Definition polled_class : ExperimentInit.stage_class Z unit :=
  {| ExperimentInit.cls_blocking := false;
     ExperimentInit.cls_start := fun _ a w => (Ret (1%Z, ∅), a, w);
     ExperimentInit.cls_is_done := fun _ a w => (Ret (1%Z, ∅), a, w) |}.

(** The semaphore is within its bound, if it has one. *)
Definition bounded (s : semaphore) : bool :=
  match sem_bound s with
  | Some b => bool_decide (sem_value s ≤ b)
  | None => true
  end.

(** An acquisition by name that finds no unit comes back: the warden does
    not block, or it blocks with a timeout. *)
Definition gives_up (self : ResourceWarden.t) : Prop :=
  ResourceWarden.block self = false ∨ is_Some (ResourceWarden.timeout self).

(* ===================================================================== *)
(** * Facts about error sequences and the decorator *)
(* ===================================================================== *)

Lemma create_error_sequence_loop_extends flat compact es :
  create_error_sequence_loop flat compact = Ret es → ∃ suffix, es = flat ++ suffix.
Proof.
  revert flat. induction compact as [|e compact IH]; intros flat Hes; simpl in Hes.
  - exists []. rewrite app_nil_r. congruence.
  - destruct e as [c|c n|n]; [| |done].
    + apply IH in Hes as [suffix ->]. rewrite <- app_assoc. eauto.
    + destruct (n =? 0)%Z; apply IH in Hes as [suffix ->];
        rewrite <- app_assoc; eauto.
Qed.

Lemma create_error_sequence_loop_classes flat compact :
  no_repeat_forever compact → Forall is_class flat →
  ∃ es, create_error_sequence_loop flat compact = Ret es ∧ Forall is_class es.
Proof.
  intros Hc. revert flat. induction Hc as [|e compact He _ IH]; intros flat Hflat.
  - simpl. eauto.
  - destruct e as [c|c n|n]; simpl; [| |done].
    + apply IH, Forall_app. split; [done|]. repeat constructor. by exists c.
    + apply Z.eqb_neq in He as ->. apply IH, Forall_app. split; [done|].
      apply Forall_replicate. by exists c.
Qed.

Section decorator_facts.
Context {S W A : Type} `{HasErrorSequence S}.
Implicit Types (func : method (S:=S) (W:=W) (A:=A)) (self : S) (w : W).
Implicit Types (funcs : list (method (S:=S) (W:=W) (A:=A))).

Lemma handle_exceptions_Ret func self w a self' w' :
  func self w = (Ret a, self', w') →
  handle_exceptions func self w = (Ret a, self', w').
Proof. unfold handle_exceptions. by intros ->. Qed.

Lemma handle_exceptions_manual func self w err self' w' :
  func self w = (Raise err, self', w') →
  is_manual_outcome (exn_class err) = true →
  handle_exceptions func self w = (Raise err, self', w').
Proof. unfold handle_exceptions. by intros -> ->. Qed.



Lemma handle_exceptions_forever func self w err self' w' front rest :
  func self w = (Raise err, self', w') →
  unexpected err →
  self_error_sequence self' = front :: SInt 0 :: rest →
  handle_exceptions func self w = (Raise (raise_elem front), self', w').
Proof.
  unfold handle_exceptions. by intros -> [-> ->] ->.
Qed.

Lemma fail_in_turn_cons func funcs err errs self w :
  fail_in_turn (func :: funcs) (err :: errs) self w →
  ∃ self1 w1,
    func self w = (Raise err, self1, w1)
    ∧ self_error_sequence self1 = self_error_sequence self
    ∧ fail_in_turn funcs errs (handle_exceptions func self w).1.2
                   (handle_exceptions func self w).2.
Proof.
  cbn [fail_in_turn]. destruct (func self w) as [[r self1] w1].
  simpl. intros (-> & Hsame & Hrest). by exists self1, w1.
Qed.


Lemma consecutive_calls_forever funcs : ∀ errs self w front rest,
  fail_in_turn funcs errs self w →
  self_error_sequence self = front :: SInt 0 :: rest →
  Forall unexpected errs →
  (consecutive_calls funcs self w).1.1 =
    replicate (length errs) (Raise (raise_elem front))
  ∧ self_error_sequence (consecutive_calls funcs self w).1.2 =
    front :: SInt 0 :: rest.
Proof.
  induction funcs as [|func funcs IH]; intros errs self w front rest Hfuncs Hself Herrs.
  { by destruct errs. }
  destruct errs as [|err errs']; [done|].
  apply fail_in_turn_cons in Hfuncs as (self1 & w1 & Hcall & Hsame & Hfuncs).
  apply Forall_cons in Herrs as [Herr Herrs]. simpl.
  rewrite <- Hsame in Hself.
  rewrite (handle_exceptions_forever _ self w err self1 w1 front rest)
    in Hfuncs |- * by done.
  destruct (IH errs' self1 w1 front rest Hfuncs Hself Herrs) as [IH1 IH2].
  destruct (consecutive_calls funcs self1 w1) as [[rs self''] w''].
  simpl in *. by rewrite IH1, IH2.
Qed.
End decorator_facts.


#[local] Existing Instance Trial.t_HasErrorSequence.


(** C6, as stated, fails: [Ignore] raised inside a decorated step of an
    object that still has an entry in its sequence is replaced by that
    entry, and the entry is consumed. *)
Lemma C6_counterexample :
  let self := {| entity_error_sequence := [SClass TrialAbort] |} in
  let '(r, self', _) :=
    handle_exceptions (A:=unit) (failing_step (instance Ignore)) self tt in
  r = Raise (instance TrialAbort)
  ∧ r ≠ Raise (instance Ignore)
  ∧ self_error_sequence self' = []
  ∧ self_error_sequence self' ≠ self_error_sequence self.
Proof. simpl. repeat split; discriminate. Qed.

(** C6, amended.  What the decorator does with each of the seven
    outcomes raised inside a decorated step.  The four outcomes of the
    Stage and Trial tiers ([TrialAbort], [TrialReset], [StageAbort],
    [StageReset]) leave the step as they were raised, and the object is
    as the step left it: its error sequence is neither read nor
    shortened.  [Ignore] and the two Experiment outcomes are handled as
    any other failure: they leave as they were raised only when the
    sequence is empty; otherwise the front entry of the sequence is
    raised in their place, and it is taken off the sequence unless the
    marker 0 follows it. *)
Theorem C6_only_four_outcomes_bypass {S W A : Type} `{HasErrorSequence S}
    (func : method (S:=S) (W:=W) (A:=A)) (self self' : S) (w w' : W) (err : exn) :
  func self w = (Raise err, self', w') →
  exn_class err ∈ [TrialAbort; TrialReset; StageAbort; StageReset;
                   Ignore; ExperimentAbort; ExperimentReset] →
  handle_exceptions func self w =
    if bool_decide (exn_class err ∈ [TrialAbort; TrialReset; StageAbort; StageReset])
    then (Raise err, self', w')
    else
      match self_error_sequence self' with
      | [] => (Raise err, self', w')
      | front :: SInt 0 :: _ => (Raise (raise_elem front), self', w')
      | front :: popped =>
          (Raise (raise_elem front), set_error_sequence popped self', w')
      end.
Proof.
  intros Hfunc Hcls. unfold handle_exceptions. rewrite Hfunc.
  destruct (self_error_sequence self') as [|front [|[c|c n|[|n|n]] rest]];
    repeat (apply elem_of_cons in Hcls as [->|Hcls]; [done|]);
    by apply elem_of_nil in Hcls.
Qed.

(** A [StageReset] passes an object that has a sequence; an
    [ExperimentAbort] raised in the same place is answered by the front
    entry, which is consumed. *)
Lemma C6_witness :
  handle_exceptions (A:=unit) (failing_step (Exn StageReset "retry"))
    {| entity_error_sequence := [SClass TrialReset; SClass TrialAbort] |} tt
  = (Raise (Exn StageReset "retry"),
     {| entity_error_sequence := [SClass TrialReset; SClass TrialAbort] |}, tt)
  ∧ handle_exceptions (A:=unit) (failing_step (Exn ExperimentAbort "stop"))
      {| entity_error_sequence := [SClass TrialReset; SClass TrialAbort] |} tt
    = (Raise (instance TrialReset),
       {| entity_error_sequence := [SClass TrialAbort] |}, tt).
Proof.
  split.
  - exact (C6_only_four_outcomes_bypass (A:=unit)
             (failing_step (Exn StageReset "retry"))
             {| entity_error_sequence := [SClass TrialReset; SClass TrialAbort] |}
             _ tt tt _ eq_refl ltac:(repeat constructor)).
  - exact (C6_only_four_outcomes_bypass (A:=unit)
             (failing_step (Exn ExperimentAbort "stop"))
             {| entity_error_sequence := [SClass TrialReset; SClass TrialAbort] |}
             _ tt tt _ eq_refl ltac:(repeat constructor)).
Defined.

(** C7.  When the front entry of the compact sequence is a tuple with
    repeat count 0, the flattened sequence starts with the class and the
    marker 0; every unexpected failure of a decorated step operation is
    answered by an instance of that class, however many failures there
    are, and the sequence stays as it was.  Each body fails on the
    object and the world as the calls before it left them, and may have
    changed the object, not its sequence. *)
Theorem C7_repeat_forever {S W A : Type} `{HasErrorSequence S}
    (c : exc_class) (rest es : list seq_elem) (self : S) (w : W)
    (funcs : list (method (S:=S) (W:=W) (A:=A))) (errs : list exn) :
  _create_error_sequence (SPair c 0 :: rest) = Ret es →
  self_error_sequence self = es →
  fail_in_turn funcs errs self w →
  Forall unexpected errs →
  (∃ es', es = SClass c :: SInt 0 :: es')
  ∧ (consecutive_calls funcs self w).1.1 =
      replicate (length errs) (Raise (instance c))
  ∧ self_error_sequence (consecutive_calls funcs self w).1.2 = es.
Proof.
  intros Hes Hself Hfuncs Herrs. unfold _create_error_sequence in Hes. simpl in Hes.
  apply create_error_sequence_loop_extends in Hes as [es' ->].
  split; [by exists es'|].
  by apply (consecutive_calls_forever funcs errs self w (SClass c) es').
Qed.

(** Four calls of [Trial.run] on a trial built with [[(Ignore, 0)]]
    whose stage fails with a [ValueError] at each call. *)
Lemma C7_witness :
  let self := failing_trial [SClass Ignore; SInt 0] in
  let boom := instance (OtherException "ValueError") in
  (consecutive_calls (replicate 4 Trial.run_body) self tt).1.1 =
    replicate 4 (Raise (instance Ignore))
  ∧ self_error_sequence (consecutive_calls (replicate 4 Trial.run_body) self tt).1.2
    = [SClass Ignore; SInt 0].
Proof.
  intros self boom.
  exact (proj2 (C7_repeat_forever Ignore [] [SClass Ignore; SInt 0]
                  self tt (replicate 4 Trial.run_body) (replicate 4 boom)
                  eq_refl eq_refl
                  ltac:(vm_compute; repeat split)
                  ltac:(repeat constructor))).
Defined.

(* ===================================================================== *)
(** * Facts about the resource warden and container *)
(* ===================================================================== *)

(** The list of names behaves as the claim says: ["a"] is taken, then
    ["b"] fails, ["a"] is given back, ["c"] is never tried, the resource
    ["held"] taken by an earlier call stays taken, and the call returns
    the empty list. *)
Example acquire_names_rolls_back :
  ResourceWarden.acquire
    (example_warden {[ "a" := free_unit; "b" := taken_unit; "c" := free_unit;
                       "held" := taken_unit ]})
    [RName "a"; RName "b"; RName "c"]
  = (Ret [],
     example_warden {[ "a" := free_unit; "b" := taken_unit; "c" := free_unit;
                       "held" := taken_unit ]}).
Proof. vm_compute. reflexivity. Qed.

Lemma occurrences_cons_eq k l : occurrences k (k :: l) = S (occurrences k l).
Proof. unfold occurrences. by rewrite filter_cons_True. Qed.

Lemma occurrences_cons_ne k r l : r ≠ k → occurrences k (r :: l) = occurrences k l.
Proof. intros. unfold occurrences. by rewrite filter_cons_False. Qed.

Lemma occurrences_snoc_eq k l : occurrences k (l ++ [k]) = S (occurrences k l).
Proof.
  unfold occurrences. rewrite filter_app, length_app, filter_cons_True by done.
  simpl. lia.
Qed.

Lemma occurrences_snoc_ne k r l : r ≠ k → occurrences k (l ++ [r]) = occurrences k l.
Proof.
  intros. unfold occurrences. rewrite filter_app, length_app, filter_cons_False by done.
  simpl. lia.
Qed.

Lemma owes_nil d d0 : owes d d0 [] → d = d0.
Proof.
  intros H. apply map_eq. intros k. specialize (H k).
  destruct (d !! k) as [[v b]|], (d0 !! k) as [[v0 b0]|]; try done.
  simpl in H. destruct H as [-> H]. unfold occurrences in H. simpl in H.
  f_equal. f_equal. lia.
Qed.

Lemma release_loop_owes held : ∀ self released d0,
  within_bounds d0 →
  owes (ResourceWarden.resource_dict self) d0 held →
  ResourceWarden.release_loop self released held
  = (Ret (released ++ held), ResourceWarden.set_resource_dict d0 self).
Proof.
  induction held as [|r held IH]; intros self released d0 Hb Howes; simpl.
  - rewrite app_nil_r. apply owes_nil in Howes as <-. by destruct self.
  - pose proof (Howes r) as Hr.
    rewrite occurrences_cons_eq in Hr.
    destruct (ResourceWarden.resource_dict self !! r) as [s|] eqn:Hs;
      [|by destruct (d0 !! r)].
    destruct (d0 !! r) as [s0|] eqn:Hs0; [|done].
    destruct Hr as [Hbound Hval].
    assert (sem_release s = (Ret (), {| sem_value := S (sem_value s);
                                        sem_bound := sem_bound s |})) as ->.
    { unfold sem_release. destruct (sem_bound s) as [b|] eqn:Hbs; [|done].
      rewrite bool_decide_eq_false_2; [done|].
      pose proof (Hb r s0 b Hs0 ltac:(congruence)). lia. }
    rewrite IH with (d0 := d0); [by rewrite <- app_assoc|done|].
    intros k. simpl. destruct (decide (k = r)) as [->|Hne].
    + rewrite lookup_insert_eq, Hs0. simpl. split; [done|lia].
    + rewrite lookup_insert_ne by done. specialize (Howes k).
      by rewrite occurrences_cons_ne in Howes.
Qed.

Lemma acquire_loop_names names : ∀ self acquired success d0,
  within_bounds d0 →
  owes (ResourceWarden.resource_dict self) d0 acquired →
  Forall (λ r, is_Some (d0 !! r)) names →
  ResourceWarden.acquire_loop self acquired success (RName <$> names)
  = (Ret [], ResourceWarden.set_resource_dict d0 self)
  ∨ ∃ self',
      ResourceWarden.acquire_loop self acquired success (RName <$> names)
      = (Ret (acquired ++ names), self')
      ∧ owes (ResourceWarden.resource_dict self') d0 (acquired ++ names).
Proof.
  induction names as [|r names IH]; intros self acquired success d0 Hb Howes Hin.
  { right. exists self. simpl. by rewrite app_nil_r. }
  apply Forall_cons in Hin as [[s0 Hs0] Hin]. simpl.
  unfold ResourceWarden.acquire_one.
  pose proof (Howes r) as Hr. rewrite Hs0 in Hr.
  destruct (ResourceWarden.resource_dict self !! r) as [s|] eqn:Hs; [|done].
  destruct Hr as [Hbound Hval].
  unfold sem_acquire. destruct (sem_value s) as [|n] eqn:Hv; simpl.
  - left. rewrite insert_id by done.
    unfold ResourceWarden.release.
    rewrite release_loop_owes with (d0 := d0); [done|done|].
    by destruct self.
  - destruct (IH (ResourceWarden.set_resource_dict
                    (<[r := {| sem_value := n; sem_bound := sem_bound s |}]>
                       (ResourceWarden.resource_dict self)) self)
                 (acquired ++ [r]) (Some true) d0 Hb) as [Hfail|(self' & Hok & Howes')].
    + intros k. simpl. destruct (decide (k = r)) as [->|Hne].
      * rewrite lookup_insert_eq, Hs0, occurrences_snoc_eq. simpl. split; [done|lia].
      * rewrite lookup_insert_ne by done. specialize (Howes k).
        by rewrite occurrences_snoc_ne.
    + done.
    + left. etrans; [exact Hfail|]. by destruct self.
    + right. exists self'. rewrite <- !app_assoc in *. simpl in *. split; [exact Hok|done].
Qed.

Lemma owes_refl d : owes d d [].
Proof. intros k. by destruct (d !! k). Qed.

(** On names the call is all or nothing: either every name was taken, or
    the call returns the empty list and the warden is as before the
    call. *)
Lemma acquire_names_all_or_nothing (self : ResourceWarden.t) (names : list string) :
  within_bounds (ResourceWarden.resource_dict self) →
  Forall (λ r, is_Some (ResourceWarden.resource_dict self !! r)) names →
  ResourceWarden.acquire self (RName <$> names) = (Ret [], self)
  ∨ ∃ self',
      ResourceWarden.acquire self (RName <$> names) = (Ret names, self')
      ∧ owes (ResourceWarden.resource_dict self')
             (ResourceWarden.resource_dict self) names.
Proof.
  intros Hb Hin. unfold ResourceWarden.acquire.
  destruct (acquire_loop_names names self [] None
              (ResourceWarden.resource_dict self) Hb (owes_refl _) Hin)
    as [Hfail|(self' & Hok & Howes)].
  - left. rewrite Hfail. by destruct self.
  - right. eauto.
Qed.

Lemma warden_release_one (warden warden' : ResourceWarden.t) name released :
  ResourceWarden.release warden [name] = (Ret released, warden') →
  released = [name].
Proof.
  unfold ResourceWarden.release. simpl.
  destruct (ResourceWarden.resource_dict warden !! name) as [s|]; [|done].
  destruct (sem_release s) as [[u|e] s']; [|done]. by intros [= <- _].
Qed.

(** What [release()] with the default index does to the marker of a
    ledger of two entries or more: the marker moves when it is at the
    last entry or behind it. *)
Lemma release_default_marker (self : ResourceContainer.t)
    (warden warden' : ResourceWarden.t) prefix name released :
  ResourceContainer.resources self = prefix ++ [name] →
  prefix ≠ [] →
  ResourceWarden.release warden [name] = (Ret released, warden') →
  ResourceContainer.release self warden (-1)
  = (Ret [name],
     {| ResourceContainer.resources := prefix;
        ResourceContainer.chunk_marker :=
          if bool_decide (len prefix ≤ ResourceContainer.chunk_marker self)%Z
          then (ResourceContainer.chunk_marker self - 1)%Z
          else ResourceContainer.chunk_marker self |},
     warden').
Proof.
  intros Hres Hne Hrel.
  pose proof (warden_release_one _ _ _ _ Hrel) as ->.
  unfold ResourceContainer.release.
  assert (0 < length prefix) as Hlen by (destruct prefix; [done|simpl; lia]).
  assert (py_index (ResourceContainer.resources self) (-1) = Some (length prefix))
    as ->.
  { unfold py_index, len. rewrite Hres, length_app. simpl.
    repeat case_bool_decide; try lia. f_equal. lia. }
  rewrite Hres, list_lookup_middle by done. rewrite Hrel.
  replace (delete (length prefix) (prefix ++ [name])) with prefix.
  2:{ rewrite delete_middle. by rewrite app_nil_r. }
  assert ((len prefix + -1) `mod` len prefix = len prefix - 1)%Z as ->.
  { unfold len. apply Z.mod_small. lia. }
  rewrite bool_decide_eq_true_2 by (unfold len; lia). simpl.
  destruct (bool_decide (len prefix - 1 < ResourceContainer.chunk_marker self)%Z)
    eqn:Hdec.
  - apply bool_decide_eq_true in Hdec.
    rewrite bool_decide_eq_false_2 by (unfold len in *; lia).
    by rewrite bool_decide_eq_true_2 by lia.
  - apply bool_decide_eq_false in Hdec.
    by rewrite bool_decide_eq_false_2 by lia.
Qed.

(** C3 (the code departs from the claim).  A dict of two names whose
    first acquisition fails and whose second succeeds: the second name is
    still tried after the failure, the call returns it instead of the
    empty list, and its unit stays taken. *)
Theorem C3_dict_failure_not_rolled_back :
  let warden := example_warden {[ "a" := taken_unit; "b" := free_unit ]} in
  ResourceWarden.acquire warden [RDict [("a", no_wait); ("b", no_wait)]]
  = (Ret ["b"], example_warden {[ "a" := taken_unit; "b" := taken_unit ]})
  ∧ fst (ResourceWarden.acquire_one warden "a" no_wait) = Ret false.
Proof. split; vm_compute; reflexivity. Qed.

(** C4 (the code departs from the claim).  A container takes ["x"],
    starts a new chunk, and takes ["y"]: the ledger is [["x"; "y"]] with
    the marker at 1, and the current chunk is ["y"].  Releasing the last
    entry, which lies inside the chunk, must leave the marker at 1; the
    code moves it to 0, and the chunk now covers ["x"]. *)
Theorem C4_release_last_moves_marker :
  let warden := example_warden {[ "x" := free_unit; "y" := free_unit ]} in
  let empty := {| ResourceContainer.resources := [];
                  ResourceContainer.chunk_marker := 0 |} in
  let '(_, self, warden) := ResourceContainer.acquire empty warden [RName "x"] in
  let self := ResourceContainer.reset_chunk_marker self in
  let '(_, self, warden) := ResourceContainer.acquire self warden [RName "y"] in
  self = {| ResourceContainer.resources := ["x"; "y"];
            ResourceContainer.chunk_marker := 1 |}
  ∧ ResourceContainer.release self warden (-1)
    = (Ret ["y"],
       {| ResourceContainer.resources := ["x"];
          ResourceContainer.chunk_marker := 0 |},
       example_warden {[ "x" := taken_unit; "y" := free_unit ]})
  ∧ py_index (ResourceContainer.resources self) (-1) = Some 1
  ∧ marker_after_release 1 (ResourceContainer.chunk_marker self) = 1%Z.
Proof. vm_compute. repeat split. Qed.

(* ===================================================================== *)
(** * Facts about trials *)
(* ===================================================================== *)

Lemma built_trial_init stages initial_state classes :
  Trial.init stages initial_state (SClass <$> classes) no_results
  = Ret (built_trial stages initial_state (SClass <$> classes)).
Proof.
  unfold Trial.init, _create_error_sequence.
  assert (Hflat : ∀ flat, create_error_sequence_loop flat (SClass <$> classes)
                          = Ret (flat ++ (SClass <$> classes))).
  { induction classes as [|c classes IH]; intros flat; simpl.
    - by rewrite app_nil_r.
    - rewrite IH. by rewrite <- app_assoc. }
  by rewrite Hflat.
Qed.

(** C5 (the code departs from the claim).  A trial whose only stage is
    non-blocking and raises [StageAbort] from [start]: [run] moves
    [stage_index] to 1, the number of stages, but returns [(0, None)]
    before the check that marks the trial done; the trial is not done,
    and the next [run] fails with [IndexError] on [stages[1]].  With a
    blocking stage the same [run] marks the trial done and returns its
    results. *)
Theorem C5_nonblocking_abort_not_done :
  let trial := started_trial [raising_stage false StageAbort] in
  let '(r, trial', _) := Trial.run trial tt in
  r = Ret (0%Z, None)
  ∧ Trial.stage_index trial' = length (Trial.stages trial')
  ∧ Trial.is_done trial' = false
  ∧ (Trial.run trial' tt).1.1 = Raise (Exn IndexError "list index out of range")
  ∧ (let sibling := started_trial [raising_stage true StageAbort] in
     let '(r, sibling', _) := Trial.run sibling tt in
     r = Ret (1%Z, Some no_results) ∧ Trial.is_done sibling' = true).
Proof. vm_compute. repeat split. Qed.

Section trial_frame.
Context {Val W : Type}.
Implicit Types (self : Trial.t Val W) (w : W).

(** What no method but [new_trial] writes. *)
Lemma update_from_stage_args_initial_state i self :
  Trial.initial_state (Trial.update_from_stage_args i self).2
  = Trial.initial_state self.
Proof. unfold Trial.update_from_stage_args. by repeat case_match. Qed.

Lemma reset_initial_state self :
  Trial.initial_state (Trial.reset self).2 = Trial.initial_state self.
Proof.
  unfold Trial.reset.
  match goal with
  | |- context [Trial.update_from_stage_args ?i ?s] =>
      pose proof (update_from_stage_args_initial_state i s) as Hupd;
      destruct (Trial.update_from_stage_args i s) as [[u|e] self']
  end; done.
Qed.

Lemma next_stage_initial_state self :
  Trial.initial_state (Trial.next_stage self).2 = Trial.initial_state self.
Proof.
  unfold Trial.next_stage.
  pose proof (update_from_stage_args_initial_state
                (Trial.stage_index
                   (Trial.with_stage_index (Datatypes.S (Trial.stage_index self)) self))
                (Trial.with_stage_index (Datatypes.S (Trial.stage_index self)) self))
    as Hupd.
  destruct (Trial.update_from_stage_args _ _) as [[u|e] self']; simpl in *;
    [done|]. by case_decide.
Qed.

Lemma run_body_initial_state self w :
  Trial.initial_state (Trial.run_body self w).1.2 = Trial.initial_state self.
Proof.
  unfold Trial.run_body, Trial.call_stage, Trial.finish, Trial.absorb.
  repeat (case_match; simplify_eq/=; try done);
    match goal with
    | H : Trial.next_stage ?s = (_, ?s') |- _ =>
        change s' with (Trial.next_stage s, s').2.2 || idtac;
        pose proof (next_stage_initial_state s) as Hn; rewrite H in Hn; exact Hn
    end.
Qed.

Lemma run_initial_state self w :
  Trial.initial_state (Trial.run self w).1.2 = Trial.initial_state self.
Proof.
  unfold Trial.run, handle_exceptions.
  pose proof (run_body_initial_state self w) as Hbody.
  destruct (Trial.run_body self w) as [[[a|err] self'] w']; simpl in *; [done|].
  by repeat case_match.
Qed.

Lemma new_trial_initial_state self stage_args kwargs :
  Trial.initial_state (Trial.new_trial self stage_args kwargs).2
  = kwargs ∪ Trial.initial_state self.
Proof.
  unfold Trial.new_trial.
  match goal with
  | |- context [Trial.update_from_stage_args ?i ?s] =>
      pose proof (update_from_stage_args_initial_state i s) as Hupd;
      destruct (Trial.update_from_stage_args i s) as [[u|e] self']
  end; done.
Qed.

(** The state right after [reset] and [new_trial]: the initial state
    under the first entry of the stage arguments (nothing over it when
    that entry is missing and the call raises). *)
Lemma update_from_stage_args_state k self :
  first_overlay_free k (Trial.stage_args self) →
  Trial.state (Trial.update_from_stage_args 0 self).2 !! k = Trial.state self !! k.
Proof.
  intros Hfree. unfold Trial.update_from_stage_args.
  destruct (Trial.stage_args self) as [sa|] eqn:Hsa; [|done].
  destruct (sa !! 0) as [overlay|] eqn:Hov; [|done]. simpl.
  by rewrite lookup_union_r by eauto.
Qed.

Lemma reset_state k self :
  first_overlay_free k (Trial.stage_args self) →
  Trial.state (Trial.reset self).2 !! k = Trial.initial_state self !! k.
Proof.
  intros Hfree. unfold Trial.reset.
  match goal with
  | |- context [Trial.update_from_stage_args ?i ?s] =>
      pose proof (update_from_stage_args_state k s Hfree) as Hupd;
      destruct (Trial.update_from_stage_args i s) as [[u|e] self']
  end; done.
Qed.

Lemma new_trial_state k self stage_args kwargs :
  first_overlay_free k stage_args →
  Trial.state (Trial.new_trial self stage_args kwargs).2 !! k
  = (kwargs ∪ Trial.initial_state self) !! k.
Proof.
  intros Hfree. unfold Trial.new_trial.
  match goal with
  | |- context [Trial.update_from_stage_args ?i ?s] =>
      assert (first_overlay_free k (Trial.stage_args s)) as Hfree';
      [|pose proof (update_from_stage_args_state k s Hfree') as Hupd;
        destruct (Trial.update_from_stage_args i s) as [[u|e] self']; done]
  end.
  intros sa overlay [= <-] Hov. destruct stage_args as [sa|].
  - by eapply Hfree.
  - apply lookup_replicate in Hov as [-> _]. apply lookup_empty.
Qed.

Lemma perform_initial_state k v (c : trial_call Val) self w :
  ¬ passes_keyword k c →
  Trial.initial_state self !! k = Some v →
  Trial.initial_state (perform c self w).1 !! k = Some v.
Proof.
  intros Hc Hk. destruct c; simpl; try done.
  - by rewrite reset_initial_state.
  - rewrite new_trial_initial_state. rewrite lookup_union_r; [done|].
    simpl in Hc. by apply eq_None_not_Some.
  - by rewrite next_stage_initial_state.
  - pose proof (run_initial_state self w) as Hrun.
    destruct (Trial.run self w) as [[r self'] w']. simpl in *. by rewrite Hrun.
Qed.

Lemma perform_all_initial_state k v (cs : list (trial_call Val)) : ∀ self w,
  Forall (λ c, ¬ passes_keyword k c) cs →
  Trial.initial_state self !! k = Some v →
  Trial.initial_state (perform_all cs self w).1 !! k = Some v.
Proof.
  induction cs as [|c cs IH]; intros self w Hcs Hk; [done|].
  apply Forall_cons in Hcs as [Hc Hcs]. simpl.
  pose proof (perform_initial_state k v c self w Hc Hk) as Hstep.
  destruct (perform c self w) as [self' w']. by apply IH.
Qed.
End trial_frame.

Section trial_course.
Context {Val W : Type}.
Implicit Types (self : Trial.t Val W) (w : W).






End trial_course.



(** A run of two stages, computed: the blocking stage completes in the
    first call, the polled stage starts in the second and completes in
    the third, which returns the results. *)
Example run_trace_two_stages :
  let self := started_trial [blocking_stage 10; polled_stage 20] in
  st_report <$> (run_trace 4 self tt).1.1
  = [Ret (0%Z, None); Ret (0%Z, None);
     Ret (1%Z, Some {| TrialResults.data := [10%Z; 20%Z];
                       TrialResults.metadata := ∅ |});
     Ret (1%Z, None)]
  ∧ completions (events (run_trace 4 self tt).1.1) = 2.
Proof. vm_compute. done. Qed.

(** C10.  A keyword [k := v] passed to [new_trial] is written into
    [initial_state] itself ([kwargs] over the former initial state,
    whether the call then returns or raises).  It stays there through any
    later calls of the trial's methods among which no [new_trial] passes
    [k] again, and the state that a later [reset] or [new_trial] builds
    from [initial_state] has it too, unless the first entry of the stage
    arguments binds [k]. *)
Theorem C10_overrides_persist {Val W : Type} (self : Trial.t Val W)
    (stage_args : option (list (dict Val))) (kwargs : dict Val)
    (k : string) (v : Val) (calls : list (trial_call Val)) (w : W) :
  kwargs !! k = Some v →
  Forall (λ c, ¬ passes_keyword k c) calls →
  let self1 := (Trial.new_trial self stage_args kwargs).2 in
  let self2 := (perform_all calls self1 w).1 in
  Trial.initial_state self1 = kwargs ∪ Trial.initial_state self
  ∧ Trial.initial_state self2 !! k = Some v
  ∧ (first_overlay_free k (Trial.stage_args self2) →
     Trial.state (Trial.reset self2).2 !! k = Some v)
  ∧ (∀ stage_args' kwargs',
       kwargs' !! k = None → first_overlay_free k stage_args' →
       Trial.state (Trial.new_trial self2 stage_args' kwargs').2 !! k = Some v).
Proof.
  intros Hk Hcalls self1 self2.
  assert (Trial.initial_state self1 !! k = Some v) as H1.
  { unfold self1. rewrite new_trial_initial_state.
    by apply lookup_union_Some_l. }
  assert (Trial.initial_state self2 !! k = Some v) as H2.
  { by apply perform_all_initial_state. }
  split; [apply new_trial_initial_state|]. split; [done|]. split.
  - intros Hfree. by rewrite reset_state.
  - intros sa' kw' Hkw' Hfree. rewrite new_trial_state by done.
    by rewrite lookup_union_r.
Qed.

Lemma C10_witness :
  Trial.initial_state
    (perform_all [CallRun; CallReset; CallNewTrial None ∅; CallRun]
       (Trial.new_trial (built_trial [polled_stage 7] ∅ []) None {[ "seed" := 42%Z ]}).2
       tt).1 !! "seed" = Some 42%Z.
Proof.
  exact (proj1 (proj2 (C10_overrides_persist
    (built_trial [polled_stage 7] ∅ []) None {[ "seed" := 42%Z ]} "seed" 42%Z
    [CallRun; CallReset; CallNewTrial None ∅; CallRun] tt
    eq_refl
    ltac:(repeat constructor; simpl; try tauto; rewrite lookup_empty; by intros [? ?])))).
Defined.

(* ===================================================================== *)
(** * Facts about the fill phase of the experiment *)
(* ===================================================================== *)

Section fill_queue.
Context {Val W : Type}.
Implicit Types (self : Experiment.t Val W) (j : Experiment.journal Val).

(** What one pass may do to the queue and to the journal. *)
Lemma fill_pass_queue idx self (w : W) j :
  let '(r, self', (w', j')) := Experiment.fill_pass idx self (w, j) in
  (Experiment.trial_arg_configs self' = Experiment.trial_arg_configs self
   ∧ Experiment.assigned j' = Experiment.assigned j)
  ∨ (∃ a, Experiment.trial_arg_configs self = Experiment.trial_arg_configs self' ++ [a]
       ∧ (Experiment.assigned j' = Experiment.assigned j ++ [(idx, a)]
          ∨ (Experiment.assigned j' = Experiment.assigned j ∧ ∃ e, r = Raise e))).
Proof.
  unfold Experiment.fill_pass, Experiment.start_next_trial, Experiment.ship_if_any.
  repeat (case_match; simplify_eq/=; eauto);
    match goal with
    | H : last _ = Some ?k |- _ =>
        apply last_Some in H as [q Hq]; rewrite Hq, removelast_last;
        right; exists k; eauto 6
    end.
Qed.

Lemma fill_queue fuel : ∀ idx self (w : W) j,
  let '(r, self', (w', j')) := Experiment.fill fuel idx self (w, j) in
  ∃ lost new,
    Experiment.trial_arg_configs self
    = Experiment.trial_arg_configs self' ++ lost ++ reverse (snd <$> new)
    ∧ Experiment.assigned j' = Experiment.assigned j ++ new
    ∧ (lost = [] ∨ ∃ a e, lost = [a] ∧ r = Raise e).
Proof.
  induction fuel as [|fuel IH]; intros idx self w j.
  { cbn [Experiment.fill]. destruct (bool_decide _);
      exists [], []; simpl; rewrite !app_nil_r; eauto. }
  cbn [Experiment.fill].
  destruct (bool_decide _); [|exists [], []; simpl; rewrite !app_nil_r; eauto].
  pose proof (fill_pass_queue idx self w j) as Hpass.
  destruct (Experiment.fill_pass idx self (w, j)) as [[[idx'|e] self1] [w1 j1]].
  - specialize (IH idx' self1 w1 j1).
    destruct (Experiment.fill fuel idx' self1 (w1, j1)) as [[r self'] [w' j']].
    destruct IH as (lost & new & Hqueue & Hnew & Hlost).
    destruct Hpass as [[Hq1 Hj1]|(a & Hq1 & [Hj1|[_ [e [=]]]])].
    + exists lost, new. by rewrite <- Hq1, <- Hj1.
    + exists lost, ((idx, a) :: new). rewrite Hq1, Hqueue, Hnew, Hj1. simpl.
      rewrite reverse_cons, <- !app_assoc. eauto.
  - destruct Hpass as [[Hq1 Hj1]|(a & Hq1 & [Hj1|[Hj1 _]])].
    + exists [], []. simpl. rewrite !app_nil_r. eauto.
    + exists [], [(idx, a)]. simpl. eauto.
    + exists [a], []. simpl. rewrite app_nil_r.
      split; [done|]. split; [done|]. right. by exists a, e.
Qed.

End fill_queue.

(** C8, as stated, fails.  One slot and the queue [[entry 1; entry 2]]:
    the first [new_trial] call of the fill phase receives [entry 2], the
    entry enqueued last, and [entry 1] comes after it. *)
Lemma C8_counterexample :
  let self := example_experiment [built_trial [polled_stage 7] ∅ []]
                                 [entry 1; entry 2] in
  let '(r, self', (_, j)) := Experiment.fill 10 0 self (tt, empty_journal) in
  r = Ret Experiment.Returned
  ∧ assigned_entries j = [entry 2; entry 1]
  ∧ head (assigned_entries j) ≠ head (Experiment.trial_arg_configs self).
Proof. vm_compute. repeat split. discriminate. Qed.

(** C8, amended.  Whatever the fill phase does in the passes it runs, the
    entries it passes to [new_trial] are, in call order, the entries of
    the queue taken from its end: the call number [i] (from 0) receives
    the entry at position [length - 1 - i].  An entry leaves the queue
    once, so none is passed twice; the only entry that can leave the queue
    without being passed is the one popped right before a [new_trial] call
    that fails on its keyword arguments, which ends the phase. *)
Theorem C8_queue_consumed_from_the_end {Val W : Type} (fuel idx : nat)
    (self : Experiment.t Val W) (w : W) (j : Experiment.journal Val) :
  let '(r, self', (_, j')) := Experiment.fill fuel idx self (w, j) in
  ∃ lost new,
    Experiment.trial_arg_configs self
    = Experiment.trial_arg_configs self' ++ lost ++ reverse (snd <$> new)
    ∧ Experiment.assigned j' = Experiment.assigned j ++ new
    ∧ (lost = [] ∨ ∃ a e, lost = [a] ∧ r = Raise e)
    ∧ ∀ i a, (snd <$> new) !! i = Some a →
        Experiment.trial_arg_configs self
          !! (length (Experiment.trial_arg_configs self) - 1 - i) = Some a.
Proof.
  pose proof (fill_queue fuel idx self w j) as Hfill.
  destruct (Experiment.fill fuel idx self (w, j)) as [[r self'] [w' j']].
  destruct Hfill as (lost & new & Hqueue & Hnew & Hlost).
  exists lost, new. split; [done|]. split; [done|]. split; [done|].
  intros i a Hi. pose proof (lookup_lt_Some _ _ _ Hi) as Hlt.
  rewrite Hqueue, !length_app, length_reverse.
  rewrite lookup_app_r by lia. rewrite lookup_app_r by lia.
  rewrite reverse_lookup by lia. rewrite <- Hi. f_equal. lia.
Qed.




(* ===================================================================== *)
(** * Further facts: error sequences *)
(* ===================================================================== *)


Lemma create_error_sequence_loop_app flat es1 es2 :
  create_error_sequence_loop flat (es1 ++ es2) =
  match create_error_sequence_loop flat es1 with
  | Ret flat' => create_error_sequence_loop flat' es2
  | Raise e => Raise e
  end.
Proof.
  revert flat. induction es1 as [|e es1 IH]; intros flat; simpl; [done|].
  destruct e as [c|c n|n]; [apply IH| |done].
  destruct (n =? 0)%Z; apply IH.
Qed.

Lemma create_error_sequence_loop_flat classes : ∀ flat,
  create_error_sequence_loop flat (SClass <$> classes)
  = Ret (flat ++ (SClass <$> classes)).
Proof.
  induction classes as [|c classes IH]; intros flat; simpl.
  - by rewrite app_nil_r.
  - rewrite IH. by rewrite <- app_assoc.
Qed.

Lemma is_class_fmap es : Forall is_class es → ∃ classes, es = SClass <$> classes.
Proof.
  induction 1 as [|e es [c ->] _ [classes ->]].
  - by exists [].
  - by exists (c :: classes).
Qed.

(** X1.  Flattening is idempotent on sequences without a repeat-forever
    tuple: [_create_error_sequence] turns such a compact sequence into a
    list of exception classes only, and flattening that list once more
    gives the same list.  [Stage.__init__] relies on it when
    [Experiment.__init__] hands it an already flattened list. *)
Theorem X1_flatten_idempotent (compact : list seq_elem) :
  no_repeat_forever compact →
  ∃ es, _create_error_sequence compact = Ret es
        ∧ _create_error_sequence es = Ret es
        ∧ Forall is_class es.
Proof.
  intros Hc.
  destruct (create_error_sequence_loop_classes [] compact Hc) as (es & Hes & Hcls);
    [constructor|].
  exists es. split; [done|]. split; [|done].
  destruct (is_class_fmap es Hcls) as [classes ->].
  unfold _create_error_sequence. by rewrite create_error_sequence_loop_flat.
Qed.

Lemma X1_witness :
  ∃ es, _create_error_sequence [SPair StageReset 2; SClass TrialReset; SPair TrialAbort (-3)]
        = Ret es
        ∧ _create_error_sequence es = Ret es
        ∧ Forall is_class es.
Proof.
  exact (X1_flatten_idempotent
           [SPair StageReset 2; SClass TrialReset; SPair TrialAbort (-3)]
           ltac:(repeat constructor; done)).
Defined.


Lemma create_error_sequence_loop_is_flat compact : ∀ flat es,
  Forall is_flat flat →
  create_error_sequence_loop flat compact = Ret es →
  Forall is_flat es.
Proof.
  induction compact as [|e compact IH]; intros flat es Hflat Hes; simpl in Hes.
  - congruence.
  - destruct e as [c|c n|n]; [| |done].
    + eapply IH; [|done]. apply Forall_app. split; [done|].
      apply Forall_singleton. left. by exists c.
    + destruct (n =? 0)%Z; (eapply IH; [|done]); apply Forall_app; (split; [done|]).
      * apply Forall_cons. split; [left; by exists c|].
        apply Forall_singleton. by right.
      * apply Forall_replicate. left. by exists c.
Qed.

Lemma create_error_sequence_loop_marker es : ∀ flat,
  Forall is_flat es → SInt 0 ∈ es →
  ∃ e, create_error_sequence_loop flat es = Raise e ∧ exn_class e = TypeError.
Proof.
  induction es as [|x es IH]; intros flat Hflat Hin.
  - by apply elem_of_nil in Hin.
  - apply Forall_cons in Hflat as [Hx Hflat].
    destruct Hx as [[c ->]| ->]; simpl.
    + apply IH; [done|]. apply elem_of_cons in Hin as [?|?]; done.
    + eauto.
Qed.

(** X2.  A flattened sequence that came from a compact one with a
    repeat-forever tuple [(cls, 0)] cannot be flattened again: the marker
    [0] that the first pass leaves in the list is a bare integer to the
    second pass, which raises [TypeError]. *)
Theorem X2_flatten_twice_repeat_forever (compact es : list seq_elem) (c : exc_class) :
  SPair c 0 ∈ compact →
  _create_error_sequence compact = Ret es →
  ∃ e, _create_error_sequence es = Raise e ∧ exn_class e = TypeError.
Proof.
  intros Hin Hes. unfold _create_error_sequence in *.
  apply create_error_sequence_loop_marker.
  - by eapply create_error_sequence_loop_is_flat.
  - apply list_elem_of_split in Hin as (pre & post & ->).
    rewrite create_error_sequence_loop_app in Hes.
    destruct (create_error_sequence_loop [] pre) as [flat|]; [|done].
    simpl in Hes. apply create_error_sequence_loop_extends in Hes as [suffix ->].
    set_solver.
Qed.

Lemma X2_witness :
  ∃ e, _create_error_sequence [SClass Ignore; SInt 0] = Raise e
       ∧ exn_class e = TypeError.
Proof.
  exact (X2_flatten_twice_repeat_forever [SPair Ignore 0] [SClass Ignore; SInt 0]
           Ignore ltac:(set_solver) eq_refl).
Defined.

Section budget_then_forever.
Context {S W A : Type} `{HasErrorSequence S}.
Implicit Types (funcs : list (method (S:=S) (W:=W) (A:=A))) (self : S) (w : W).

Lemma handle_exceptions_pop_before_marker
    (func : method (S:=S) (W:=W) (A:=A)) self w err self' w' c x rest :
  func self w = (Raise err, self', w') →
  unexpected err →
  self_error_sequence self' = SClass c :: x :: rest →
  is_class x →
  handle_exceptions func self w =
    (Raise (instance c), set_error_sequence (x :: rest) self', w').
Proof.
  unfold handle_exceptions. intros -> [-> ->] -> [c' ->]. done.
Qed.

Lemma consecutive_calls_budget_then_forever funcs :
  ∀ errs self w classes c rest,
  fail_in_turn funcs errs self w →
  Forall unexpected errs →
  self_error_sequence self = (SClass <$> classes) ++ SClass c :: SInt 0 :: rest →
  (consecutive_calls funcs self w).1.1 =
    (Raise ∘ instance <$> take (length errs) classes)
    ++ replicate (length errs - length classes) (Raise (instance c))
  ∧ self_error_sequence (consecutive_calls funcs self w).1.2 =
    (SClass <$> drop (length errs) classes) ++ SClass c :: SInt 0 :: rest.
Proof.
  induction funcs as [|func funcs IH]; intros errs self w classes c rest Hf Hu Hs.
  { destruct errs; [|done]. simpl. by rewrite drop_0. }
  destruct errs as [|err errs']; [done|].
  apply fail_in_turn_cons in Hf as (self1 & w1 & Hcall & Hsame & Hf).
  apply Forall_cons in Hu as [Herr Hu]. simpl.
  rewrite <- Hsame in Hs.
  destruct classes as [|c1 classes].
  - simpl in Hs |- *.
    rewrite (handle_exceptions_forever _ self w err self1 w1 (SClass c) rest)
      in Hf |- * by done.
    destruct (IH errs' self1 w1 [] c rest Hf Hu Hs) as [IH1 IH2].
    destruct (consecutive_calls funcs self1 w1) as [[rs self2] w2]. simpl in *.
    rewrite IH1, IH2, take_nil, drop_nil, Nat.sub_0_r. done.
  - assert (∃ x tl, (SClass <$> classes) ++ SClass c :: SInt 0 :: rest = x :: tl
                    ∧ is_class x) as (x & tl & Heq & Hx).
    { destruct classes as [|c2 classes]; simpl; eexists _, _; (split; [done|]);
        eexists; done. }
    rewrite fmap_cons, <- app_comm_cons, Heq in Hs.
    rewrite (handle_exceptions_pop_before_marker _ self w err self1 w1 c1 x tl)
      in Hf |- * by done.
    rewrite <- Heq in Hf |- *.
    destruct (IH errs' (set_error_sequence
                          ((SClass <$> classes) ++ SClass c :: SInt 0 :: rest) self1)
                 w1 classes c rest Hf Hu (self_error_sequence_set _ _))
      as [IH1 IH2].
    destruct (consecutive_calls funcs _ w1) as [[rs self2] w2]. simpl in *.
    by rewrite IH1, IH2.
Qed.
End budget_then_forever.

(** X3.  A compact sequence [budget ++ (c, 0) :: post] whose [budget]
    has no repeat-forever tuple flattens to the flattened budget followed
    by [c], the marker [0] and the rest.  Over consecutive wrapped calls
    that all fail unexpectedly (each body fails on the object and the
    world as the calls before it left them, and may have changed the
    object, not its sequence), the failures first use up the budget, the
    i-th one raising its i-th entry, and every later failure raises [c];
    the sequence that is left is the unspent budget followed by [c], the
    marker and the rest, so the entries after the repeat-forever tuple
    are never reached. *)
Theorem X3_budget_then_forever {S W A : Type} `{HasErrorSequence S}
    (budget post es : list seq_elem) (c : exc_class) (self : S) (w : W)
    (funcs : list (method (S:=S) (W:=W) (A:=A))) (errs : list exn) :
  no_repeat_forever budget →
  _create_error_sequence (budget ++ SPair c 0 :: post) = Ret es →
  self_error_sequence self = es →
  fail_in_turn funcs errs self w →
  Forall unexpected errs →
  ∃ spent rest,
    _create_error_sequence budget = Ret spent
    ∧ es = spent ++ SClass c :: SInt 0 :: rest
    ∧ (consecutive_calls funcs self w).1.1 =
        (Raise ∘ raise_elem <$> take (length errs) spent)
        ++ replicate (length errs - length spent) (Raise (instance c))
    ∧ self_error_sequence (consecutive_calls funcs self w).1.2 =
        drop (length errs) spent ++ SClass c :: SInt 0 :: rest.
Proof.
  intros Hbudget Hes Hself Hfuncs Herrs.
  destruct (create_error_sequence_loop_classes [] budget Hbudget)
    as (spent & Hspent & Hcls); [constructor|].
  unfold _create_error_sequence in *.
  rewrite create_error_sequence_loop_app, Hspent in Hes. simpl in Hes.
  apply create_error_sequence_loop_extends in Hes as [rest Hrest].
  rewrite <- app_assoc in Hrest. simpl in Hrest.
  exists spent, rest. split; [done|]. split; [done|].
  destruct (is_class_fmap spent Hcls) as [classes ->].
  rewrite Hrest in Hself.
  destruct (consecutive_calls_budget_then_forever funcs errs self w classes c rest
              Hfuncs Herrs Hself) as [H1 H2].
  rewrite H1, H2, !length_fmap, <- fmap_take, <- fmap_drop, <- list_fmap_compose.
  done.
Qed.

(** Four calls of [Trial.run] on a trial built with
    [[(TrialReset, 2), (Ignore, 0), TrialAbort]] whose stage fails with
    a [ValueError] at each call. *)
Lemma X3_witness :
  let es := [SClass TrialReset; SClass TrialReset; SClass Ignore; SInt 0;
             SClass TrialAbort] in
  let self := failing_trial es in
  ∃ spent rest,
    _create_error_sequence [SPair TrialReset 2] = Ret spent
    ∧ es = spent ++ SClass Ignore :: SInt 0 :: rest
    ∧ (consecutive_calls (replicate 4 Trial.run_body) self tt).1.1 =
        (Raise ∘ raise_elem <$> take 4 spent)
        ++ replicate (4 - length spent) (Raise (instance Ignore))
    ∧ self_error_sequence (consecutive_calls (replicate 4 Trial.run_body) self tt).1.2 =
        drop 4 spent ++ SClass Ignore :: SInt 0 :: rest.
Proof.
  intros es self.
  exact (X3_budget_then_forever
    [SPair TrialReset 2] [SClass TrialAbort] es
    Ignore self tt (replicate 4 Trial.run_body)
    (replicate 4 (instance (OtherException "ValueError")))
    ltac:(repeat constructor; done) eq_refl eq_refl
    ltac:(vm_compute; repeat split)
    ltac:(repeat constructor)).
Defined.

(* ===================================================================== *)
(** * Further facts: trials *)
(* ===================================================================== *)


Section trial_extra.
Context {Val W : Type}.
Implicit Types (self : Trial.t Val W) (w : W).


Lemma same_setup_refl self : same_setup self self.
Proof. by repeat split. Qed.

Lemma same_setup_trans self1 self2 self3 :
  same_setup self1 self2 → same_setup self2 self3 → same_setup self1 self3.
Proof. unfold same_setup. intros ? ?. intuition congruence. Qed.

Lemma update_from_stage_args_same_setup i self :
  same_setup self (Trial.update_from_stage_args i self).2.
Proof. unfold Trial.update_from_stage_args. repeat case_match; by repeat split. Qed.

Lemma next_stage_same_setup self : same_setup self (Trial.next_stage self).2.
Proof.
  unfold Trial.next_stage.
  match goal with
  | |- context [Trial.update_from_stage_args ?i ?s] =>
      pose proof (update_from_stage_args_same_setup i s) as Hupd;
      destruct (Trial.update_from_stage_args i s) as [[u|e] self']
  end; simpl in *; [done|]. by case_decide.
Qed.

Lemma run_body_same_setup self w : same_setup self (Trial.run_body self w).1.2.
Proof.
  unfold Trial.run_body, Trial.call_stage, Trial.finish, Trial.absorb.
  repeat (case_match; simplify_eq/=; try done);
    try (by repeat split);
    match goal with
    | H : Trial.next_stage ?s = (_, ?s') |- _ =>
        pose proof (next_stage_same_setup s) as Hn; rewrite H in Hn; exact Hn
    end.
Qed.

Lemma run_same_setup self w : same_setup self (Trial.run self w).1.2.
Proof.
  unfold Trial.run, handle_exceptions.
  pose proof (run_body_same_setup self w) as Hbody.
  destruct (Trial.run_body self w) as [[[a|err] self'] w']; simpl in *; [done|].
  by repeat case_match.
Qed.

(** X4.  [new_trial] puts the trial's own error sequence back to the
    original one, whether it returns or raises; when it returns, every
    stage has its original sequence again ([reset_error_sequence]), and
    when it raises the stages are untouched.  [reset] does neither: it
    leaves the stages and the trial's own sequence as they are. *)
Theorem X4_new_trial_resets_policies_reset_does_not self stage_args kwargs :
  Trial.error_sequence (Trial.new_trial self stage_args kwargs).2
  = Trial.original_error_sequence self
  ∧ match Trial.new_trial self stage_args kwargs with
    | (Ret _, self') =>
        Trial.stages self' = Stage.reset_error_sequence <$> Trial.stages self
        ∧ Forall (λ stage,
                    Stage.error_sequence (Stage.self_attrs stage)
                    = Stage.original_error_sequence (Stage.self_attrs stage))
                 (Trial.stages self')
    | (Raise _, self') => Trial.stages self' = Trial.stages self
    end
  ∧ Trial.stages (Trial.reset self).2 = Trial.stages self
  ∧ Trial.error_sequence (Trial.reset self).2 = Trial.error_sequence self.
Proof.
  assert (Hreset : Trial.stages (Trial.reset self).2 = Trial.stages self
                   ∧ Trial.error_sequence (Trial.reset self).2
                     = Trial.error_sequence self).
  { unfold Trial.reset, Trial.update_from_stage_args. simpl.
    destruct (Trial.stage_args self) as [sa|]; [|done]. by destruct (sa !! 0). }
  unfold Trial.new_trial, Trial.update_from_stage_args. simpl.
  destruct (_ !! 0) as [overlay|]; simpl; [|done].
  split; [done|]. split; [|done]. split; [done|].
  apply Forall_fmap, Forall_true. done.
Qed.

(** X6.  [new_trial] reads [stage_args[0]], where [stage_args] defaults
    to one empty dict per stage.  When that list is empty the call raises
    [IndexError] after it has merged the keyword arguments into
    [initial_state] and [state], and before it touches [done],
    [stage_index] and [results].  Otherwise it returns and leaves a trial
    that is not done and not running, at stage 0, with the initial
    results, whose state is the first overlay over the keyword arguments
    over the former initial state, and whose checkpoint is the same
    without the overlay. *)
Theorem X6_new_trial_needs_first_overlay self stage_args kwargs :
  match effective_stage_args self stage_args with
  | [] =>
      ∃ e self',
        Trial.new_trial self stage_args kwargs = (Raise e, self')
        ∧ exn_class e = IndexError
        ∧ Trial.is_done self' = Trial.is_done self
        ∧ Trial.stage_index self' = Trial.stage_index self
        ∧ Trial.results self' = Trial.results self
        ∧ Trial.initial_state self' = kwargs ∪ Trial.initial_state self
        ∧ Trial.state self' = kwargs ∪ Trial.initial_state self
  | overlay :: _ =>
      ∃ self',
        Trial.new_trial self stage_args kwargs = (Ret (), self')
        ∧ Trial.is_done self' = false
        ∧ Trial.is_running self' = false
        ∧ Trial.stage_index self' = 0
        ∧ Trial.results self' = Trial.initial_results self
        ∧ Trial.state self' = overlay ∪ (kwargs ∪ Trial.initial_state self)
        ∧ Trial.state_checkpoint self' = kwargs ∪ Trial.initial_state self
  end.
Proof.
  unfold effective_stage_args, Trial.new_trial, Trial.update_from_stage_args.
  simpl.
  destruct (match stage_args with
            | Some sa => sa
            | None => replicate (length (Trial.stages self)) ∅
            end) as [|overlay rest] eqn:Heff; simpl.
  - eexists _, _. repeat split; done.
  - eexists. repeat split; try done. by destruct (Trial.initial_results self).
Qed.

(** ** A stage reset while polling *)


Lemma run_start_polling self w ev status update :
  Trial.done self = false →
  Trial.running self = false →
  stage_call self w = Some ev →
  ev_blocking ev = false →
  ev_result ev = Ret (status, update) →
  status ≠ 0%Z →
  ∃ self' w',
    Trial.run self w = (Ret (0%Z, None), self', w')
    ∧ polling (Trial.stage_index self) (Trial.state self) self'
    ∧ TrialResults.data (Trial.results self')
      = TrialResults.data (Trial.results self) ++ emitted_by ev.
Proof.
  intros Hd Hr Hev Hnb Hret Hst.
  unfold stage_call, Trial.is_done in Hev. rewrite Hd, Hr in Hev.
  destruct (Trial.stages self !! Trial.stage_index self) as [stage|] eqn:Hstage;
    [|done].
  injection Hev as <-. simpl in *.
  unfold emitted_by. simpl.
  pose proof (lookup_lt_Some _ _ _ Hstage) as Hlt.
  destruct (Stage.start stage (Trial.state self) (Stage.self_attrs stage) w)
    as [[r a] w1] eqn:Hcall. simpl in Hret. subst r.
  eexists _, w1. split.
  { apply handle_exceptions_Ret.
    unfold Trial.run_body, Trial.is_done, Trial.call_stage.
    rewrite Hd, Hstage, Hr, Hnb. simpl. rewrite Hcall. simpl.
    apply Z.eqb_neq in Hst as ->. simpl.
    unfold Trial.finish. rewrite andb_false_r. reflexivity. }
  unfold polling, Trial.absorb. simpl.
  destruct (update !! "trial_results"); simpl; rewrite ?app_nil_r;
    repeat split; try done;
    (eexists; split; [apply list_lookup_insert_eq; lia|done]).
Qed.

Lemma run_poll_polling i snapshot self w ev :
  polling i snapshot self →
  stage_call self w = Some ev →
  returned ev →
  completion_signal ev = false →
  ∃ self' w',
    Trial.run self w = (Ret (0%Z, None), self', w')
    ∧ polling i snapshot self'
    ∧ TrialResults.data (Trial.results self')
      = TrialResults.data (Trial.results self) ++ emitted_by ev.
Proof.
  intros (Hd & Hr & Hi & Hsnap & stage & Hstage & Hnb) Hev (status & update & Hret) Hcs.
  subst i.
  unfold stage_call, Trial.is_done in Hev. rewrite Hd, Hr, Hstage in Hev.
  injection Hev as <-. unfold completion_signal, emitted_by in *. simpl in *.
  pose proof (lookup_lt_Some _ _ _ Hstage) as Hlt.
  destruct (Stage.is_done stage (Trial.state self) (Stage.self_attrs stage) w)
    as [[r a] w1] eqn:Hcall. simpl in *. subst r.
  rewrite Hnb, andb_true_r in Hcs. apply negb_false_iff in Hcs.
  eexists _, w1. split.
  { apply handle_exceptions_Ret.
    unfold Trial.run_body, Trial.is_done, Trial.call_stage.
    rewrite Hd, Hstage, Hr. simpl. rewrite Hcall. simpl. rewrite Hcs. simpl.
    unfold Trial.finish. rewrite andb_false_r. reflexivity. }
  unfold polling, Trial.absorb. simpl.
  destruct (update !! "trial_results"); simpl; rewrite ?app_nil_r;
    repeat split; try done;
    (eexists; split; [apply list_lookup_insert_eq; lia|done]).
Qed.

Lemma run_trace_polling n : ∀ i snapshot self w,
  polling i snapshot self →
  Forall returned (events (run_trace n self w).1.1) →
  completions (events (run_trace n self w).1.1) = 0 →
  polling i snapshot (run_trace n self w).1.2
  ∧ TrialResults.data (Trial.results (run_trace n self w).1.2)
    = TrialResults.data (Trial.results self)
      ++ emitted (events (run_trace n self w).1.1).
Proof.
  induction n as [|n IH]; intros i snapshot self w Hp Hret Hc.
  { simpl. by rewrite app_nil_r. }
  simpl in *.
  assert (∃ ev, stage_call self w = Some ev) as [ev Hev].
  { destruct Hp as (Hd & Hr & Hi & _ & stage & Hstage & _).
    unfold stage_call, Trial.is_done. rewrite Hd, Hi, Hstage. eauto. }
  rewrite Hev in *.
  destruct (Trial.run self w) as [[r self1] w1] eqn:Hrun.
  destruct (run_trace n self1 w1) as [[tr self2] w2] eqn:Htr. simpl in *.
  apply Forall_cons in Hret as [Hret1 Hret].
  destruct (completion_signal ev) eqn:Hcs; [done|]. simpl in Hc.
  destruct (run_poll_polling i snapshot self w ev Hp Hev Hret1 Hcs)
    as (self1' & w1' & Hrun' & Hp1 & Hdata).
  rewrite Hrun in Hrun'. injection Hrun' as -> <- <-.
  specialize (IH i snapshot self1 w1 Hp1). rewrite Htr in IH. simpl in IH.
  destruct (IH Hret Hc) as [IH1 IH2]. split; [done|].
  unfold emitted in *. simpl. by rewrite IH2, Hdata, app_assoc.
Qed.

Lemma run_reset_polling i snapshot self w ev e :
  polling i snapshot self →
  stage_call self w = Some ev →
  ev_result ev = Raise e →
  exn_class e = StageReset →
  ∃ self' w',
    Trial.run self w = (Ret (0%Z, None), self', w')
    ∧ Trial.state self' = snapshot
    ∧ Trial.is_running self' = false
    ∧ Trial.is_done self' = false
    ∧ Trial.stage_index self' = i
    ∧ Trial.results self' = Trial.results self.
Proof.
  intros (Hd & Hr & Hi & Hsnap & stage & Hstage & Hnb) Hev Hret Hcls.
  subst i.
  unfold stage_call, Trial.is_done in Hev. rewrite Hd, Hr, Hstage in Hev.
  injection Hev as <-. simpl in *.
  destruct (Stage.is_done stage (Trial.state self) (Stage.self_attrs stage) w)
    as [[r a] w1] eqn:Hcall. simpl in *. subst r.
  eexists _, w1. split.
  { apply handle_exceptions_Ret.
    unfold Trial.run_body, Trial.is_done, Trial.call_stage.
    rewrite Hd, Hstage, Hr. simpl. rewrite Hcall. simpl. rewrite Hcls.
    reflexivity. }
  by repeat split.
Qed.

(** X5.  A stage reset while polling rolls the state back and keeps
    the results.  A trial that is neither done nor running starts a
    non-blocking stage (the start returns a nonzero status); the next [n]
    runs poll it, every poll returns and none signals completion; then a
    poll raises [StageReset].  That run returns [(0, None)]; the state is
    again what it was before the stage was started, the trial is not
    running and not done and still at the same stage, and the results
    keep what the start and the polls have emitted. *)
Theorem X5_stage_reset_rolls_back_state self w n ev0 status update ev e :
  let self1 := (Trial.run self w).1.2 in
  let w1 := (Trial.run self w).2 in
  let tr := (run_trace n self1 w1).1.1 in
  let self2 := (run_trace n self1 w1).1.2 in
  let w2 := (run_trace n self1 w1).2 in
  Trial.is_done self = false →
  Trial.is_running self = false →
  stage_call self w = Some ev0 →
  ev_blocking ev0 = false →
  ev_result ev0 = Ret (status, update) →
  status ≠ 0%Z →
  Forall returned (events tr) →
  completions (events tr) = 0 →
  stage_call self2 w2 = Some ev →
  ev_result ev = Raise e →
  exn_class e = StageReset →
  ∃ self3 w3,
    Trial.run self2 w2 = (Ret (0%Z, None), self3, w3)
    ∧ Trial.state self3 = Trial.state self
    ∧ Trial.is_running self3 = false
    ∧ Trial.is_done self3 = false
    ∧ Trial.stage_index self3 = Trial.stage_index self
    ∧ TrialResults.data (Trial.results self3)
      = TrialResults.data (Trial.results self) ++ emitted_by ev0 ++ emitted (events tr).
Proof.
  intros self1 w1 tr self2 w2 Hd Hr Hev0 Hnb Hret0 Hst Hret Hc Hev He Hcls.
  destruct (run_start_polling self w ev0 status update Hd Hr Hev0 Hnb Hret0 Hst)
    as (self1' & w1' & Hrun & Hp & Hdata1).
  assert (self1 = self1') as Hs1 by (unfold self1; by rewrite Hrun).
  assert (w1 = w1') as Hw1 by (unfold w1; by rewrite Hrun).
  rewrite <- Hs1 in Hp, Hdata1.
  destruct (run_trace_polling n _ _ self1 w1 Hp Hret Hc) as [Hp2 Hdata2].
  fold self2 tr in Hp2, Hdata2.
  destruct (run_reset_polling _ _ self2 w2 ev e Hp2 Hev He Hcls)
    as (self3 & w3 & Hrun3 & Hstate & Hrun' & Hdone & Hidx & Hres).
  exists self3, w3. repeat split; try done.
  by rewrite Hres, Hdata2, Hdata1, app_assoc.
Qed.

Lemma run_trace_same_setup n : ∀ self w,
  same_setup self (run_trace n self w).1.2.
Proof.
  induction n as [|n IH]; intros self w; [apply same_setup_refl|]. simpl.
  pose proof (run_same_setup self w) as Hrun.
  destruct (Trial.run self w) as [[r self1] w1]. simpl in Hrun.
  specialize (IH self1 w1).
  destruct (run_trace n self1 w1) as [[tr self2] w2]. simpl in *.
  by eapply same_setup_trans.
Qed.

(** X7.  [reset] after any number of runs gives back the trial that
    [new_trial] left, except for the error sequences: the one of the
    trial and those of its stages stay as the runs left them. *)
Theorem X7_reset_returns_to_new_trial self stage_args kwargs self1 w n :
  let self2 := (run_trace n self1 w).1.2 in
  Trial.new_trial self stage_args kwargs = (Ret (), self1) →
  Trial.reset self2
  = (Ret (),
     Trial.with_stages (Trial.stages self2)
       (Trial.with_error_sequence (Trial.error_sequence self2) self1)).
Proof.
  intros self2 Hnew.
  pose proof (run_trace_same_setup n self1 w) as Hsame. fold self2 in Hsame.
  clearbody self2.
  unfold Trial.new_trial, Trial.update_from_stage_args in Hnew. simpl in Hnew.
  destruct (_ !! 0) as [overlay|] eqn:Hov; [|done].
  injection Hnew as <-.
  destruct Hsame as (H1 & H2 & H3 & H4 & H5 & H6 & H7).
  destruct self2. simpl in *. subst.
  unfold Trial.reset, Trial.update_from_stage_args. simpl. rewrite Hov.
  reflexivity.
Qed.

(** X8.  When the stage call that [run] is about to make raises
    anything but [StageAbort], [StageReset] and [Ignore], [run] raises,
    either that exception or the front of the trial's error sequence, and
    the state, the results, the stage index and the running and done
    flags are what they were before the call. *)
Theorem X8_failed_stage_call_keeps_trial self w ev e :
  stage_call self w = Some ev →
  ev_result ev = Raise e →
  exn_class e ∉ [StageAbort; StageReset; Ignore] →
  ∃ e' self' w',
    Trial.run self w = (Raise e', self', w')
    ∧ (e' = e ∨ ∃ front, head (Trial.error_sequence self) = Some front
                         ∧ e' = raise_elem front)
    ∧ Trial.state self' = Trial.state self
    ∧ Trial.results self' = Trial.results self
    ∧ Trial.stage_index self' = Trial.stage_index self
    ∧ Trial.is_running self' = Trial.is_running self
    ∧ Trial.is_done self' = Trial.is_done self.
Proof.
  intros Hev Hret Hcls.
  assert (exn_class e ≠ StageAbort ∧ exn_class e ≠ StageReset
          ∧ exn_class e ≠ Ignore) as (HA & HR & HI) by set_solver.
  unfold stage_call, Trial.is_done in Hev.
  destruct (Trial.done self) eqn:Hd; [done|].
  destruct (Trial.stages self !! Trial.stage_index self) as [stage|] eqn:Hstage;
    [|done].
  injection Hev as <-. simpl in Hret.
  assert (∃ self' w',
            Trial.run_body self w = (Raise e, self', w')
            ∧ Trial.error_sequence self' = Trial.error_sequence self
            ∧ Trial.state self' = Trial.state self
            ∧ Trial.results self' = Trial.results self
            ∧ Trial.stage_index self' = Trial.stage_index self
            ∧ Trial.is_running self' = Trial.is_running self
            ∧ Trial.is_done self' = Trial.is_done self)
    as (self' & w' & Hbody & Hes & Hrest).
  { unfold Trial.run_body, Trial.is_done, Trial.call_stage. rewrite Hd, Hstage.
    destruct (Trial.running self) eqn:Hr; simpl in *.
    - destruct (Stage.is_done stage _ _ w) as [[r a] w1]. simpl in Hret. subst r.
      repeat (case_decide; [by intuition|]). eexists _, _. by repeat split.
    - destruct (Stage.blocking stage);
        destruct (Stage.start stage _ _ w) as [[r a] w1]; simpl in Hret; subst r;
        repeat (case_decide; [by intuition|]); eexists _, _; by repeat split. }
  unfold Trial.run, handle_exceptions. rewrite Hbody.
  change (self_error_sequence self') with (Trial.error_sequence self').
  rewrite Hes.
  repeat case_match; eexists _, _, _; (split; [reflexivity|]); simpl;
    (split; [eauto|done]).
Qed.
End trial_extra.

Lemma X5_witness :
  let self := started_trial [restless_stage] in
  let self2 := (run_trace 1 (Trial.run self tt).1.2 tt).1.2 in
  ∃ self3 w3,
    Trial.run self2 tt = (Ret (0%Z, None), self3, w3)
    ∧ Trial.state self3 = Trial.state self
    ∧ Trial.is_running self3 = false
    ∧ Trial.is_done self3 = false
    ∧ Trial.stage_index self3 = Trial.stage_index self
    ∧ TrialResults.data (Trial.results self3) = [].
Proof.
  intros self self2.
  exact (X5_stage_reset_rolls_back_state self tt 1
           {| ev_stage := 0; ev_method := MStart; ev_blocking := false;
              ev_result := Ret (1%Z, {[ "started" := 1%Z ]}) |}
           1%Z {[ "started" := 1%Z ]}
           {| ev_stage := 0; ev_method := MIsDone; ev_blocking := false;
              ev_result := Raise (instance StageReset) |}
           (instance StageReset)
           eq_refl eq_refl eq_refl eq_refl eq_refl ltac:(lia)
           ltac:(vm_compute; repeat constructor; eauto) eq_refl eq_refl eq_refl eq_refl).
Defined.

Lemma X7_witness :
  let self1 := started_trial [polled_stage 7] in
  let self2 := (run_trace 2 self1 tt).1.2 in
  Trial.reset self2
  = (Ret (),
     Trial.with_stages (Trial.stages self2)
       (Trial.with_error_sequence (Trial.error_sequence self2) self1)).
Proof.
  intros self1 self2.
  exact (X7_reset_returns_to_new_trial (built_trial [polled_stage 7] ∅ []) None ∅
           self1 tt 2 eq_refl).
Defined.

Lemma X8_witness :
  let self := started_trial [raising_stage false (OtherException "ValueError")] in
  let e := instance (OtherException "ValueError") in
  ∃ e' self' w',
    Trial.run self tt = (Raise e', self', w')
    ∧ (e' = e ∨ ∃ front, head (Trial.error_sequence self) = Some front
                         ∧ e' = raise_elem front)
    ∧ Trial.state self' = Trial.state self
    ∧ Trial.results self' = Trial.results self
    ∧ Trial.stage_index self' = Trial.stage_index self
    ∧ Trial.is_running self' = Trial.is_running self
    ∧ Trial.is_done self' = Trial.is_done self.
Proof.
  intros self e.
  exact (X8_failed_stage_call_keeps_trial self tt
           {| ev_stage := 0; ev_method := MStart; ev_blocking := false;
              ev_result := Raise e |} e
           eq_refl eq_refl ltac:(apply (bool_decide_unpack _); vm_compute; exact I)).
Defined.

(* ===================================================================== *)
(** * Further facts: resources *)
(* ===================================================================== *)


(** ** The warden keeps its keys and its options *)


Lemma same_keys_refl self : same_keys self self.
Proof. by repeat split. Qed.

Lemma same_keys_trans self1 self2 self3 :
  same_keys self1 self2 → same_keys self2 self3 → same_keys self1 self3.
Proof.
  intros (? & ? & H12) (? & ? & H23). repeat split; try congruence.
  - intros ?. by apply H12, H23.
  - intros ?. by apply H23, H12.
Qed.

Lemma same_keys_insert self k s s' :
  ResourceWarden.resource_dict self !! k = Some s →
  same_keys self (ResourceWarden.set_resource_dict
                    (<[k := s']> (ResourceWarden.resource_dict self)) self).
Proof.
  intros Hk. repeat split; simpl; intros Hnone.
  - destruct (decide (k0 = k)) as [->|Hne].
    + by rewrite lookup_insert_eq in Hnone.
    + by rewrite lookup_insert_ne in Hnone.
  - destruct (decide (k0 = k)) as [->|Hne]; [congruence|].
    by rewrite lookup_insert_ne.
Qed.

Lemma acquire_one_same_keys self r o :
  same_keys self (ResourceWarden.acquire_one self r o).2.
Proof.
  unfold ResourceWarden.acquire_one.
  destruct (ResourceWarden.resource_dict self !! r) as [s|] eqn:Hs;
    [|apply same_keys_refl].
  destruct (sem_acquire o s) as [ok s']. simpl. by eapply same_keys_insert.
Qed.

Lemma release_loop_same_keys resources : ∀ self released,
  same_keys self (ResourceWarden.release_loop self released resources).2.
Proof.
  induction resources as [|r resources IH]; intros self released; simpl;
    [apply same_keys_refl|].
  destruct (ResourceWarden.resource_dict self !! r) as [s|] eqn:Hs;
    [|apply same_keys_refl].
  destruct (sem_release s) as [[u|e] s']; [|apply same_keys_refl].
  eapply same_keys_trans; [by eapply same_keys_insert|apply IH].
Qed.

Lemma acquire_dict_same_keys d : ∀ self acquired success,
  same_keys self (ResourceWarden.acquire_dict self acquired success d).2.
Proof.
  induction d as [|[r o] d IH]; intros self acquired success; simpl;
    [apply same_keys_refl|].
  pose proof (acquire_one_same_keys self r o) as H1.
  destruct (ResourceWarden.acquire_one self r o) as [[ok|e] self1]; [|done].
  eapply same_keys_trans; [exact H1|apply IH].
Qed.

Lemma acquire_loop_same_keys specs : ∀ self acquired success,
  same_keys self (ResourceWarden.acquire_loop self acquired success specs).2.
Proof.
  induction specs as [|spec specs IH]; intros self acquired success; simpl;
    [apply same_keys_refl|].
  destruct spec as [r|d|].
  - pose proof (acquire_one_same_keys self r
                  {| opt_block := ResourceWarden.block self;
                     opt_timeout := ResourceWarden.timeout self |}) as H1.
    destruct (ResourceWarden.acquire_one self r _) as [[ok|e] self1]; [|done].
    destruct ok.
    + eapply same_keys_trans; [exact H1|apply IH].
    + pose proof (release_loop_same_keys acquired self1 []) as H2.
      unfold ResourceWarden.release.
      destruct (ResourceWarden.release_loop self1 [] acquired) as [[l|e] self2];
        by eapply same_keys_trans.
  - pose proof (acquire_dict_same_keys d self acquired success) as H1.
    destruct (ResourceWarden.acquire_dict self acquired success d)
      as [[[acquired' [[|]|]]|e] self1]; try done.
    + eapply same_keys_trans; [exact H1|apply IH].
    + pose proof (release_loop_same_keys acquired' self1 []) as H2.
      unfold ResourceWarden.release.
      destruct (ResourceWarden.release_loop self1 [] acquired') as [[l|e] self2];
        by eapply same_keys_trans.
  - apply same_keys_refl.
Qed.

(** ** Names that follow acquired names *)

Lemma acquire_loop_names_then names : ∀ self acquired success self' rest,
  names ≠ [] →
  ResourceWarden.acquire_loop self acquired success (RName <$> names)
  = (Ret (acquired ++ names), self') →
  ResourceWarden.acquire_loop self acquired success ((RName <$> names) ++ rest)
  = ResourceWarden.acquire_loop self' (acquired ++ names) (Some true) rest.
Proof.
  induction names as [|r names IH]; intros self acquired success self' rest Hne Hacq;
    [done|].
  rewrite fmap_cons, <- app_comm_cons. rewrite fmap_cons in Hacq.
  cbn [ResourceWarden.acquire_loop] in *.
  destruct (ResourceWarden.acquire_one self r _) as [[[|]|e] self1] eqn:Hone;
    [| |done].
  - destruct names as [|r' names].
    + simpl in Hacq. by injection Hacq as <-.
    + rewrite (IH self1 (acquired ++ [r]) (Some true) self' rest); [|done|].
      * by rewrite <- app_assoc.
      * by rewrite <- app_assoc.
  - destruct (ResourceWarden.release self1 acquired) as [[l|e] self2]; [|done].
    injection Hacq as Hnil _. by destruct acquired.
Qed.


Lemma occurrences_app k l1 l2 :
  occurrences k (l1 ++ l2) = occurrences k l1 + occurrences k l2.
Proof. unfold occurrences. by rewrite filter_app, length_app. Qed.

Lemma owes_units d d0 held k : owes d d0 held → occurrences k held ≤ units d0 k.
Proof.
  intros Howes. specialize (Howes k). unfold units.
  destruct (d !! k) as [s|], (d0 !! k) as [s0|]; simpl; try done; lia.
Qed.

Lemma acquire_loop_names_short names : ∀ self acquired success d0,
  within_bounds d0 →
  owes (ResourceWarden.resource_dict self) d0 acquired →
  Forall (λ r, is_Some (d0 !! r)) names →
  ResourceWarden.acquire_loop self acquired success (RName <$> names)
  = (Ret [], ResourceWarden.set_resource_dict d0 self)
  → names = [] ∨ ∃ k, units d0 k < occurrences k (acquired ++ names).
Proof.
  induction names as [|r names IH]; intros self acquired success d0 Hb Howes Hin Hacq;
    [by left|right].
  apply Forall_cons in Hin as [[s0 Hs0] Hin].
  rewrite fmap_cons in Hacq. cbn [ResourceWarden.acquire_loop] in Hacq.
  unfold ResourceWarden.acquire_one in Hacq.
  pose proof (Howes r) as Hr. rewrite Hs0 in Hr.
  destruct (ResourceWarden.resource_dict self !! r) as [s|] eqn:Hs; [|done].
  destruct Hr as [Hbound Hval].
  unfold sem_acquire in Hacq. destruct (sem_value s) as [|n] eqn:Hv.
  - exists r. unfold units. rewrite Hs0. simpl.
    rewrite occurrences_app, occurrences_cons_eq. lia.
  - simpl in Hacq.
    assert (owes (<[r := {| sem_value := n; sem_bound := sem_bound s |}]>
                    (ResourceWarden.resource_dict self)) d0 (acquired ++ [r]))
      as Howes'.
    { intros k. destruct (decide (k = r)) as [->|Hne].
      - rewrite lookup_insert_eq, Hs0, occurrences_snoc_eq. simpl. split; [done|lia].
      - rewrite lookup_insert_ne by done. specialize (Howes k).
        by rewrite occurrences_snoc_ne. }
    destruct (IH (ResourceWarden.set_resource_dict
                    (<[r := {| sem_value := n; sem_bound := sem_bound s |}]>
                       (ResourceWarden.resource_dict self)) self)
                 (acquired ++ [r]) (Some true) d0 Hb Howes' Hin Hacq) as [->|[k Hk]].
    + simpl in Hacq. injection Hacq as Hnil _. by destruct acquired.
    + exists k. by rewrite <- app_assoc in Hk.
Qed.

Lemma within_bounds_checked (d : gmap string semaphore) :
  forallb (λ kv, bounded kv.2) (map_to_list d) = true → within_bounds d.
Proof.
  intros Hall k s b Hk Hb.
  rewrite forallb_forall in Hall.
  specialize (Hall (k, s)). unfold bounded in Hall. simpl in Hall.
  rewrite Hb in Hall. eapply bool_decide_eq_true_1.
  apply Hall. apply list_elem_of_In, elem_of_map_to_list, Hk.
Qed.

(** X9.  Acquisition by names is all or nothing, and it succeeds
    exactly when the warden has the units.  For a warden that gives up,
    whose bounded semaphores are within their bounds, and a nonempty list
    of names it knows: either some name occurs in the list more often
    than the warden has units of it, and the call returns the empty list
    and leaves the warden as it was; or every name has enough units, and
    the call returns the names with each semaphore lowered by the number
    of occurrences of its name. *)
Theorem X9_acquire_names_iff_enough_units (self : ResourceWarden.t)
    (names : list string) :
  gives_up self →
  within_bounds (ResourceWarden.resource_dict self) →
  Forall (λ r, is_Some (ResourceWarden.resource_dict self !! r)) names →
  names ≠ [] →
  (ResourceWarden.acquire self (RName <$> names) = (Ret [], self)
   ∧ ∃ k, units (ResourceWarden.resource_dict self) k < occurrences k names)
  ∨ (∃ self',
       ResourceWarden.acquire self (RName <$> names) = (Ret names, self')
       ∧ owes (ResourceWarden.resource_dict self')
              (ResourceWarden.resource_dict self) names
       ∧ ∀ k, occurrences k names ≤ units (ResourceWarden.resource_dict self) k).
Proof.
  intros _ Hb Hin Hne.
  destruct (acquire_names_all_or_nothing self names Hb Hin)
    as [Hfail|(self' & Hok & Howes)].
  - left. split; [done|].
    unfold ResourceWarden.acquire in Hfail.
    destruct (acquire_loop_names_short names self [] None
                (ResourceWarden.resource_dict self) Hb (owes_refl _) Hin)
      as [?|Hk]; [by destruct self|done|done].
  - right. exists self'. split; [done|]. split; [done|].
    intros k. by eapply owes_units.
Qed.

Lemma X9_witness :
  let self := example_warden {[ "a" := free_unit; "b" := free_unit ]} in
  let names := ["a"; "b"] in
  (ResourceWarden.acquire self (RName <$> names) = (Ret [], self)
   ∧ ∃ k, units (ResourceWarden.resource_dict self) k < occurrences k names)
  ∨ (∃ self',
       ResourceWarden.acquire self (RName <$> names) = (Ret names, self')
       ∧ owes (ResourceWarden.resource_dict self')
              (ResourceWarden.resource_dict self) names
       ∧ ∀ k, occurrences k names ≤ units (ResourceWarden.resource_dict self) k).
Proof.
  intros self names.
  exact (X9_acquire_names_iff_enough_units self names (or_introl eq_refl)
           ltac:(apply within_bounds_checked; vm_compute; reflexivity)
           ltac:(repeat constructor; eexists; reflexivity)
           ltac:(discriminate)).
Defined.

Lemma same_keys_set_back self self' :
  same_keys self self' →
  ResourceWarden.set_resource_dict (ResourceWarden.resource_dict self) self' = self.
Proof. intros (Hb & Ht & _). destruct self, self'. simpl in *. by subst. Qed.

(** X10.  [release] undoes [acquire]: releasing the names that an
    acquisition by names returned gives the names back and restores the
    warden as it was before the acquisition. *)
Theorem X10_release_undoes_acquire (self self' : ResourceWarden.t)
    (names : list string) :
  within_bounds (ResourceWarden.resource_dict self) →
  Forall (λ r, is_Some (ResourceWarden.resource_dict self !! r)) names →
  names ≠ [] →
  ResourceWarden.acquire self (RName <$> names) = (Ret names, self') →
  ResourceWarden.release self' names = (Ret names, self).
Proof.
  intros Hb Hin Hne Hacq.
  pose proof (acquire_loop_same_keys (RName <$> names) self [] None) as Hkeys.
  fold (ResourceWarden.acquire self (RName <$> names)) in Hkeys.
  destruct (acquire_names_all_or_nothing self names Hb Hin)
    as [Hfail|(self'' & Hok & Howes)].
  - rewrite Hfail in Hacq. injection Hacq as <- _. done.
  - rewrite Hok in Hacq. injection Hacq as ->. rewrite Hok in Hkeys. simpl in Hkeys.
    unfold ResourceWarden.release.
    rewrite release_loop_owes with (d0 := ResourceWarden.resource_dict self) by done.
    simpl. f_equal. by apply same_keys_set_back.
Qed.

Lemma X10_witness :
  let self := example_warden {[ "a" := free_unit; "b" := free_unit ]} in
  let self' := (ResourceWarden.acquire self [RName "a"; RName "b"]).2 in
  ResourceWarden.release self' ["a"; "b"] = (Ret ["a"; "b"], self).
Proof.
  intros self self'.
  exact (X10_release_undoes_acquire self self' ["a"; "b"]
           ltac:(apply within_bounds_checked; vm_compute; reflexivity)
           ltac:(repeat constructor; eexists; reflexivity)
           ltac:(discriminate)
           ltac:(vm_compute; reflexivity)).
Defined.

(** X11.  An exception inside [acquire] leaves the units taken so far
    with the caller.  When the names before it can be acquired, an
    argument that is neither a str nor a dict, or a name the warden does
    not know, makes [acquire] raise ([TypeError] or [KeyError]), and the
    warden is left as it is after the acquisition of those names: nothing
    is released. *)
Theorem X11_acquire_exception_keeps_units (self self' : ResourceWarden.t)
    (names : list string) (bad : resource_spec) (rest : list resource_spec) :
  ResourceWarden.acquire self (RName <$> names) = (Ret names, self') →
  names ≠ [] →
  bad = ROther
  ∨ (∃ missing, bad = RName missing
                ∧ ResourceWarden.resource_dict self !! missing = None) →
  ∃ e,
    ResourceWarden.acquire self ((RName <$> names) ++ bad :: rest) = (Raise e, self')
    ∧ exn_class e ∈ [TypeError; KeyError].
Proof.
  intros Hacq Hne Hbad. unfold ResourceWarden.acquire in *.
  pose proof (acquire_loop_same_keys (RName <$> names) self [] None) as Hkeys.
  rewrite Hacq in Hkeys. simpl in Hkeys.
  rewrite (acquire_loop_names_then names self [] None self' (bad :: rest)) by done.
  destruct Hbad as [->|(missing & -> & Hmissing)]; simpl.
  - eexists. split; [done|]. set_solver.
  - unfold ResourceWarden.acquire_one.
    rewrite (proj2 (proj2 (proj2 Hkeys) missing) Hmissing).
    eexists. split; [done|]. set_solver.
Qed.

Lemma X11_witness :
  let self := example_warden {[ "a" := free_unit; "b" := free_unit ]} in
  let self' := (ResourceWarden.acquire self [RName "a"]).2 in
  ∃ e,
    ResourceWarden.acquire self [RName "a"; RName "zz"; RName "b"] = (Raise e, self')
    ∧ exn_class e ∈ [TypeError; KeyError].
Proof.
  intros self self'.
  exact (X11_acquire_exception_keeps_units self self' ["a"] (RName "zz") [RName "b"]
           ltac:(vm_compute; reflexivity)
           ltac:(discriminate)
           (or_intror (ex_intro _ "zz" (conj eq_refl eq_refl)))).
Defined.


(** ** The container *)

(** X12.  [ResourceContainer.acquire] by names, for a warden as in X9:
    either nothing is acquired, and the container and the warden stay as
    they are; or the names are appended to the end of the ledger, the
    chunk marker stays, and the warden owes the units of the names. *)
Theorem X12_container_acquire_ledger (self : ResourceContainer.t)
    (warden : ResourceWarden.t) (names : list string) :
  gives_up warden →
  within_bounds (ResourceWarden.resource_dict warden) →
  Forall (λ r, is_Some (ResourceWarden.resource_dict warden !! r)) names →
  names ≠ [] →
  ResourceContainer.acquire self warden (RName <$> names)
  = (Ret (ResourceContainer.AcquiredList []), self, warden)
  ∨ ∃ warden',
      ResourceContainer.acquire self warden (RName <$> names)
      = (Ret (ResourceContainer.AcquiredList names),
         {| ResourceContainer.resources := ResourceContainer.resources self ++ names;
            ResourceContainer.chunk_marker := ResourceContainer.chunk_marker self |},
         warden')
      ∧ owes (ResourceWarden.resource_dict warden')
             (ResourceWarden.resource_dict warden) names.
Proof.
  intros _ Hb Hin Hne. unfold ResourceContainer.acquire.
  destruct names as [|r names]; [done|]. rewrite fmap_cons.
  rewrite <- (fmap_cons RName r names).
  destruct (acquire_names_all_or_nothing warden (r :: names) Hb Hin)
    as [->|(warden' & -> & Howes)].
  - left. rewrite app_nil_r. by destruct self.
  - right. eauto.
Qed.

Lemma X12_witness :
  let self := {| ResourceContainer.resources := ["x"];
                 ResourceContainer.chunk_marker := 0 |} in
  let warden := example_warden {[ "x" := taken_unit; "a" := free_unit ]} in
  ResourceContainer.acquire self warden [RName "a"]
  = (Ret (ResourceContainer.AcquiredList []), self, warden)
  ∨ ∃ warden',
      ResourceContainer.acquire self warden [RName "a"]
      = (Ret (ResourceContainer.AcquiredList ["a"]),
         {| ResourceContainer.resources := ["x"; "a"];
            ResourceContainer.chunk_marker := 0 |},
         warden')
      ∧ owes (ResourceWarden.resource_dict warden')
             (ResourceWarden.resource_dict warden) ["a"].
Proof.
  intros self warden.
  exact (X12_container_acquire_ledger self warden ["a"] (or_introl eq_refl)
           ltac:(apply within_bounds_checked; vm_compute; reflexivity)
           ltac:(repeat constructor; eexists; reflexivity)
           ltac:(discriminate)).
Defined.

(** X13.  The outcomes of [ResourceContainer.release(index)].  When
    it raises, the container is unchanged, and the exception is never the
    plain [Exception] of the guard [chunk_marker < 0], which cannot fire.
    When it returns, [index] names a position of the ledger (from the end
    when negative), the name there has been released through the warden
    and is returned as a one-element list, the ledger has lost that
    position, and the chunk marker is unchanged or one less, and then not
    negative. *)
Theorem X13_container_release_outcomes (self : ResourceContainer.t)
    (warden : ResourceWarden.t) (index : Z) :
  match ResourceContainer.release self warden index with
  | (Raise e, self', warden') =>
      self' = self ∧ exn_class e ≠ OtherException "Exception"
  | (Ret released, self', warden') =>
      ∃ pos name,
        py_index (ResourceContainer.resources self) index = Some pos
        ∧ ResourceContainer.resources self !! pos = Some name
        ∧ released = [name]
        ∧ ResourceWarden.release warden [name] = (Ret [name], warden')
        ∧ ResourceContainer.resources self'
          = delete pos (ResourceContainer.resources self)
        ∧ (ResourceContainer.chunk_marker self' = ResourceContainer.chunk_marker self
           ∨ (ResourceContainer.chunk_marker self'
              = ResourceContainer.chunk_marker self - 1
              ∧ 0 ≤ ResourceContainer.chunk_marker self'))%Z
  end.
Proof.
  unfold ResourceContainer.release.
  destruct (py_index _ index) as [pos|] eqn:Hpos; [|done].
  destruct (ResourceContainer.resources self !! pos) as [name|] eqn:Hname; [|done].
  destruct (ResourceWarden.release warden [name]) as [[released|e] warden'] eqn:Hrel.
  2:{ split; [done|]. unfold ResourceWarden.release in Hrel. simpl in Hrel.
      destruct (ResourceWarden.resource_dict warden !! name) as [s|];
        [|by injection Hrel as <- _].
      unfold sem_release in Hrel.
      destruct (sem_bound s) as [b|]; [|done]. case_bool_decide; [|done].
      by injection Hrel as <- _. }
  pose proof (warden_release_one _ _ _ _ Hrel) as ->.
  destruct (bool_decide (len (delete pos (ResourceContainer.resources self)) > 0)%Z)
    eqn:Hlen; simpl.
  2:{ exists pos, name. repeat split; try done. by left. }
  apply bool_decide_eq_true in Hlen.
  destruct (bool_decide (_ `mod` _ < _)%Z) eqn:Hmod.
  2:{ exists pos, name. repeat split; try done. by left. }
  apply bool_decide_eq_true in Hmod.
  assert (0 ≤ ResourceContainer.chunk_marker self - 1)%Z as Hpos'.
  { pose proof (Z.mod_pos_bound
                  (len (delete pos (ResourceContainer.resources self)) + index)
                  (len (delete pos (ResourceContainer.resources self)))) as Hbound.
    lia. }
  simpl. rewrite bool_decide_eq_false_2 by lia.
  exists pos, name. repeat split; try done. right. simpl. lia.
Qed.

Lemma release_loop_acc resources : ∀ self released,
  ResourceWarden.release_loop self released resources
  = match ResourceWarden.release_loop self [] resources with
    | (Ret l, self') => (Ret (released ++ l), self')
    | (Raise e, self') => (Raise e, self')
    end.
Proof.
  induction resources as [|r resources IH]; intros self released; simpl.
  - by rewrite app_nil_r.
  - destruct (ResourceWarden.resource_dict self !! r) as [s|]; [|done].
    destruct (sem_release s) as [[u|e] s']; [|done].
    rewrite IH. rewrite (IH _ [r]).
    destruct (ResourceWarden.release_loop _ [] resources) as [[l|e] self']; [|done].
    by rewrite <- app_assoc.
Qed.

Lemma warden_release_cons warden warden2 r l :
  ResourceWarden.release warden (r :: l) = (Ret (r :: l), warden2) →
  ∃ warden1,
    ResourceWarden.release warden [r] = (Ret [r], warden1)
    ∧ ResourceWarden.release warden1 l = (Ret l, warden2).
Proof.
  unfold ResourceWarden.release. simpl.
  destruct (ResourceWarden.resource_dict warden !! r) as [s|]; [|done].
  destruct (sem_release s) as [[u|e] s']; [|done].
  rewrite release_loop_acc.
  destruct (ResourceWarden.release_loop _ [] l) as [[l'|e] self'] eqn:Hl; [|done].
  intros [= -> ->]. eauto.
Qed.

Lemma container_release_last (self : ResourceContainer.t)
    (warden warden' : ResourceWarden.t) prefix name :
  ResourceContainer.resources self = prefix ++ [name] →
  ResourceWarden.release warden [name] = (Ret [name], warden') →
  ∃ marker,
    ResourceContainer.release self warden (-1)
    = (Ret [name],
       {| ResourceContainer.resources := prefix;
          ResourceContainer.chunk_marker := marker |},
       warden')
    ∧ (marker ≤ ResourceContainer.chunk_marker self)%Z.
Proof.
  intros Hres Hrel. unfold ResourceContainer.release.
  assert (py_index (ResourceContainer.resources self) (-1) = Some (length prefix))
    as ->.
  { unfold py_index, len. rewrite Hres, length_app. simpl.
    repeat case_bool_decide; try lia. f_equal. lia. }
  rewrite Hres, list_lookup_middle by done. rewrite Hrel.
  replace (delete (length prefix) (prefix ++ [name])) with prefix.
  2:{ rewrite delete_middle. by rewrite app_nil_r. }
  destruct (bool_decide (len prefix > 0)%Z) eqn:Hlen; simpl;
    [|eexists; split; [done|lia]].
  apply bool_decide_eq_true in Hlen.
  destruct (bool_decide (_ `mod` _ < _)%Z) eqn:Hmod;
    [|eexists; split; [done|lia]].
  apply bool_decide_eq_true in Hmod.
  assert (0 ≤ ResourceContainer.chunk_marker self - 1)%Z as Hpos'.
  { pose proof (Z.mod_pos_bound (len prefix + -1) (len prefix)) as Hbound. lia. }
  simpl. rewrite bool_decide_eq_false_2 by lia.
  eexists; split; [done|lia].
Qed.

Lemma release_chunk_loop_chunk chunk : ∀ keep self warden warden' released k,
  ResourceContainer.resources self = keep ++ chunk →
  ResourceWarden.release warden (reverse chunk) = (Ret (reverse chunk), warden') →
  ∃ marker,
    ResourceContainer.release_chunk_loop (length chunk + k) self warden released
    = ResourceContainer.release_chunk_loop k
        {| ResourceContainer.resources := keep;
           ResourceContainer.chunk_marker := marker |}
        warden' (released ++ ((λ r, [r]) <$> reverse chunk))
    ∧ (marker ≤ ResourceContainer.chunk_marker self)%Z.
Proof.
  induction chunk as [|name chunk IH] using rev_ind;
    intros keep self warden warden' released k Hres Hrel.
  - simpl in *. unfold ResourceWarden.release in Hrel. simpl in Hrel.
    injection Hrel as <-. rewrite !app_nil_r in *.
    exists (ResourceContainer.chunk_marker self). split; [|lia].
    destruct self. simpl in *. by subst.
  - rewrite reverse_snoc in *.
    apply warden_release_cons in Hrel as (warden1 & Hrel1 & Hrel2).
    rewrite app_assoc in Hres.
    destruct (container_release_last self warden warden1 _ name Hres Hrel1)
      as (marker1 & Hlast & Hle1).
    rewrite length_app. simpl. replace (length chunk + 1 + k) with (S (length chunk + k))
      by lia.
    cbn [ResourceContainer.release_chunk_loop]. rewrite Hlast.
    destruct (IH keep {| ResourceContainer.resources := keep ++ chunk;
                         ResourceContainer.chunk_marker := marker1 |}
                 warden1 warden' (released ++ [[name]]) k eq_refl Hrel2)
      as (marker & Hloop & Hle).
    exists marker. split; [|simpl in *; lia].
    rewrite Hloop, <- app_assoc. done.
Qed.

Lemma container_release_chunk (self : ResourceContainer.t)
    (warden warden' : ResourceWarden.t) keep chunk (num : option Z) :
  ResourceContainer.resources self = keep ++ chunk →
  ResourceWarden.release warden (reverse chunk) = (Ret (reverse chunk), warden') →
  num = Some (len chunk)
  ∨ (num = None ∧ ResourceContainer.chunk_marker self = len keep) →
  ∃ marker,
    ResourceContainer.release_chunk self warden num
    = (Ret ((λ r, [r]) <$> reverse chunk),
       {| ResourceContainer.resources := keep;
          ResourceContainer.chunk_marker := marker |},
       warden')
    ∧ (marker ≤ ResourceContainer.chunk_marker self)%Z.
Proof.
  intros Hres Hrel Hnum. unfold ResourceContainer.release_chunk.
  assert (Z.to_nat match num with
                   | Some num => num
                   | None => (len (ResourceContainer.resources self)
                              - ResourceContainer.chunk_marker self)%Z
                   end = length chunk + 0) as ->.
  { destruct Hnum as [->|[-> Hm]]; unfold len in *.
    - lia.
    - rewrite Hm, Hres, length_app. lia. }
  destruct (release_chunk_loop_chunk chunk keep self warden warden' [] 0 Hres Hrel)
    as (marker & -> & Hle).
  exists marker. by split.
Qed.

(** X14.  [release_chunk] releases the end of the ledger, from the
    last entry backwards.  When the ledger is [keep ++ chunk], the warden
    can release the entries of [chunk] in reverse order, and the call is
    made with [num = len(chunk)], or without [num] while the marker is at
    [len(keep)]: the call returns one one-element list per entry of
    [chunk] in reverse order, the ledger is [keep], and the marker has
    not grown. *)
Theorem X14_release_chunk_releases_tail (self : ResourceContainer.t)
    (warden warden' : ResourceWarden.t) (keep chunk : list string) (num : option Z) :
  ResourceContainer.resources self = keep ++ chunk →
  ResourceWarden.release warden (reverse chunk) = (Ret (reverse chunk), warden') →
  num = Some (len chunk)
  ∨ (num = None ∧ ResourceContainer.chunk_marker self = len keep) →
  ∃ marker,
    ResourceContainer.release_chunk self warden num
    = (Ret ((λ r, [r]) <$> reverse chunk),
       {| ResourceContainer.resources := keep;
          ResourceContainer.chunk_marker := marker |},
       warden')
    ∧ (marker ≤ ResourceContainer.chunk_marker self)%Z.
Proof. apply container_release_chunk. Qed.

Lemma occurrences_reverse k l : occurrences k (reverse l) = occurrences k l.
Proof.
  unfold occurrences. induction l as [|x l IH]; [done|].
  rewrite reverse_cons, filter_app, length_app, IH.
  destruct (decide (x = k)) as [->|Hne].
  - rewrite !filter_cons_True by done. simpl. lia.
  - rewrite !filter_cons_False by done. simpl. lia.
Qed.

Lemma X14_witness :
  let self := {| ResourceContainer.resources := ["x"; "y"; "z"];
                 ResourceContainer.chunk_marker := 1 |} in
  let warden := example_warden {[ "x" := taken_unit; "y" := taken_unit;
                                  "z" := taken_unit ]} in
  let warden' := (ResourceWarden.release warden ["z"; "y"]).2 in
  ∃ marker,
    ResourceContainer.release_chunk self warden None
    = (Ret [["z"]; ["y"]],
       {| ResourceContainer.resources := ["x"];
          ResourceContainer.chunk_marker := marker |},
       warden')
    ∧ (marker ≤ 1)%Z.
Proof.
  intros self warden warden'.
  exact (X14_release_chunk_releases_tail self warden warden' ["x"] ["y"; "z"] None
           eq_refl ltac:(vm_compute; reflexivity) (or_intror (conj eq_refl eq_refl))).
Defined.

Lemma owes_reverse d d0 held : owes d d0 held → owes d d0 (reverse held).
Proof. intros H k. specialize (H k). by rewrite occurrences_reverse. Qed.

(** X15.  A chunk round trip: [reset_chunk_marker()], then an
    acquisition by names that succeeds, then [release_chunk()] without
    argument.  The ledger holds the names after the former entries in
    between; at the end the release has returned the names in reverse
    order, and the ledger and the warden are what they were at the
    start. *)
Theorem X15_chunk_round_trip (self self2 : ResourceContainer.t)
    (warden warden2 : ResourceWarden.t) (names : list string) :
  within_bounds (ResourceWarden.resource_dict warden) →
  Forall (λ r, is_Some (ResourceWarden.resource_dict warden !! r)) names →
  names ≠ [] →
  ResourceContainer.acquire (ResourceContainer.reset_chunk_marker self) warden
    (RName <$> names)
  = (Ret (ResourceContainer.AcquiredList names), self2, warden2) →
  ResourceContainer.resources self2 = ResourceContainer.resources self ++ names
  ∧ ∃ marker,
      ResourceContainer.release_chunk self2 warden2 None
      = (Ret ((λ r, [r]) <$> reverse names),
         {| ResourceContainer.resources := ResourceContainer.resources self;
            ResourceContainer.chunk_marker := marker |},
         warden).
Proof.
  intros Hb Hin Hne Hacq. unfold ResourceContainer.acquire in Hacq.
  destruct names as [|r names]; [done|]. rewrite fmap_cons in Hacq.
  rewrite <- (fmap_cons RName r names) in Hacq.
  pose proof (acquire_loop_same_keys (RName <$> r :: names) warden [] None) as Hkeys.
  fold (ResourceWarden.acquire warden (RName <$> r :: names)) in Hkeys.
  destruct (acquire_names_all_or_nothing warden (r :: names) Hb Hin)
    as [Hfail|(warden' & Hok & Howes)].
  { rewrite Hfail in Hacq. by injection Hacq. }
  rewrite Hok in Hacq, Hkeys. injection Hacq as <- <-. simpl in Hkeys.
  split; [done|].
  assert (ResourceWarden.release warden' (reverse (r :: names))
          = (Ret (reverse (r :: names)), warden)) as Hrel.
  { unfold ResourceWarden.release.
    rewrite release_loop_owes with (d0 := ResourceWarden.resource_dict warden);
      [|done|by apply owes_reverse].
    simpl. f_equal. by apply same_keys_set_back. }
  destruct (container_release_chunk
              {| ResourceContainer.resources :=
                   ResourceContainer.resources self ++ r :: names;
                 ResourceContainer.chunk_marker :=
                   len (ResourceContainer.resources self) |}
              warden' warden (ResourceContainer.resources self) (r :: names) None
              eq_refl Hrel ltac:(by right))
    as (marker & Hchunk & _).
  by exists marker.
Qed.

Lemma X15_witness :
  let self := {| ResourceContainer.resources := ["x"];
                 ResourceContainer.chunk_marker := 0 |} in
  let warden := example_warden {[ "x" := taken_unit; "y" := free_unit;
                                  "z" := free_unit ]} in
  let acquired :=
    ResourceContainer.acquire (ResourceContainer.reset_chunk_marker self) warden
      [RName "y"; RName "z"] in
  ResourceContainer.resources acquired.1.2 = ["x"; "y"; "z"]
  ∧ ∃ marker,
      ResourceContainer.release_chunk acquired.1.2 acquired.2 None
      = (Ret [["z"]; ["y"]],
         {| ResourceContainer.resources := ["x"];
            ResourceContainer.chunk_marker := marker |},
         warden).
Proof.
  intros self warden acquired.
  exact (X15_chunk_round_trip self acquired.1.2 warden acquired.2 ["y"; "z"]
           ltac:(apply within_bounds_checked; vm_compute; reflexivity)
           ltac:(repeat constructor; eexists; reflexivity)
           ltac:(discriminate)
           ltac:(vm_compute; reflexivity)).
Defined.

(** X16.  [release_chunk(n)] with [n] greater than the length of the
    ledger: when the warden can release every entry, the call releases
    the whole ledger and then raises [IndexError] on the empty list. *)
Theorem X16_release_chunk_overshoot (self : ResourceContainer.t)
    (warden warden' : ResourceWarden.t) (n : Z) :
  ResourceWarden.release warden (reverse (ResourceContainer.resources self))
  = (Ret (reverse (ResourceContainer.resources self)), warden') →
  (len (ResourceContainer.resources self) < n)%Z →
  ∃ e marker,
    ResourceContainer.release_chunk self warden (Some n)
    = (Raise e,
       {| ResourceContainer.resources := [];
          ResourceContainer.chunk_marker := marker |},
       warden')
    ∧ exn_class e = IndexError.
Proof.
  intros Hrel Hn. unfold ResourceContainer.release_chunk.
  assert (∃ k, Z.to_nat n = length (ResourceContainer.resources self) + S k)
    as [k ->].
  { exists (Z.to_nat n - length (ResourceContainer.resources self) - 1).
    unfold len in Hn. lia. }
  destruct (release_chunk_loop_chunk (ResourceContainer.resources self) [] self
              warden warden' [] (S k) eq_refl Hrel) as (marker & -> & _).
  eexists _, marker. simpl. done.
Qed.

Lemma X16_witness :
  let self := {| ResourceContainer.resources := ["x"];
                 ResourceContainer.chunk_marker := 0 |} in
  let warden := example_warden {[ "x" := taken_unit ]} in
  let warden' := (ResourceWarden.release warden ["x"]).2 in
  ∃ e marker,
    ResourceContainer.release_chunk self warden (Some 3%Z)
    = (Raise e,
       {| ResourceContainer.resources := [];
          ResourceContainer.chunk_marker := marker |},
       warden')
    ∧ exn_class e = IndexError.
Proof.
  intros self warden warden'.
  exact (X16_release_chunk_overshoot self warden warden' 3
           ltac:(vm_compute; reflexivity) ltac:(vm_compute; reflexivity)).
Defined.

(* ===================================================================== *)
(** * Further facts: the experiment loop *)
(* ===================================================================== *)


Section exp_extra.
Context {Val W : Type}.
Implicit Types (self : Experiment.t Val W) (j : Experiment.journal Val).

Lemma fill_Returned_empty fuel : ∀ idx self (w : Experiment.world Val W) self' w',
  Experiment.fill fuel idx self w = (Ret Experiment.Returned, self', w') →
  Experiment.trial_arg_configs self' = [].
Proof.
  induction fuel as [|fuel IH]; intros idx self w self' w' Hfill;
    cbn [Experiment.fill] in Hfill.
  - case_bool_decide as Hq; [done|]. injection Hfill as <- _.
    unfold len in Hq. destruct (Experiment.trial_arg_configs self); [done|].
    simpl in Hq. lia.
  - case_bool_decide as Hq.
    + destruct (Experiment.fill_pass idx self w) as [[[idx'|e] self1] w1]; [|done].
      by eapply IH.
    + injection Hfill as <- _.
      unfold len in Hq. destruct (Experiment.trial_arg_configs self); [done|].
      simpl in Hq. lia.
Qed.

(** X17.  A fill phase that comes to its end has used the whole
    queue: the queue is empty, and the entries passed to [new_trial]
    during the phase, in call order, are the entries of the initial queue
    in reverse order, each one once. *)
Theorem X17_fill_assigns_every_entry_once (fuel idx : nat) self (w w' : W) j j' self' :
  Experiment.fill fuel idx self (w, j) = (Ret Experiment.Returned, self', (w', j')) →
  Experiment.trial_arg_configs self' = []
  ∧ ∃ new,
      Experiment.assigned j' = Experiment.assigned j ++ new
      ∧ snd <$> new = reverse (Experiment.trial_arg_configs self)
      ∧ length new = length (Experiment.trial_arg_configs self).
Proof.
  intros Hfill. pose proof (fill_Returned_empty _ _ _ _ _ _ Hfill) as Hempty.
  split; [done|].
  pose proof (fill_queue fuel idx self w j) as Hq. rewrite Hfill in Hq.
  destruct Hq as (lost & new & Hqueue & Hnew & [->|(a & e & _ & [=])]).
  exists new. rewrite Hempty in Hqueue. simpl in Hqueue.
  split; [done|].
  assert (snd <$> new = reverse (Experiment.trial_arg_configs self)) as Hrev.
  { by rewrite Hqueue, reverse_involutive. }
  split; [done|].
  by rewrite <- (length_reverse (Experiment.trial_arg_configs self)), <- Hrev,
    length_fmap.
Qed.

(** X18.  A [TrialReset] in the fill phase restarts the slot on the
    same arguments.  When the run of the slot's trial raises [TrialReset]
    (and the trial has its stage arguments from an earlier [new_trial]),
    the pass resets the trial, ships the results it had, takes no entry
    from the queue, and goes on to the next slot.  The reset trial is not
    done, at stage 0, with the first overlay over its initial state and
    with its initial results; its stages and its error sequence, spent
    entries included, stay as they were. *)
Theorem X18_fill_trial_reset_restarts_slot self (idx : nat)
    (trial trial' : Trial.t Val W) (w w' : W) j (e : exn)
    (overlay : dict Val) (rest : list (dict Val)) :
  Experiment.trial_instances self !! idx = Some trial →
  Trial.run trial w = (Raise e, trial', w') →
  exn_class e = TrialReset →
  Trial.stage_args trial' = Some (overlay :: rest) →
  ∃ trial'',
    Trial.reset trial' = (Ret (), trial'')
    ∧ Experiment.fill_pass idx self (w, j)
      = (Ret (Datatypes.S idx `mod` length (Experiment.trial_instances self)),
         Experiment.store_trial idx trial'' self,
         (w', Experiment.ship_results (Trial.results trial') j))
    ∧ Trial.is_done trial'' = false
    ∧ Trial.stage_index trial'' = 0
    ∧ Trial.state trial'' = overlay ∪ Trial.initial_state trial'
    ∧ Trial.results trial'' = Trial.initial_results trial'
    ∧ Trial.stages trial'' = Trial.stages trial'
    ∧ Trial.error_sequence trial'' = Trial.error_sequence trial'.
Proof.
  intros Hslot Hrun Hcls Hsa.
  assert (∃ trial'', Trial.reset trial' = (Ret (), trial'')
            ∧ Trial.is_done trial'' = false
            ∧ Trial.stage_index trial'' = 0
            ∧ Trial.state trial'' = overlay ∪ Trial.initial_state trial'
            ∧ Trial.results trial'' = Trial.initial_results trial'
            ∧ Trial.stages trial'' = Trial.stages trial'
            ∧ Trial.error_sequence trial'' = Trial.error_sequence trial')
    as (trial'' & Hreset & Hrest).
  { unfold Trial.reset, Trial.update_from_stage_args. simpl. rewrite Hsa. simpl.
    eexists. split; [done|]. repeat split; try done.
    by destruct (Trial.initial_results trial'). }
  exists trial''. split; [done|]. split; [|done].
  unfold Experiment.fill_pass, Experiment.fill_run_trial.
  rewrite Hslot, Hrun, Hcls. simpl. rewrite Hreset. simpl.
  by rewrite length_insert.
Qed.

(** X19.  A failure of a trial that is not [TrialReset], [TrialAbort]
    or [Ignore] ends [Experiment.run].  With a nonempty queue, when the
    run of the first slot's trial raises such an exception, the body of
    [run] raises it at the first pass; [run] then raises it, or the front
    of the experiment's error sequence in its place; nothing is shipped,
    the queue is untouched, and the slot holds the trial as the failed
    run left it. *)
Theorem X19_trial_failure_leaves_run self (trial trial' : Trial.t Val W)
    (w w' : W) j (e : exn) (fuel : nat) :
  Experiment.trial_arg_configs self ≠ [] →
  Experiment.trial_instances self !! 0 = Some trial →
  Trial.run trial w = (Raise e, trial', w') →
  exn_class e ∉ [TrialReset; TrialAbort; Ignore] →
  Experiment.run_body (Datatypes.S fuel) self (w, j)
  = (Raise e, Experiment.store_trial 0 trial' self, (w', j))
  ∧ ∃ e' self',
      Experiment.run (Datatypes.S fuel) self (w, j) = (Raise e', self', (w', j))
      ∧ (e' = e ∨ ∃ front, head (Experiment.error_sequence self) = Some front
                           ∧ e' = raise_elem front)
      ∧ Experiment.trial_arg_configs self' = Experiment.trial_arg_configs self
      ∧ Experiment.trial_instances self'
        = <[0 := trial']> (Experiment.trial_instances self).
Proof.
  intros Hq Hslot Hrun Hcls.
  assert (exn_class e ≠ TrialReset ∧ exn_class e ≠ TrialAbort
          ∧ exn_class e ≠ Ignore) as (HR & HA & HI) by set_solver.
  assert (Experiment.run_body (Datatypes.S fuel) self (w, j)
          = (Raise e, Experiment.store_trial 0 trial' self, (w', j))) as Hbody.
  { unfold Experiment.run_body. cbn [Experiment.fill].
    rewrite bool_decide_eq_true_2.
    2:{ unfold len. destruct (Experiment.trial_arg_configs self); [done|simpl; lia]. }
    unfold Experiment.fill_pass, Experiment.fill_run_trial.
    rewrite Hslot, Hrun.
    repeat (case_decide; [done|]). done. }
  split; [done|].
  unfold Experiment.run, handle_exceptions. rewrite Hbody.
  change (self_error_sequence (Experiment.store_trial 0 trial' self))
    with (Experiment.error_sequence self).
  repeat case_match; eexists _, _; (split; [reflexivity|]); simpl;
    (split; [eauto|done]).
Qed.

Lemma drain_sweep_all_done slots : ∀ idx self (w : Experiment.world Val W),
  Forall (λ trial, Trial.done trial = true) (Experiment.trial_instances self) →
  Experiment.drain_sweep slots idx true self w = (Ret true, self, w).
Proof.
  induction slots as [|slots IH]; intros idx self [w j] Hdone; [done|].
  cbn [Experiment.drain_sweep].
  destruct (Experiment.trial_instances self !! idx) as [trial|] eqn:Hslot; [|done].
  assert (Trial.done trial = true) as Hd.
  { eapply Forall_lookup_1 in Hdone; [|done]. done. }
  unfold Experiment.drain_run_trial.
  assert (Trial.run trial w = (Ret (1%Z, None), trial, w)) as ->.
  { apply handle_exceptions_Ret. unfold Trial.run_body, Trial.is_done.
    by rewrite Hd. }
  simpl.
  assert (Experiment.store_trial idx trial self = self) as ->.
  { unfold Experiment.store_trial, Experiment.with_trial_instances.
    rewrite list_insert_id by done. by destruct self. }
  by apply IH.
Qed.

(** X20.  An experiment with an empty queue whose trials are all done
    returns from [run] at the first sweep of the drain phase, and changes
    nothing: no stage is called and nothing is shipped.  This is the case
    of a fresh experiment without arguments, since [Trial.__init__] marks
    every trial done. *)
Theorem X20_idle_experiment_returns self (w : Experiment.world Val W) (fuel : nat) :
  Forall (λ trial, Trial.is_done trial = true) (Experiment.trial_instances self) →
  Experiment.trial_arg_configs self = [] →
  Experiment.run (Datatypes.S fuel) self w = (Ret Experiment.Returned, self, w).
Proof.
  intros Hdone Hq. apply handle_exceptions_Ret.
  unfold Experiment.run_body. cbn [Experiment.fill Experiment.drain].
  rewrite Hq. simpl. by rewrite drain_sweep_all_done.
Qed.
End exp_extra.

Lemma X17_witness :
  let self := example_experiment [built_trial [polled_stage 7] ∅ []]
                                 [entry 1; entry 2] in
  let j' := (Experiment.fill 10 0 self (tt, empty_journal)).2.2 in
  Experiment.trial_arg_configs (Experiment.fill 10 0 self (tt, empty_journal)).1.2 = []
  ∧ ∃ new,
      Experiment.assigned j' = Experiment.assigned empty_journal ++ new
      ∧ snd <$> new = [entry 2; entry 1]
      ∧ length new = 2.
Proof.
  intros self j'.
  exact (X17_fill_assigns_every_entry_once 10 0 self tt tt empty_journal j'
           (Experiment.fill 10 0 self (tt, empty_journal)).1.2
           ltac:(vm_compute; reflexivity)).
Defined.

Lemma X18_witness :
  let trial := started_trial [raising_stage false TrialReset] in
  let trial' := (Trial.run trial tt).1.2 in
  let self := example_experiment [trial] [entry 1] in
  ∃ trial'',
    Trial.reset trial' = (Ret (), trial'')
    ∧ Experiment.fill_pass 0 self (tt, empty_journal)
      = (Ret 0,
         Experiment.store_trial 0 trial'' self,
         (tt, Experiment.ship_results (Trial.results trial') empty_journal))
    ∧ Trial.is_done trial'' = false
    ∧ Trial.stage_index trial'' = 0
    ∧ Trial.state trial'' = ∅ ∪ Trial.initial_state trial'
    ∧ Trial.results trial'' = Trial.initial_results trial'
    ∧ Trial.stages trial'' = Trial.stages trial'
    ∧ Trial.error_sequence trial'' = Trial.error_sequence trial'.
Proof.
  intros trial trial' self.
  exact (X18_fill_trial_reset_restarts_slot self 0 trial trial' tt tt empty_journal
           (instance TrialReset) ∅ []
           eq_refl ltac:(vm_compute; reflexivity) eq_refl
           ltac:(vm_compute; reflexivity)).
Defined.

Lemma X19_witness :
  let trial := started_trial [raising_stage false (OtherException "ValueError")] in
  let trial' := (Trial.run trial tt).1.2 in
  let self := example_experiment [trial] [entry 1] in
  let e := instance (OtherException "ValueError") in
  Experiment.run_body 1 self (tt, empty_journal)
  = (Raise e, Experiment.store_trial 0 trial' self, (tt, empty_journal))
  ∧ ∃ e' self',
      Experiment.run 1 self (tt, empty_journal) = (Raise e', self', (tt, empty_journal))
      ∧ (e' = e ∨ ∃ front, head (Experiment.error_sequence self) = Some front
                           ∧ e' = raise_elem front)
      ∧ Experiment.trial_arg_configs self' = Experiment.trial_arg_configs self
      ∧ Experiment.trial_instances self'
        = <[0 := trial']> (Experiment.trial_instances self).
Proof.
  intros trial trial' self e.
  exact (X19_trial_failure_leaves_run self trial trial' tt tt empty_journal e 0
           ltac:(discriminate) eq_refl ltac:(vm_compute; reflexivity)
           ltac:(apply (bool_decide_unpack _); vm_compute; exact I)).
Defined.

Lemma X20_witness :
  let self := example_experiment [built_trial [polled_stage 7] ∅ []] [] in
  Experiment.run 1 self (tt, empty_journal)
  = (Ret Experiment.Returned, self, (tt, empty_journal)).
Proof.
  intros self.
  exact (X20_idle_experiment_returns self (tt, empty_journal) 0
           ltac:(repeat constructor) eq_refl).
Defined.

(* ===================================================================== *)
(** * Further facts: building an experiment *)
(* ===================================================================== *)


Lemma create_error_sequence_loop_raises flat compact e :
  create_error_sequence_loop flat compact = Raise e → exn_class e = TypeError.
Proof.
  revert flat. induction compact as [|x compact IH]; intros flat; simpl; [done|].
  destruct x as [c|c n|n]; [apply IH| |by intros [= <-]].
  destruct (n =? 0)%Z; apply IH.
Qed.

Lemma for_each_raises {A B} (f : A → result B) (l : list A) (P : exn → Prop) e :
  (∀ x e, f x = Raise e → P e) → for_each f l = Raise e → P e.
Proof.
  intros Hf. induction l as [|x l IH]; simpl; [done|].
  destruct (f x) as [y|e'] eqn:Hx; [|intros [= <-]; by eapply Hf].
  destruct (for_each f l) as [ys|e']; [done|]. intros [= <-]. by apply IH.
Qed.

Lemma for_each_cons_raises {A B} (f : A → result B) (x : A) (l : list A) e :
  f x = Raise e → for_each f (x :: l) = Raise e.
Proof. intros H. simpl. by rewrite H. Qed.

Lemma for_each_Ret {A B} (f : A → result B) (g : A → B) (l : list A) :
  (∀ x, x ∈ l → f x = Ret (g x)) → for_each f l = Ret (g <$> l).
Proof.
  induction l as [|x l IH]; intros Hf; simpl; [done|].
  rewrite Hf by set_solver. rewrite IH; [done|]. intros y Hy. apply Hf. set_solver.
Qed.

Section init_facts.
Context {Val W : Type}.
Implicit Types (stages : list (ExperimentInit.stage_class Val W)).

Lemma create_error_sequence_entries_Elem ses : ∀ flat,
  ExperimentInit.create_error_sequence_entries flat (ExperimentInit.Elem <$> ses)
  = create_error_sequence_loop flat ses.
Proof.
  induction ses as [|e ses IH]; intros flat; [done|].
  rewrite fmap_cons. cbn [ExperimentInit.create_error_sequence_entries].
  change (e :: ses) with ([e] ++ ses). rewrite create_error_sequence_loop_app.
  destruct (create_error_sequence_loop flat [e]); [apply IH|done].
Qed.

Lemma check_class_raises e err :
  ExperimentInit.check_class e = Raise err → exn_class err = TypeError.
Proof.
  unfold ExperimentInit.check_class. destruct e as [c|c n|n]; [|by intros [= <-]..].
  destruct (is_Exception c); [done|]. by intros [= <-].
Qed.

Lemma check_entry_raises x err :
  ExperimentInit.check_entry x = Raise err → exn_class err = TypeError.
Proof.
  unfold ExperimentInit.check_entry.
  repeat case_match; try (by intros [= <-]); apply check_class_raises.
Qed.

Lemma check_error_sequence_raises l err :
  ExperimentInit.check_error_sequence l = Raise err → exn_class err = TypeError.
Proof.
  unfold ExperimentInit.check_error_sequence.
  destruct (for_each _ l) as [u|e] eqn:Hl; [done|]. intros [= <-].
  eapply (for_each_raises _ l (λ e, exn_class e = TypeError)); [|done].
  apply check_entry_raises.
Qed.

Lemma check_list_of_error_sequence_raises l err :
  ExperimentInit.check_list_of_error_sequence l = Raise err →
  exn_class err = TypeError.
Proof.
  unfold ExperimentInit.check_list_of_error_sequence.
  destruct (for_each _ l) as [u|e] eqn:Hl; [done|]. intros [= <-].
  eapply (for_each_raises _ l (λ e, exn_class e = TypeError)); [|done].
  intros x e'. simpl. destruct (ExperimentInit.is_list_or_tuple x).
  - apply check_error_sequence_raises.
  - by intros [= <-].
Qed.

Lemma instantiate_raises (cls : ExperimentInit.stage_class Val W) es err :
  ExperimentInit.instantiate cls es = Raise err → exn_class err = TypeError.
Proof.
  unfold ExperimentInit.instantiate, Stage.init_attrs, _create_error_sequence.
  destruct (create_error_sequence_loop [] es) as [flat|e] eqn:Hes; [done|].
  intros [= <-]. by eapply create_error_sequence_loop_raises.
Qed.

Lemma for_each_Ret_inv {A B} (f : A → result B) (x : A) (l : list A) ys :
  for_each f (x :: l) = Ret ys →
  ∃ y ys', f x = Ret y ∧ for_each f l = Ret ys' ∧ ys = y :: ys'.
Proof.
  simpl. destruct (f x) as [y|]; [|done]. destruct (for_each f l) as [ys'|]; [|done].
  intros [= <-]. eauto.
Qed.

(** A checked sequence can be flattened. *)
Lemma checked_entries_flatten ses : ∀ flat u,
  ExperimentInit.check_error_sequence ses = Ret u →
  ∃ flat', ExperimentInit.create_error_sequence_entries flat ses = Ret flat'.
Proof.
  unfold ExperimentInit.check_error_sequence.
  induction ses as [|x ses IH]; intros flat u Hc; [simpl; eauto|].
  destruct (for_each ExperimentInit.check_entry (x :: ses)) as [us|] eqn:Hf; [|done].
  apply for_each_Ret_inv in Hf as (y & ys & Hx & Hrest & _).
  assert (∀ flat, ∃ flat',
            ExperimentInit.create_error_sequence_entries flat ses = Ret flat')
    as Hses.
  { intros flat0. apply (IH flat0 ()). by rewrite Hrest. }
  cbn [ExperimentInit.create_error_sequence_entries].
  destruct x as [[c|c n|n]|l]; simpl in *.
  - apply Hses.
  - destruct (n =? 0)%Z; apply Hses.
  - done.
  - destruct l as [|e0 [|[c|c n|n] [|? ?]]]; try done. simpl.
    destruct (n =? 0)%Z; apply Hses.
Qed.

(** Whatever [build_stage_objects] raises is a [TypeError]. *)
Lemma build_stage_objects_raises stages ses err :
  ExperimentInit.build_stage_objects stages ses = Raise err →
  exn_class err = TypeError.
Proof.
  unfold ExperimentInit.build_stage_objects.
  destruct (_ && _ && _).
  - destruct (ExperimentInit.check_list_of_error_sequence ses) as [u|e] eqn:Hc.
    + apply (for_each_raises _ _ (λ e, exn_class e = TypeError)).
      intros [cls x] e. unfold _create_error_sequence.
      destruct (create_error_sequence_loop [] _) as [flat|e'] eqn:Hflat.
      * apply instantiate_raises.
      * intros [= <-]. by eapply create_error_sequence_loop_raises.
    + intros [= <-]. by eapply check_list_of_error_sequence_raises.
  - destruct (negb _).
    + destruct (ExperimentInit.check_error_sequence ses) as [u|e] eqn:Hc.
      * destruct (checked_entries_flatten ses [] u Hc) as [flat ->].
        apply (for_each_raises _ _ (λ e, exn_class e = TypeError)).
        intros cls e. apply instantiate_raises.
      * intros [= <-]. by eapply check_error_sequence_raises.
    + apply (for_each_raises _ _ (λ e, exn_class e = TypeError)).
      intros cls e. apply instantiate_raises.
Qed.

(** Flattening a sequence that holds a repeat-forever tuple gives a list
    that cannot be flattened again. *)
Lemma flatten_twice_marker (compact es : list seq_elem) c :
  SPair c 0 ∈ compact →
  create_error_sequence_loop [] compact = Ret es →
  ∃ e, create_error_sequence_loop [] es = Raise e.
Proof.
  intros Hin Hes.
  destruct (create_error_sequence_loop_marker es []) as (e & He & _); [| |eauto].
  - by eapply create_error_sequence_loop_is_flat.
  - apply list_elem_of_split in Hin as (pre & post & ->).
    rewrite create_error_sequence_loop_app in Hes.
    destruct (create_error_sequence_loop [] pre) as [flat|]; [|done].
    simpl in Hes. apply create_error_sequence_loop_extends in Hes as [suffix ->].
    set_solver.
Qed.

Lemma build_misread_raises stages c n rest :
  length (SPair c n :: rest) = length stages →
  ∃ e, ExperimentInit.build_stage_objects stages
         (ExperimentInit.Elem <$> SPair c n :: rest) = Raise e.
Proof.
  intros Hlen. unfold ExperimentInit.build_stage_objects.
  rewrite fmap_cons. simpl.
  rewrite length_fmap. simpl in Hlen. rewrite bool_decide_eq_true_2 by done.
  simpl. unfold ExperimentInit.check_list_of_error_sequence. simpl.
  unfold ExperimentInit.check_error_sequence. simpl.
  destruct (is_Exception c); simpl; eauto.
Qed.

Lemma build_forever_raises stages (ses : list seq_elem) c :
  stages ≠ [] →
  SPair c 0 ∈ ses →
  ∃ e, ExperimentInit.build_stage_objects stages (ExperimentInit.Elem <$> ses)
       = Raise e.
Proof.
  intros Hstages Hin.
  destruct ses as [|h ses]; [by apply elem_of_nil in Hin|].
  destruct (decide (ExperimentInit.is_list_or_tuple (ExperimentInit.Elem h) = true
                    ∧ length (h :: ses) = length stages)) as [[Hh Hlen]|Hshared].
  { destruct h as [| c' n' |]; try done. by apply build_misread_raises. }
  unfold ExperimentInit.build_stage_objects.
  assert (negb (bool_decide (ExperimentInit.Elem <$> h :: ses = [])) = true) as ->
    by (by rewrite bool_decide_eq_false_2).
  assert (from_option ExperimentInit.is_list_or_tuple false
            ((ExperimentInit.Elem <$> h :: ses) !! 0)
          && bool_decide (length (ExperimentInit.Elem <$> h :: ses) = length stages)
          = false) as Hcond.
  { rewrite length_fmap. destruct h as [c'|c' n'|n']; [done| |done].
    simpl. apply bool_decide_eq_false_2. intros Hlen. by apply Hshared. }
  rewrite andb_true_l, Hcond.
  destruct (ExperimentInit.check_error_sequence _) as [u|e]; [|eauto].
  rewrite create_error_sequence_entries_Elem.
  destruct (create_error_sequence_loop [] (h :: ses)) as [flat|e] eqn:Hflat; [|eauto].
  destruct (flatten_twice_marker (h :: ses) flat c Hin Hflat) as [e He].
  destruct stages as [|cls stages]; [done|].
  exists e. apply for_each_cons_raises.
  unfold ExperimentInit.instantiate, Stage.init_attrs, _create_error_sequence.
  by rewrite He.
Qed.

Lemma init_build_raises (default_results : TrialResults.t Val) base
    (instance : dict Val) instances queue stages error_sequence es tes ses e :
  _create_error_sequence error_sequence = Ret es →
  ExperimentInit.build_stage_objects stages ses = Raise e →
  ExperimentInit.init default_results base (instance :: instances) queue stages
    (ExperimentInit.ClassOf true) error_sequence tes ses = Raise e.
Proof.
  intros Hown Hbuild. unfold ExperimentInit.init. rewrite Hown. simpl.
  by rewrite Hbuild.
Qed.
End init_facts.


Section init_theorems.
Context {Val W : Type}.
Implicit Types (stages : list (ExperimentInit.stage_class Val W)).

Lemma budgeted_no_repeat_forever ses : Forall budgeted ses → no_repeat_forever ses.
Proof.
  intros H. eapply Forall_impl; [exact H|].
  intros [c|c n|n]; simpl; [done| |done]. by intros [_ ?].
Qed.

Lemma budgeted_checked ses :
  Forall budgeted ses →
  ExperimentInit.check_error_sequence (ExperimentInit.Elem <$> ses) = Ret ().
Proof.
  intros Hses. unfold ExperimentInit.check_error_sequence.
  rewrite (for_each_Ret _ (λ _, ())); [done|].
  intros x (e & -> & He)%list_elem_of_fmap.
  eapply Forall_forall in Hses; [|done].
  destruct e as [c|c n|n]; simpl in *; [by rewrite Hses| |done].
  destruct Hses as [-> _]. done.
Qed.

Lemma build_shared stages ses :
  Forall budgeted ses →
  read_as_shared stages ses →
  ∃ flat,
    _create_error_sequence ses = Ret flat
    ∧ Forall is_class flat
    ∧ ExperimentInit.build_stage_objects stages (ExperimentInit.Elem <$> ses)
      = Ret (built_stage flat <$> stages).
Proof.
  intros Hses Hshared.
  destruct (create_error_sequence_loop_classes [] ses
              (budgeted_no_repeat_forever ses Hses)) as (flat & Hflat & Hcls);
    [constructor|].
  exists flat. split; [done|]. split; [done|].
  assert (∀ cls : ExperimentInit.stage_class Val W,
            ExperimentInit.instantiate cls flat = Ret (built_stage flat cls))
    as Hinst.
  { intros cls. unfold ExperimentInit.instantiate, Stage.init_attrs,
      _create_error_sequence.
    destruct (is_class_fmap flat Hcls) as [classes ->].
    by rewrite create_error_sequence_loop_flat. }
  unfold ExperimentInit.build_stage_objects.
  destruct ses as [|h ses].
  { simpl in *. injection Hflat as <-.
    apply for_each_Ret. intros cls _. apply Hinst. }
  rewrite (bool_decide_eq_false_2 (ExperimentInit.Elem <$> h :: ses = [])) by done.
  assert (from_option ExperimentInit.is_list_or_tuple false
            ((ExperimentInit.Elem <$> h :: ses) !! 0)
          && bool_decide (length (ExperimentInit.Elem <$> h :: ses) = length stages)
          = false) as Hcond.
  { rewrite length_fmap.
    destruct Hshared as [Hlen|[?|(c & rest & [= -> ->])]]; [|done|done].
    rewrite (bool_decide_eq_false_2 _ Hlen). apply andb_false_r. }
  rewrite andb_true_l, Hcond. simpl negb. cbv iota.
  rewrite budgeted_checked by done.
  rewrite create_error_sequence_entries_Elem. fold (_create_error_sequence (h :: ses)).
  unfold _create_error_sequence. rewrite Hflat.
  apply for_each_Ret. intros cls _. apply Hinst.
Qed.

(** X21.  What [Experiment.__init__] builds.  With a subclass of
    [Trial], a stage error sequence that is read as shared by all stages,
    whose elements are subclasses of [Exception] or tuples of such a
    class and a nonzero count, and own and trial error sequences that
    flatten: the constructor returns an experiment with one trial per
    instance configuration.  Each trial is as [Trial.__init__] leaves it
    (done, at stage 0, not running), its initial state is the instance
    configuration over the base configuration, its stages are one object
    per stage class, each with the flattened stage error sequence, and
    its own sequence is the flattened trial error sequence.  Its results
    and initial results are what the shared default [TrialResults]
    object holds at the call: they are empty only as long as nothing was
    added to a [TrialResults()] built without arguments.  [errors] holds
    one 0 per trial. *)
Theorem X21_init_builds_one_done_trial_per_instance
    (default_results : TrialResults.t Val)
    (base : dict Val) (instances : list (dict Val))
    (queue : list (Experiment.kwargs Val)) stages
    (error_sequence trial_error_sequence ses : list seq_elem)
    (es tes : list seq_elem) :
  _create_error_sequence error_sequence = Ret es →
  _create_error_sequence trial_error_sequence = Ret tes →
  Forall budgeted ses →
  read_as_shared stages ses →
  ∃ flat,
    _create_error_sequence ses = Ret flat
    ∧ ExperimentInit.init default_results base instances queue stages (ExperimentInit.ClassOf true)
        error_sequence trial_error_sequence (ExperimentInit.Elem <$> ses)
      = Ret {| Experiment.trial_instances :=
                 (λ instance,
                    fresh_trial (built_stage flat <$> stages) (instance ∪ base) tes
                      default_results)
                 <$> instances;
               Experiment.base_trial_config := base;
               Experiment.per_instance_config := instances;
               Experiment.trial_arg_configs := queue;
               Experiment.error_sequence := es;
               Experiment.errors := replicate (length instances) 0%Z |}.
Proof.
  intros Hown Htrial Hses Hshared.
  destruct (build_shared stages ses Hses Hshared) as (flat & Hflat & _ & Hbuild).
  exists flat. split; [done|].
  unfold ExperimentInit.init. rewrite Hown. simpl.
  rewrite (for_each_Ret _
             (λ instance,
                fresh_trial (built_stage flat <$> stages) (instance ∪ base) tes
                  default_results)).
  - by rewrite length_fmap.
  - intros instance _. rewrite Hbuild. unfold Trial.init. rewrite Htrial.
    by destruct default_results.
Qed.

(** X22.  A stage error sequence with a repeat-forever tuple cannot
    be used.  When there is a stage class and an instance configuration,
    [Experiment.__init__] raises [TypeError] for every stage error
    sequence that holds a tuple [(cls, 0)]: [build_stage_objects]
    flattens the sequence and [Stage.__init__] flattens the result
    again. *)
Theorem X22_init_rejects_repeat_forever_stage_sequence
    (default_results : TrialResults.t Val)
    (base instance : dict Val) (instances : list (dict Val))
    (queue : list (Experiment.kwargs Val)) stages
    (error_sequence trial_error_sequence ses es : list seq_elem) (c : exc_class) :
  _create_error_sequence error_sequence = Ret es →
  stages ≠ [] →
  SPair c 0 ∈ ses →
  ∃ e,
    ExperimentInit.init default_results base (instance :: instances) queue stages
      (ExperimentInit.ClassOf true) error_sequence trial_error_sequence
      (ExperimentInit.Elem <$> ses) = Raise e
    ∧ exn_class e = TypeError.
Proof.
  intros Hown Hstages Hin.
  destruct (build_forever_raises stages ses c Hstages Hin) as [e He].
  exists e. split; [by eapply init_build_raises|].
  by eapply build_stage_objects_raises.
Qed.

(** X23.  A shared stage error sequence that begins with a tuple and
    is as long as the list of stages is taken for a list of one sequence
    per stage, and [Experiment.__init__] raises [TypeError] (there is an
    instance configuration): the first entry, a class and a count, is
    checked as a sequence of its own. *)
Theorem X23_init_misreads_sequence_as_long_as_stages
    (default_results : TrialResults.t Val)
    (base instance : dict Val) (instances : list (dict Val))
    (queue : list (Experiment.kwargs Val)) stages
    (error_sequence trial_error_sequence rest es : list seq_elem)
    (c : exc_class) (n : Z) :
  _create_error_sequence error_sequence = Ret es →
  length (SPair c n :: rest) = length stages →
  ∃ e,
    ExperimentInit.init default_results base (instance :: instances) queue stages
      (ExperimentInit.ClassOf true) error_sequence trial_error_sequence
      (ExperimentInit.Elem <$> SPair c n :: rest) = Raise e
    ∧ exn_class e = TypeError.
Proof.
  intros Hown Hlen.
  destruct (build_misread_raises stages c n rest Hlen) as [e He].
  exists e. split; [by eapply init_build_raises|].
  by eapply build_stage_objects_raises.
Qed.

(** X24.  With a list of trial classes, [Experiment.__init__] never
    builds a trial.  It returns only when both the list of instance
    configurations and the list of classes are empty, and then without
    trials.  Otherwise it raises: [TypeError] when the lists have the
    same length, from [issubclass] called on the list itself, and
    [RuntimeError] when they differ, from the bare [raise]. *)
Theorem X24_init_with_a_list_of_trial_classes
    (default_results : TrialResults.t Val)
    (base : dict Val) (instances : list (dict Val))
    (queue : list (Experiment.kwargs Val)) stages
    (error_sequence trial_error_sequence es : list seq_elem)
    (ses : list ExperimentInit.entry) (classes : list bool) :
  _create_error_sequence error_sequence = Ret es →
  match ExperimentInit.init default_results base instances queue stages
          (ExperimentInit.ClassList classes) error_sequence trial_error_sequence ses
  with
  | Ret self =>
      instances = [] ∧ classes = [] ∧ Experiment.trial_instances self = []
  | Raise e =>
      (length instances = length classes ∧ exn_class e = TypeError)
      ∨ (length instances ≠ length classes
         ∧ exn_class e = OtherException "RuntimeError")
  end.
Proof.
  intros Hown. unfold ExperimentInit.init. rewrite Hown. simpl.
  case_bool_decide as Hlen; [|by right].
  destruct instances as [|instance instances], classes as [|cls classes];
    simpl in *; try done. by left.
Qed.
End init_theorems.

(** Two instance configurations and two stage classes, after a [5] was
    added to a [TrialResults()] built without arguments: both trials
    start with the results [[5]]. *)
Lemma X21_witness :
  let default_results := TrialResults.add_data 5%Z no_results in
  let base : dict Z := {[ "rate" := 3%Z ]} in
  let instances : list (dict Z) := [∅; {[ "id" := 1%Z ]}] in
  let stages := [polled_class; polled_class] in
  ∃ flat,
    _create_error_sequence [SPair StageReset 2] = Ret flat
    ∧ ExperimentInit.init default_results base instances [entry 1] stages
        (ExperimentInit.ClassOf true)
        [] [SClass TrialReset] [ExperimentInit.Elem (SPair StageReset 2)]
      = Ret {| Experiment.trial_instances :=
                 (λ instance,
                    fresh_trial (built_stage flat <$> stages) (instance ∪ base)
                      [SClass TrialReset] default_results)
                 <$> instances;
               Experiment.base_trial_config := base;
               Experiment.per_instance_config := instances;
               Experiment.trial_arg_configs := [entry 1];
               Experiment.error_sequence := [];
               Experiment.errors := [0%Z; 0%Z] |}.
Proof.
  intros default_results base instances stages.
  exact (X21_init_builds_one_done_trial_per_instance default_results base instances
           [entry 1] stages
           [] [SClass TrialReset] [SPair StageReset 2] [] [SClass TrialReset]
           eq_refl eq_refl
           ltac:(repeat constructor; done)
           ltac:(left; discriminate)).
Defined.

Lemma X22_witness :
  ∃ e,
    ExperimentInit.init no_results (∅ : dict Z) [∅] [entry 1] [polled_class]
      (ExperimentInit.ClassOf true) [] []
      [ExperimentInit.Elem (SClass StageReset); ExperimentInit.Elem (SPair Ignore 0)]
    = Raise e
    ∧ exn_class e = TypeError.
Proof.
  exact (X22_init_rejects_repeat_forever_stage_sequence no_results ∅ ∅ [] [entry 1] [polled_class]
           [] [] [SClass StageReset; SPair Ignore 0] [] Ignore
           eq_refl ltac:(discriminate) ltac:(set_solver)).
Defined.

Lemma X23_witness :
  ∃ e,
    ExperimentInit.init no_results (∅ : dict Z) [∅] [entry 1] [polled_class; polled_class]
      (ExperimentInit.ClassOf true) [] []
      [ExperimentInit.Elem (SPair StageReset 3); ExperimentInit.Elem (SClass TrialReset)]
    = Raise e
    ∧ exn_class e = TypeError.
Proof.
  exact (X23_init_misreads_sequence_as_long_as_stages no_results ∅ ∅ [] [entry 1]
           [polled_class; polled_class] [] [] [SClass TrialReset] [] StageReset 3
           eq_refl eq_refl).
Defined.

Lemma X24_witness :
  match ExperimentInit.init no_results (∅ : dict Z) [∅] [entry 1] [polled_class]
          (ExperimentInit.ClassList [true]) [] [] []
  with
  | Ret self =>
      [∅ : dict Z] = [] ∧ [true] = [] ∧ Experiment.trial_instances self = []
  | Raise e =>
      (1 = 1 ∧ exn_class e = TypeError)
      ∨ (1 ≠ 1 ∧ exn_class e = OtherException "RuntimeError")
  end.
Proof.
  exact (X24_init_with_a_list_of_trial_classes no_results ∅ [∅] [entry 1] [polled_class]
           [] [] [] [] [true] eq_refl).
Defined.
